(** * TalkToExcel: a shallow embedding of the safety-critical paths

  The development follows the Python sources of the repository:
  - [ui/confirmation_handler.py]       confirmation parsing
  - [operations/crud_handlers.py]      query validation, condition
                                       evaluation, deletion, insertion,
                                       updates
  - [operations/query_operations.py]   condition evaluation
  - [safety/risk_assessor.py]          risk scoring
  - [operations/visualization_operations.py]  chart type detection
  - [operations/data_analysis_operations.py]  outlier detection
  - [templates/template_registry.py]   function registry
  - [excel/excel_service.py]           backups and retention

  Python values are embedded as an inductive type, [float] is the
  IEEE-754 binary64 type of the kernel, [str] is a byte string (UTF-8),
  exceptions are an explicit result type. *)

From Stdlib Require Import ZArith List String Ascii Bool Lia Floats.
From Stdlib Require Import Numbers.DecimalString.
From stdpp Require Import base option list strings gmap sorting.

Local Open Scope string_scope.
Local Open Scope Z_scope.

Set Warnings "-register-all,-inexact-float".

(** ** Python strings *)

Module PyStr.

(** [str.lower] on the ASCII range; bytes of multi-byte code points are
    left as they are. *)
Definition lower_ascii (c : ascii) : ascii :=
  let n := nat_of_ascii c in
  if ((65 <=? n)%nat && (n <=? 90)%nat)%bool then ascii_of_nat (n + 32) else c.

Fixpoint lower (s : string) : string :=
  match s with
  | EmptyString => EmptyString
  | String c r => String (lower_ascii c) (lower r)
  end.

Definition upper_ascii (c : ascii) : ascii :=
  let n := nat_of_ascii c in
  if ((97 <=? n)%nat && (n <=? 122)%nat)%bool then ascii_of_nat (n - 32) else c.

Fixpoint upper (s : string) : string :=
  match s with
  | EmptyString => EmptyString
  | String c r => String (upper_ascii c) (upper r)
  end.

(** [str.isspace] for one ASCII character: TAB, LF, VT, FF, CR, the
    separators 0x1c-0x1f and the space. *)
Definition isspace (c : ascii) : bool :=
  let n := nat_of_ascii c in
  (((9 <=? n)%nat && (n <=? 13)%nat) || ((28 <=? n)%nat && (n <=? 32)%nat))%bool.

Fixpoint lstrip (s : string) : string :=
  match s with
  | EmptyString => EmptyString
  | String c r => if isspace c then lstrip r else s
  end.

(** [rstrip] keeps a character when something that is not white space
    follows it, or when it is not white space itself. *)
Fixpoint rstrip (s : string) : string :=
  match s with
  | EmptyString => EmptyString
  | String c r =>
      match rstrip r with
      | EmptyString => if isspace c then EmptyString else String c EmptyString
      | r' => String c r'
      end
  end.

Definition strip (s : string) : string := rstrip (lstrip s).

(** [str.split()] without separator: maximal runs of characters that are
    not white space.  [cur] is the word being read, reversed. *)
Fixpoint split_go (s : string) (cur : list ascii) : list string :=
  let flush := match cur with
               | [] => []
               | _ => [string_of_list_ascii (rev cur)]
               end in
  match s with
  | EmptyString => flush
  | String c r =>
      if isspace c then flush ++ split_go r [] else split_go r (c :: cur)
  end.

Definition split (s : string) : list string := split_go s [].

(** [sub in s] *)
Fixpoint contains (sub s : string) : bool :=
  if String.prefix sub s then true
  else match s with
       | EmptyString => false
       | String _ r => contains sub r
       end.

Definition startswith (s p : string) : bool := String.prefix p s.

Definition endswith (s p : string) : bool :=
  let n := String.length s in
  let k := String.length p in
  if (k <=? n)%nat then String.eqb (String.substring (n - k) k s) p else false.

(** [s.split(sep)] for a non-empty separator. *)
Fixpoint split_on_go (fuel : nat) (sep s : string) (cur : list ascii)
  : list string :=
  match fuel with
  | O => [string_of_list_ascii (rev cur)]
  | S fuel' =>
      match s with
      | EmptyString => [string_of_list_ascii (rev cur)]
      | String c r =>
          if String.prefix sep s
          then string_of_list_ascii (rev cur)
               :: split_on_go fuel' sep
                    (String.substring (String.length sep)
                       (String.length s - String.length sep) s) []
          else split_on_go fuel' sep r (c :: cur)
      end
  end.

Definition split_on (sep s : string) : list string :=
  split_on_go (S (String.length s)) sep s [].

(** [s.rsplit('.', 1)]: the part before the last dot and the part after
    it; [None] when there is no dot. *)
Fixpoint rsplit_char (sep : ascii) (s : string) : option (string * string) :=
  match s with
  | EmptyString => None
  | String c r =>
      match rsplit_char sep r with
      | Some (a, b) => Some (String c a, b)
      | None => if Ascii.eqb c sep then Some (EmptyString, r) else None
      end
  end.

Definition rsplit_dot (s : string) : option (string * string) :=
  rsplit_char "." s.

(** [str(n).zfill(width)] for [n >= 0] *)
Fixpoint zeros (n : nat) : string :=
  match n with
  | O => EmptyString
  | S k => String "0" (zeros k)
  end.

Definition of_Z (z : Z) : string := NilZero.string_of_int (Z.to_int z).

Definition zfill (width : nat) (z : Z) : string :=
  zeros (width - String.length (of_Z z)) +:+ of_Z z.

Definition is_digit (c : ascii) : bool :=
  let n := nat_of_ascii c in ((48 <=? n)%nat && (n <=? 57)%nat)%bool.

(** [int(s)] for a string of ASCII digits *)
Definition digits_to_Z (s : string) : Z :=
  fold_left (fun acc c => 10 * acc + (Z.of_nat (nat_of_ascii c) - 48))
    (list_ascii_of_string s) 0.

Definition join (sep : string) (l : list string) : string :=
  match l with
  | [] => EmptyString
  | x :: r => fold_left (fun acc y => acc +:+ sep +:+ y) r x
  end.

End PyStr.

(** ** Python values, exceptions and comparisons *)

(** The exception classes the embedded code raises or catches. *)
Inductive exn_kind :=
| TypeError | ValueError | AttributeError | KeyError | ImportError
| NotImplementedError | OSError | PermissionError | OverflowError.

(** The outcome of a Python expression or call. *)
Inductive result (A : Type) :=
| Ok (a : A)
| Raise (k : exn_kind) (msg : string).
Arguments Ok {A} a.
Arguments Raise {A} k msg.

#[global] Instance result_ret : MRet result := fun A a => Ok a.
#[global] Instance result_bind : MBind result := fun A B f r =>
  match r with
  | Ok a => f a
  | Raise k m => Raise k m
  end.

(** JSON-like values and cell values: [None], [bool], [int], [float],
    [str], naive [datetime] (micro-seconds since the epoch), [list] and
    [dict] with string keys (in insertion order). *)
Inductive pyval :=
| VNone
| VBool (b : bool)
| VInt (z : Z)
| VFloat (f : float)
| VStr (s : string)
| VDateTime (t : Z)
| VList (l : list pyval)
| VDict (d : list (string * pyval)).

(** What [str()] gives on the values whose rendering is CPython's business
    (shortest float repr, datetime isoformat, repr of containers). *)
Class PyRuntime := { str_other : pyval -> string }.

Module Py.

Definition Z_of_bool (b : bool) : Z := if b then 1 else 0.

(** The numeric tower: [bool] is a subclass of [int]. *)
Definition as_num (v : pyval) : option (Z + float) :=
  match v with
  | VBool b => Some (inl (Z_of_bool b))
  | VInt z => Some (inl z)
  | VFloat f => Some (inr f)
  | _ => None
  end.

(** Comparison of an [int] with a [float]: exact, as CPython does it, on
    the decoded sign, mantissa and exponent.  [None] is "unordered". *)
Definition cmp_int_float (z : Z) (f : float) : option comparison :=
  match Prim2SF f with
  | S754_nan => None
  | S754_zero _ => Some (z ?= 0)
  | S754_infinity false => Some Lt
  | S754_infinity true => Some Gt
  | S754_finite s m e =>
      let v := if s then Zneg m else Zpos m in
      if 0 <=? e then Some (z ?= v * 2 ^ e) else Some (z * 2 ^ (- e) ?= v)
  end.

Definition cmp_float (f g : float) : option comparison :=
  match PrimFloat.compare f g with
  | FEq => Some Eq
  | FLt => Some Lt
  | FGt => Some Gt
  | FNotComparable => None
  end.

Definition cmp_num (a b : Z + float) : option comparison :=
  match a, b with
  | inl x, inl y => Some (x ?= y)
  | inr f, inr g => cmp_float f g
  | inl x, inr g => cmp_int_float x g
  | inr f, inl y => option_map CompOpp (cmp_int_float y f)
  end.

(** [dict] lookup by key. *)
Fixpoint dict_get {A} (k : string) (d : list (string * A)) : option A :=
  match d with
  | [] => None
  | (k', v) :: r => if String.eqb k k' then Some v else dict_get k r
  end.

(** [d[k] = v]: an existing key keeps its position. *)
Fixpoint dict_set {A} (k : string) (v : A) (d : list (string * A))
  : list (string * A) :=
  match d with
  | [] => [(k, v)]
  | (k', v') :: r =>
      if String.eqb k k' then (k, v) :: r else (k', v') :: dict_set k v r
  end.

Definition dict_has {A} (k : string) (d : list (string * A)) : bool :=
  match dict_get k d with Some _ => true | None => false end.

(** [a == b] *)
Fixpoint py_eq (a b : pyval) {struct a} : bool :=
  match a, b with
  | VNone, VNone => true
  | VStr s, VStr t => String.eqb s t
  | VDateTime s, VDateTime t => s =? t
  | VList la, VList lb =>
      (fix go (la lb : list pyval) {struct la} : bool :=
         match la, lb with
         | [], [] => true
         | x :: xs, y :: ys => py_eq x y && go xs ys
         | _, _ => false
         end) la lb
  | VDict da, VDict db =>
      (length da =? length db)%nat &&
      (fix go (da : list (string * pyval)) {struct da} : bool :=
         match da with
         | [] => true
         | (k, v) :: r =>
             match dict_get k db with
             | Some w => py_eq v w && go r
             | None => false
             end
         end) da
  | _, _ =>
      match as_num a, as_num b with
      | Some x, Some y =>
          match cmp_num x y with Some Eq => true | _ => false end
      | _, _ => false
      end
  end.

(** The four ordering operators. *)
Inductive cmpop := OpLt | OpLe | OpGt | OpGe.

Definition holds (op : cmpop) (c : option comparison) : bool :=
  match c, op with
  | Some Lt, (OpLt | OpLe) => true
  | Some Eq, (OpLe | OpGe) => true
  | Some Gt, (OpGt | OpGe) => true
  | _, _ => false
  end.

Definition cmp_string (s t : string) : comparison := String.compare s t.

Definition unorderable : string := "'<' not supported between instances".

(** [a op b] for an ordering operator: numbers among themselves, strings
    by code point, datetimes, lists lexicographically (the first pair of
    elements that are not [==] decides); anything else is a [TypeError]. *)
Fixpoint py_cmp (op : cmpop) (a b : pyval) {struct a} : result bool :=
  match a, b with
  | VStr s, VStr t => Ok (holds op (Some (cmp_string s t)))
  | VDateTime s, VDateTime t => Ok (holds op (Some (s ?= t)))
  | VList la, VList lb =>
      (fix go (la lb : list pyval) {struct la} : result bool :=
         match la, lb with
         | [], [] => Ok (holds op (Some Eq))
         | [], _ :: _ => Ok (holds op (Some Lt))
         | _ :: _, [] => Ok (holds op (Some Gt))
         | x :: xs, y :: ys => if py_eq x y then go xs ys else py_cmp op x y
         end) la lb
  | _, _ =>
      match as_num a, as_num b with
      | Some x, Some y => Ok (holds op (cmp_num x y))
      | _, _ => Raise TypeError unorderable
      end
  end.

(** Truth value: [bool(v)] *)
Definition truthy (v : pyval) : bool :=
  match v with
  | VNone => false
  | VBool b => b
  | VInt z => negb (z =? 0)
  | VFloat f => negb (PrimFloat.eqb f 0%float)
  | VStr s => negb (String.eqb s "")
  | VDateTime _ => true
  | VList l => match l with [] => false | _ => true end
  | VDict d => match d with [] => false | _ => true end
  end.

(** [isinstance(v, (int, float))]: booleans are ints. *)
Definition is_int_or_float (v : pyval) : bool :=
  match v with
  | VBool _ | VInt _ | VFloat _ => true
  | _ => false
  end.

Section Str.
Context `{PyRuntime}.

(** [str(v)] *)
Definition str (v : pyval) : string :=
  match v with
  | VNone => "None"
  | VBool true => "True"
  | VBool false => "False"
  | VInt z => PyStr.of_Z z
  | VStr s => s
  | _ => str_other v
  end.

End Str.

End Py.

(** A runtime for the concrete runs below: they use values whose [str]
    the model fixes itself. *)
Definition run_time : PyRuntime := {| str_other := fun _ => "<object>" |}.

(** ** Worksheets ([openpyxl])

    A worksheet is a dense grid: the list of its rows, row 1 first, each the
    list of its cell values, column 1 first; a cell outside the grid reads
    [None].  Reading never changes the grid. *)

Abbreviation Worksheet := (list (list pyval)).
Abbreviation dict := (list (string * pyval)).

Module Openpyxl.

(** [sheet.max_row]: 1 on an empty sheet. *)
Definition max_row (ws : Worksheet) : Z := Z.max 1 (Z.of_nat (length ws)).

(** [sheet.max_column] *)
Definition max_column (ws : Worksheet) : Z :=
  Z.max 1 (Z.of_nat (foldr (fun r m => Nat.max (length r) m) O ws)).

(** [sheet.cell(row, column).value] for [row >= 1] and [column >= 1] *)
Definition cell_value (ws : Worksheet) (row col : Z) : pyval :=
  match ws !! Z.to_nat (row - 1) with
  | Some r => default VNone (r !! Z.to_nat (col - 1))
  | None => VNone
  end.

(** [sheet.cell(row, column).value] as the library guards it *)
Definition cell (ws : Worksheet) (row col : Z) : result pyval :=
  if ((row <? 1) || (col <? 1))%bool
  then Raise ValueError "Row or column values must be at least 1"
  else Ok (cell_value ws row col).

(** [sheet.delete_rows(idx)]: the rows below move up by one.  Every call
    of the embedded code has [idx >= 2]. *)
Definition delete_rows (ws : Worksheet) (idx : Z) : Worksheet :=
  if 1 <=? idx then delete (Z.to_nat (idx - 1)) ws else ws.

(** [cell.value = v] for a cell of the grid *)
Definition set_cell (ws : Worksheet) (row col : Z) (v : pyval) : Worksheet :=
  match ws !! Z.to_nat (row - 1) with
  | Some r => <[Z.to_nat (row - 1) := <[Z.to_nat (col - 1) := v]> r]> ws
  | None => ws
  end.

(** [get_column_letter]: 1 is A, 26 is Z, 27 is AA. *)
Fixpoint column_letter_go (fuel : nat) (col : Z) (acc : string) : string :=
  match fuel with
  | O => acc
  | S fuel' =>
      if col <=? 0 then acc
      else
        let r := (col - 1) mod 26 in
        column_letter_go fuel' ((col - 1) / 26)
          (String (ascii_of_nat (65 + Z.to_nat r)) acc)
  end.

Definition get_column_letter (col : Z) : string :=
  column_letter_go (S (Z.to_nat col)) col "".

(** [cell.coordinate] *)
Definition coordinate (row col : Z) : string :=
  get_column_letter col +:+ PyStr.of_Z row.

(** What [sheet[ref]] denotes: one cell, or the cells of a block in
    iteration order. *)
Inductive range_ref :=
| SingleCell (row col : Z)
| CellBlock (cells : list (Z * Z)).

End Openpyxl.

(** The reference grammar of [sheet[ref]] is the library's: [None] is an
    invalid reference. *)
Class RangeSyntax := { resolve_range : Worksheet -> string -> option Openpyxl.range_ref }.

(** ** The Excel service ([excel/excel_service.py]) *)

Module ExcelService.

(** [ExcelStructure] *)
Record ExcelStructure := {
  sheets : list string;
  headers : list (string * list string);
  data_types : list (string * list (string * string));
  row_count : list (string * Z);
  column_count : list (string * Z)
}.

(** What [get_sheet_info] returns, as a record. *)
Record SheetInfo := {
  info_headers : list string;
  info_data_types : list (string * string);
  info_row_count : Z;
  info_column_count : Z
}.

Definition get_sheet_info (s : ExcelStructure) (sheet_name : string) : SheetInfo :=
  {| info_headers := default [] (Py.dict_get sheet_name (headers s));
     info_data_types := default [] (Py.dict_get sheet_name (data_types s));
     info_row_count := default 0 (Py.dict_get sheet_name (row_count s));
     info_column_count := default 0 (Py.dict_get sheet_name (column_count s)) |}.

(** The service: the open workbook (sheet names in order, each with its
    grid), the path of the file and the analysed structure. *)
Record t := {
  workbook : option (list (string * Worksheet));
  file_path : option string;
  structure : option ExcelStructure
}.

Definition get_structure (svc : t) : option ExcelStructure := structure svc.

Definition get_sheet_names (svc : t) : list string :=
  match workbook svc with
  | None => []
  | Some wb => map fst wb
  end.

Definition get_sheet (svc : t) (sheet_name : string) : option Worksheet :=
  match workbook svc with
  | None => None
  | Some wb => Py.dict_get sheet_name wb
  end.

(** The effect of mutating the worksheet object held by the workbook. *)
Definition put_sheet (svc : t) (sheet_name : string) (ws : Worksheet) : t :=
  {| workbook := option_map (Py.dict_set sheet_name ws) (workbook svc);
     file_path := file_path svc;
     structure := structure svc |}.

Section Analysis.
Context `{PyRuntime}.

(** [_detect_column_type] *)
Definition cell_type (v : pyval) : string :=
  match v with
  | VBool _ => "boolean"
  | VInt _ | VFloat _ => "number"
  | VDateTime _ => "date"
  | _ => "text"
  end.

Definition _detect_column_type (sheet : Worksheet) (col start_row end_row : Z)
  : string :=
  let stop := Z.min (end_row + 1) (Openpyxl.max_row sheet + 1) in
  let types_found :=
    foldl (fun acc row =>
             match Openpyxl.cell_value sheet row col with
             | VNone => acc
             | v => if bool_decide (cell_type v ∈ acc) then acc
                    else (acc ++ [cell_type v])%list
             end)
          [] (seqZ start_row (stop - start_row)) in
  match types_found with
  | [] => "empty"
  | [ty] => ty
  | _ => "mixed"
  end.

(** [_analyze_sheet] *)
Definition _analyze_sheet (sheet : Worksheet)
  : list string * list (string * string) * Z * Z :=
  let max_row := Openpyxl.max_row sheet in
  let max_col := Openpyxl.max_column sheet in
  let has_data :=
    existsb (fun row =>
      existsb (fun col =>
        match Openpyxl.cell_value sheet row col with
        | VNone => false
        | _ => true
        end) (seqZ 1 max_col)) (seqZ 1 max_row) in
  if negb has_data then ([], [], 0, 0)
  else
    let hdrs :=
      map (fun col =>
             match Openpyxl.cell_value sheet 1 col with
             | VNone => "Column_" +:+ PyStr.of_Z col
             | v => Py.str v
             end) (seqZ 1 max_col) in
    let sample_rows := Z.min 10 (max_row - 1) in
    let types :=
      foldl (fun acc '(col_idx, header) =>
               Py.dict_set header
                 (_detect_column_type sheet col_idx 2 (sample_rows + 1)) acc)
            [] (zip (seqZ 1 (Z.of_nat (length hdrs))) hdrs) in
    (hdrs, types, max_row, max_col).

(** [_analyze_structure] of an open workbook *)
Definition _analyze_structure (wb : list (string * Worksheet)) : ExcelStructure :=
  foldl (fun s '(sheet_name, sheet) =>
           let '(h, ty, rows, cols) := _analyze_sheet sheet in
           {| sheets := (sheets s ++ [sheet_name])%list;
              headers := Py.dict_set sheet_name h (headers s);
              data_types := Py.dict_set sheet_name ty (data_types s);
              row_count := Py.dict_set sheet_name rows (row_count s);
              column_count := Py.dict_set sheet_name cols (column_count s) |})
        {| sheets := []; headers := []; data_types := [];
           row_count := []; column_count := [] |} wb.

End Analysis.

End ExcelService.

(** ** Query handling ([operations/crud_handlers.py], [DataQueryHandler]) *)

Module OperationResult.
Record t := {
  success : bool;
  message : string;
  affected_rows : Z;
  affected_columns : Z;
  data : option pyval;
  warnings : list string
}.
(** [OperationResult(success=s, message=m)] *)
Definition make (s : bool) (m : string) : t :=
  {| success := s; message := m; affected_rows := 0; affected_columns := 0;
     data := None; warnings := [] |}.
End OperationResult.

Module QueryData.
Record t := {
  target_sheet : string;
  columns : option (list string);
  conditions : option dict;
  sort_by : option string;
  sort_order : string;
  limit : option Z;
  aggregations : option (list (string * string))
}.
End QueryData.

Module QueryResult.
Record t := {
  success : bool;
  message : string;
  data : list dict;
  headers : list string;
  row_count : Z;
  aggregation_results : option dict
}.
(** [QueryResult(success=s, message=m)] *)
Definition make (s : bool) (m : string) : t :=
  {| success := s; message := m; data := []; headers := []; row_count := 0;
     aggregation_results := None |}.
End QueryResult.

Module DataQueryHandler.

(** [_validate_query] *)
Definition _validate_query (svc : ExcelService.t) (query : QueryData.t)
  : OperationResult.t :=
  if String.eqb (QueryData.target_sheet query) "" then
    OperationResult.make false "Target sheet not specified"
  else if negb (bool_decide
                  (QueryData.target_sheet query ∈ ExcelService.get_sheet_names svc)) then
    OperationResult.make false
      ("Sheet '" +:+ QueryData.target_sheet query +:+ "' does not exist")
  else if negb (bool_decide (QueryData.sort_order query ∈ ["asc"; "desc"])) then
    OperationResult.make false "Sort order must be 'asc' or 'desc'"
  else if match QueryData.limit query with
          | Some l => l <? 1
          | None => false
          end then
    OperationResult.make false "Limit must be greater than 0"
  else if match QueryData.limit query with
          | None => true
          | Some l => 10000 <? l
          end then
    OperationResult.make false
      "Query result limited to 10000 rows for safety. Please add a limit parameter."
  else OperationResult.make true "Validation passed".

Section Handler.
Context `{PyRuntime}.

(** The body of [_evaluate_condition], inside its [try]. *)
Definition evaluate_condition_body (record_value operator condition_value : pyval)
  : result bool :=
  if Py.py_eq operator (VStr "=") then Ok (Py.py_eq record_value condition_value)
  else if Py.py_eq operator (VStr "!=") then
    Ok (negb (Py.py_eq record_value condition_value))
  else if Py.py_eq operator (VStr ">") then Py.py_cmp Py.OpGt record_value condition_value
  else if Py.py_eq operator (VStr ">=") then Py.py_cmp Py.OpGe record_value condition_value
  else if Py.py_eq operator (VStr "<") then Py.py_cmp Py.OpLt record_value condition_value
  else if Py.py_eq operator (VStr "<=") then Py.py_cmp Py.OpLe record_value condition_value
  else if Py.py_eq operator (VStr "contains") then
    Ok (PyStr.contains (PyStr.lower (Py.str condition_value))
          (PyStr.lower (Py.str record_value)))
  else if Py.py_eq operator (VStr "starts_with") then
    Ok (PyStr.startswith (PyStr.lower (Py.str record_value))
          (PyStr.lower (Py.str condition_value)))
  else if Py.py_eq operator (VStr "ends_with") then
    Ok (PyStr.endswith (PyStr.lower (Py.str record_value))
          (PyStr.lower (Py.str condition_value)))
  else Ok false.

(** The operators the chain of [if]/[elif] knows. *)
Definition supported_operators : list string :=
  ["="; "!="; ">"; ">="; "<"; "<="; "contains"; "starts_with"; "ends_with"].

(** [_evaluate_condition]: [except (TypeError, ValueError): return False] *)
Definition _evaluate_condition (record_value operator condition_value : pyval)
  : result bool :=
  match evaluate_condition_body record_value operator condition_value with
  | Raise (TypeError | ValueError) _ => Ok false
  | r => r
  end.

(** One row of [_extract_sheet_data]: the record and whether a cell of it
    is not [None]. *)
Definition read_record (sheet : Worksheet) (headers : list string) (row_num : Z)
  : dict * bool :=
  foldl (fun '(record, has_data) '(col_idx, header) =>
           let cell_value := Openpyxl.cell_value sheet row_num col_idx in
           (Py.dict_set header cell_value record,
            (has_data || negb (Py.py_eq cell_value VNone))%bool))
        ([], false) (zip (seqZ 1 (Z.of_nat (length headers))) headers).

(** [_extract_sheet_data] *)
Definition _extract_sheet_data (sheet : Worksheet) (headers : list string)
  (max_rows : option Z) : list dict :=
  let start_row := 2 in
  let end_row := Openpyxl.max_row sheet + 1 in
  let end_row :=
    match max_rows with
    | Some m => if m =? 0 then end_row else Z.min (start_row + m) end_row
    | None => end_row
    end in
  omap (fun row_num =>
          let '(record, has_data) := read_record sheet headers row_num in
          if has_data then Some record else None)
       (seqZ start_row (end_row - start_row)).

(** One [column, condition] pair of the filter loops: [Ok false] is the
    [matches = False; break]. *)
Definition condition_holds (record : dict) (column : string) (condition : pyval)
  : result bool :=
  match Py.dict_get column record with
  | None => Ok false
  | Some record_value =>
      match condition with
      | VDict d =>
          let operator := default (VStr "=") (Py.dict_get "operator" d) in
          let value := default VNone (Py.dict_get "value" d) in
          _evaluate_condition record_value operator value
      | _ => Ok (Py.py_eq record_value condition)
      end
  end.

(** The inner loop over [conditions.items()], with its [break]. *)
Fixpoint record_matches (record : dict) (conditions : dict) : result bool :=
  match conditions with
  | [] => Ok true
  | (column, condition) :: rest =>
      b ← condition_holds record column condition;
      if b : bool then record_matches record rest else Ok false
  end.

(** [query_data] up to its validation gate.  What follows the gate (sheet
    and structure lookup, extraction, filtering, column selection, sorting,
    limit, aggregation) is [run_query]. *)
Variable run_query : ExcelService.t -> QueryData.t -> QueryResult.t.

Definition query_data (svc : ExcelService.t) (query : QueryData.t)
  : QueryResult.t :=
  let validation_result := _validate_query svc query in
  if negb (OperationResult.success validation_result) then
    QueryResult.make false (OperationResult.message validation_result)
  else run_query svc query.

End Handler.

End DataQueryHandler.

(** ** Deletion ([operations/crud_handlers.py], [DataDeletionHandler]) *)

Module DeletionData.
Record t := {
  target_sheet : string;
  conditions : option dict;
  target_rows : option (list Z);
  target_range : option string;
  unique_identifier : option dict;
  confirmation_required : bool
}.
End DeletionData.

Module DeletionResult.
Record t := {
  success : bool;
  message : string;
  affected_rows : Z;
  deleted_data : list dict;
  warnings : list string;
  requires_confirmation : bool;
  confirmation_prompt : option string
}.
(** [DeletionResult(success=s, message=m)] *)
Definition make (s : bool) (m : string) : t :=
  {| success := s; message := m; affected_rows := 0; deleted_data := [];
     warnings := []; requires_confirmation := false;
     confirmation_prompt := None |}.
(** [DeletionResult(success=s, message=m, affected_rows=n, deleted_data=d)] *)
Definition make_data (s : bool) (m : string) (n : Z) (d : list dict) : t :=
  {| success := s; message := m; affected_rows := n; deleted_data := d;
     warnings := []; requires_confirmation := false;
     confirmation_prompt := None |}.
End DeletionResult.

(** What the file system answers during one call: the path
    [create_backup] returns, and how [workbook.save] ends. *)
Record Disk := {
  backup_path : option string;
  save_outcome : result unit
}.

Module DataDeletionHandler.

Import DeletionData DeletionResult.

Definition nl : string := String (ascii_of_nat 10) EmptyString.

Definition len {A} (l : list A) : Z := Z.of_nat (length l).

(** [sorted(l, reverse=True)] on row numbers *)
Definition sorted_reverse (l : list Z) : list Z :=
  merge_sort Z.ge l.

(** [save_workbook(create_backup=False)] *)
Definition save_workbook (svc : ExcelService.t) (disk : Disk) : result bool :=
  match ExcelService.workbook svc, ExcelService.file_path svc with
  | Some _, Some p =>
      if String.eqb p "" then Ok false
      else match save_outcome disk with
           | Ok _ => Ok true
           | Raise k m => Raise k m
           end
  | _, _ => Ok false
  end.

Section Handler.
Context `{PyRuntime} `{RangeSyntax}.

(** [_validate_deletion_data] *)
Definition _validate_deletion_data (svc : ExcelService.t) (deletion_data : DeletionData.t)
  : OperationResult.t :=
  if String.eqb (target_sheet deletion_data) "" then
    OperationResult.make false "Target sheet not specified"
  else if negb (bool_decide
                  (target_sheet deletion_data ∈ ExcelService.get_sheet_names svc)) then
    OperationResult.make false
      ("Sheet '" +:+ target_sheet deletion_data +:+ "' does not exist")
  else
    let targets_specified :=
      (if target_rows deletion_data is Some _ then 1 else 0)
      + (if target_range deletion_data is Some _ then 1 else 0)
      + (if conditions deletion_data is Some _ then 1 else 0)
      + (if unique_identifier deletion_data is Some _ then 1 else 0) in
    if targets_specified =? 0 then
      OperationResult.make false
        "No deletion target specified (rows, range, conditions, or unique identifier)"
    else if 1 <? targets_specified then
      OperationResult.make false
        "Multiple deletion targets specified. Please specify only one."
    else
      match target_rows deletion_data with
      | Some rows =>
          match List.find (fun row_num => row_num <? 2) rows with
          | Some row_num =>
              OperationResult.make false
                ("Cannot delete header row or row " +:+ PyStr.of_Z row_num
                 +:+ ". Row numbers must be >= 2.")
          | None => OperationResult.make true "Validation passed"
          end
      | None => OperationResult.make true "Validation passed"
      end.

(** [deletion_data.conditions.items()] *)
Definition items (conds : option dict) : result dict :=
  match conds with
  | Some d => Ok d
  | None => Raise AttributeError "'NoneType' object has no attribute 'items'"
  end.

(** The loop of [_preview_by_conditions] over [raw_data] *)
Fixpoint matching_records (raw_data : list dict) (conds : option dict)
  : result (list dict) :=
  match raw_data with
  | [] => Ok []
  | record :: rest =>
      cs ← items conds;
      b ← DataQueryHandler.record_matches record cs;
      tl ← matching_records rest conds;
      Ok (if b : bool then record :: tl else tl)
  end.

(** The loop of [_delete_by_conditions] over [enumerate(raw_data, row_idx)] *)
Fixpoint matching_row_numbers (row_idx : Z) (raw_data : list dict)
  (conds : option dict) : result (list Z) :=
  match raw_data with
  | [] => Ok []
  | record :: rest =>
      cs ← items conds;
      b ← DataQueryHandler.record_matches record cs;
      tl ← matching_row_numbers (row_idx + 1) rest conds;
      Ok (if b : bool then row_idx :: tl else tl)
  end.

Definition sheet_headers (structure : ExcelService.ExcelStructure) (deletion_data : DeletionData.t)
  : list string :=
  ExcelService.info_headers
    (ExcelService.get_sheet_info structure (target_sheet deletion_data)).

(** [_preview_by_conditions] *)
Definition _preview_by_conditions (svc : ExcelService.t) (sheet : Worksheet)
  (deletion_data : DeletionData.t) : DeletionResult.t :=
  match ExcelService.get_structure svc with
  | None => make false "Unable to analyze sheet structure"
  | Some structure =>
      let headers := sheet_headers structure deletion_data in
      let raw_data := DataQueryHandler._extract_sheet_data sheet headers None in
      match matching_records raw_data (conditions deletion_data) with
      | Raise _ e => make false ("Failed to preview conditional deletion: " +:+ e)
      | Ok records =>
          make_data true
            ("Would delete " +:+ PyStr.of_Z (len records)
             +:+ " rows matching conditions")
            (len records) records
      end
  end.

(** [_preview_by_unique_identifier] *)
Definition _preview_by_unique_identifier (svc : ExcelService.t) (sheet : Worksheet)
  (deletion_data : DeletionData.t) : DeletionResult.t :=
  _preview_by_conditions svc sheet
    {| target_sheet := target_sheet deletion_data;
       conditions := unique_identifier deletion_data;
       target_rows := None; target_range := None; unique_identifier := None;
       confirmation_required := true |}.

(** [_preview_specific_rows] *)
Definition _preview_specific_rows (svc : ExcelService.t) (sheet : Worksheet)
  (deletion_data : DeletionData.t) : DeletionResult.t :=
  match ExcelService.get_structure svc with
  | None => make false "Unable to analyze sheet structure"
  | Some structure =>
      let headers := sheet_headers structure deletion_data in
      match target_rows deletion_data with
      | None =>
          make false ("Failed to preview row deletion: "
                      +:+ "'NoneType' object is not iterable")
      | Some row_numbers =>
          let valid_rows :=
            List.filter (fun row_num =>
                           negb ((row_num <? 2)
                                 || (Openpyxl.max_row sheet <? row_num)))
                        row_numbers in
          make_data true
            ("Would delete " +:+ PyStr.of_Z (len valid_rows) +:+ " rows")
            (len valid_rows)
            (map (fun row_num =>
                    fst (DataQueryHandler.read_record sheet headers row_num))
                 valid_rows)
      end
  end.

(** The [{"cell": ..., "value": ...}] entries of a range, for its cells
    that are not empty. *)
Definition range_entries (sheet : Worksheet) (target : string)
  (ref : Openpyxl.range_ref) : list dict :=
  match ref with
  | Openpyxl.SingleCell r c =>
      match Openpyxl.cell_value sheet r c with
      | VNone => []
      | v => [[("cell", VStr target); ("value", v)]]
      end
  | Openpyxl.CellBlock cells =>
      omap (fun '(r, c) =>
              match Openpyxl.cell_value sheet r c with
              | VNone => None
              | v => Some [("cell", VStr (Openpyxl.coordinate r c)); ("value", v)]
              end) cells
  end.

Definition range_name (deletion_data : DeletionData.t) : string :=
  default "None" (target_range deletion_data).

Definition lookup_range (sheet : Worksheet) (deletion_data : DeletionData.t)
  : option Openpyxl.range_ref :=
  r ← target_range deletion_data; resolve_range sheet r.

(** [_preview_specific_range] *)
Definition _preview_specific_range (sheet : Worksheet) (deletion_data : DeletionData.t)
  : DeletionResult.t :=
  match lookup_range sheet deletion_data with
  | None => make false ("Invalid range reference: " +:+ range_name deletion_data)
  | Some ref =>
      let entries := range_entries sheet (range_name deletion_data) ref in
      make_data true
        ("Would clear " +:+ PyStr.of_Z (len entries) +:+ " cells in range "
         +:+ range_name deletion_data)
        0 entries
  end.

(** [_preview_deletion] *)
Definition _preview_deletion (svc : ExcelService.t) (sheet : Worksheet)
  (deletion_data : DeletionData.t) : DeletionResult.t :=
  if target_rows deletion_data is Some _ then
    _preview_specific_rows svc sheet deletion_data
  else if target_range deletion_data is Some _ then
    _preview_specific_range sheet deletion_data
  else if conditions deletion_data is Some _ then
    _preview_by_conditions svc sheet deletion_data
  else if unique_identifier deletion_data is Some _ then
    _preview_by_unique_identifier svc sheet deletion_data
  else make false "No valid deletion target specified for preview".

(** [_generate_confirmation_prompt] *)
Definition sample_line (i : Z) (record : dict) : string :=
  "  Row " +:+ PyStr.of_Z (i + 1) +:+ ": "
  +:+ PyStr.join ", "
        (map (fun '(key, value) => key +:+ ": " +:+ Py.str value) (take 3 record))
  +:+ nl.

Definition _generate_confirmation_prompt (preview_result : DeletionResult.t)
  : string :=
  if affected_rows preview_result =? 0 then
    "No data would be deleted. Proceed anyway?"
  else
    let prompt :=
      "This will delete " +:+ PyStr.of_Z (affected_rows preview_result)
      +:+ " row(s). " in
    let data := deleted_data preview_result in
    let prompt :=
      match data with
      | [] => prompt
      | _ =>
          let sample_size := Z.min 3 (len data) in
          let lines :=
            map (fun '(i, record) => sample_line i record)
                (zip (seqZ 0 sample_size) (take (Z.to_nat sample_size) data)) in
          let prompt :=
            prompt +:+ "Sample of data to be deleted:" +:+ nl
            +:+ PyStr.join "" lines in
          if sample_size <? len data then
            prompt +:+ "  ... and " +:+ PyStr.of_Z (len data - sample_size)
            +:+ " more" +:+ nl
          else prompt
      end in
    prompt +:+ nl
    +:+ "Are you sure you want to proceed with this deletion? (This action cannot be undone without restoring from backup)".

(** The tail shared by the three deletion strategies: save the workbook,
    re-analyse the structure, report.  [saved] is the message when
    [save_workbook] returns [False], [failed] the prefix of the [except]
    branch. *)
Definition commit (svc : ExcelService.t) (disk : Disk) (saved failed : string)
  (done : DeletionResult.t) : DeletionResult.t * ExcelService.t :=
  match save_workbook svc disk with
  | Raise _ e => (make false (failed +:+ e), svc)
  | Ok false => (make false saved, svc)
  | Ok true =>
      (done,
       {| ExcelService.workbook := ExcelService.workbook svc;
          ExcelService.file_path := ExcelService.file_path svc;
          ExcelService.structure :=
            option_map ExcelService._analyze_structure (ExcelService.workbook svc) |})
  end.

(** [_delete_by_conditions] *)
Definition _delete_by_conditions (svc : ExcelService.t) (disk : Disk)
  (sheet : Worksheet) (deletion_data : DeletionData.t) : DeletionResult.t * ExcelService.t :=
  let preview_result := _preview_by_conditions svc sheet deletion_data in
  if negb (success preview_result) then (preview_result, svc)
  else if affected_rows preview_result =? 0 then
    (make_data true "No rows matched the specified conditions" 0 [], svc)
  else
    match ExcelService.get_structure svc with
    | None => (make false "Unable to analyze sheet structure", svc)
    | Some structure =>
        let headers := sheet_headers structure deletion_data in
        let raw_data := DataQueryHandler._extract_sheet_data sheet headers None in
        match matching_row_numbers 2 raw_data (conditions deletion_data) with
        | Raise _ e => (make false ("Failed to delete by conditions: " +:+ e), svc)
        | Ok rows =>
            let sheet' := foldl Openpyxl.delete_rows sheet (sorted_reverse rows) in
            let deleted_count := len (sorted_reverse rows) in
            commit (ExcelService.put_sheet svc (target_sheet deletion_data) sheet')
              disk "Failed to save workbook after conditional deletion"
              "Failed to delete by conditions: "
              (make_data true
                 ("Successfully deleted " +:+ PyStr.of_Z deleted_count
                  +:+ " rows matching conditions")
                 deleted_count (deleted_data preview_result))
        end
    end.

(** [_delete_by_unique_identifier] *)
Definition _delete_by_unique_identifier (svc : ExcelService.t) (disk : Disk)
  (sheet : Worksheet) (deletion_data : DeletionData.t) : DeletionResult.t * ExcelService.t :=
  let '(result, svc') :=
    _delete_by_conditions svc disk sheet
      {| target_sheet := target_sheet deletion_data;
         conditions := unique_identifier deletion_data;
         target_rows := None; target_range := None; unique_identifier := None;
         confirmation_required := confirmation_required deletion_data |} in
  if (success result && (1 <? affected_rows result))%bool then
    ({| success := success result; message := message result;
        affected_rows := affected_rows result;
        deleted_data := deleted_data result;
        warnings :=
          (warnings result
           ++ ["Unique identifier matched " +:+ PyStr.of_Z (affected_rows result)
               +:+ " rows. Consider using a more specific identifier."])%list;
        requires_confirmation := requires_confirmation result;
        confirmation_prompt := confirmation_prompt result |}, svc')
  else (result, svc').

(** [_delete_specific_rows] *)
Definition _delete_specific_rows (svc : ExcelService.t) (disk : Disk)
  (sheet : Worksheet) (deletion_data : DeletionData.t) : DeletionResult.t * ExcelService.t :=
  match target_rows deletion_data with
  | None =>
      (make false ("Failed to delete rows: " +:+ "'NoneType' object is not iterable"),
       svc)
  | Some rows =>
      let row_numbers := sorted_reverse rows in
      let preview_result := _preview_specific_rows svc sheet deletion_data in
      if negb (success preview_result) then (preview_result, svc)
      else
        let '(sheet', deleted_count) :=
          foldl (fun '(sh, n) row_num =>
                   if ((row_num <? 2) || (Openpyxl.max_row sh <? row_num))%bool
                   then (sh, n)
                   else (Openpyxl.delete_rows sh row_num, n + 1))
                (sheet, 0) row_numbers in
        commit (ExcelService.put_sheet svc (target_sheet deletion_data) sheet')
          disk "Failed to save workbook after row deletion"
          "Failed to delete rows: "
          (make_data true
             ("Successfully deleted " +:+ PyStr.of_Z deleted_count +:+ " rows")
             deleted_count (deleted_data preview_result))
  end.

(** [_delete_specific_range]: each cell is tested when the loop reaches it. *)
Definition _delete_specific_range (svc : ExcelService.t) (disk : Disk)
  (sheet : Worksheet) (deletion_data : DeletionData.t) : DeletionResult.t * ExcelService.t :=
  let preview_result := _preview_specific_range sheet deletion_data in
  if negb (success preview_result) then (preview_result, svc)
  else
    match lookup_range sheet deletion_data with
    | None =>
        (make false ("Invalid range reference: " +:+ range_name deletion_data), svc)
    | Some ref =>
        let cells :=
          match ref with
          | Openpyxl.SingleCell r c => [(r, c)]
          | Openpyxl.CellBlock cells => cells
          end in
        let '(sheet', cells_cleared) :=
          foldl (fun '(sh, n) '(r, c) =>
                   if Py.py_eq (Openpyxl.cell_value sh r c) VNone then (sh, n)
                   else (Openpyxl.set_cell sh r c VNone, n + 1))
                (sheet, 0) cells in
        commit (ExcelService.put_sheet svc (target_sheet deletion_data) sheet')
          disk "Failed to save workbook after range deletion"
          "Failed to delete range: "
          (make_data true
             ("Successfully cleared " +:+ PyStr.of_Z cells_cleared
              +:+ " cells in range " +:+ range_name deletion_data)
             0 (deleted_data preview_result))
    end.

(** [delete_data] *)
Definition delete_data (svc : ExcelService.t) (disk : Disk) (deletion_data : DeletionData.t)
  (confirmed : bool) : DeletionResult.t * ExcelService.t :=
  let validation_result := _validate_deletion_data svc deletion_data in
  if negb (OperationResult.success validation_result) then
    (make false (OperationResult.message validation_result), svc)
  else
    match ExcelService.get_sheet svc (target_sheet deletion_data) with
    | None =>
        (make false ("Sheet '" +:+ target_sheet deletion_data +:+ "' not found"), svc)
    | Some sheet =>
        let preview_result := _preview_deletion svc sheet deletion_data in
        if negb (success preview_result) then (preview_result, svc)
        else if 50 <? affected_rows preview_result then
          (make false
             ("Deletion would affect " +:+ PyStr.of_Z (affected_rows preview_result)
              +:+ " rows. Limited to 50 rows for safety. Please use more specific conditions."),
           svc)
        else if (confirmation_required deletion_data && negb confirmed)%bool then
          ({| success := false;
              message := "Confirmation required for deletion operation";
              affected_rows := affected_rows preview_result;
              deleted_data := deleted_data preview_result;
              warnings := [];
              requires_confirmation := true;
              confirmation_prompt :=
                Some (_generate_confirmation_prompt preview_result) |}, svc)
        else if target_rows deletion_data is Some _ then
          _delete_specific_rows svc disk sheet deletion_data
        else if target_range deletion_data is Some _ then
          _delete_specific_range svc disk sheet deletion_data
        else if conditions deletion_data is Some _ then
          _delete_by_conditions svc disk sheet deletion_data
        else if unique_identifier deletion_data is Some _ then
          _delete_by_unique_identifier svc disk sheet deletion_data
        else (make false "No valid deletion target specified", svc)
    end.

(** [delete_by_condition] *)
Definition delete_by_condition (svc : ExcelService.t) (disk : Disk)
  (sheet_name : string) (conds : dict) (confirmed : bool)
  : DeletionResult.t * ExcelService.t :=
  delete_data svc disk
    {| target_sheet := sheet_name; conditions := Some conds;
       target_rows := None; target_range := None; unique_identifier := None;
       confirmation_required := true |} confirmed.

End Handler.

End DataDeletionHandler.

(** ** Condition evaluation of [operations/query_operations.py] *)

Module QueryOperations.

Section Ops.
Context `{PyRuntime}.

(** [_evaluate_condition]: [except Exception: return False] *)
Definition _evaluate_condition (value operator target_value : pyval)
  : result bool :=
  match
    (if Py.py_eq operator (VStr "=") then Ok (Py.py_eq value target_value)
     else if Py.py_eq operator (VStr "!=") then Ok (negb (Py.py_eq value target_value))
     else if Py.py_eq operator (VStr ">") then Py.py_cmp Py.OpGt value target_value
     else if Py.py_eq operator (VStr ">=") then Py.py_cmp Py.OpGe value target_value
     else if Py.py_eq operator (VStr "<") then Py.py_cmp Py.OpLt value target_value
     else if Py.py_eq operator (VStr "<=") then Py.py_cmp Py.OpLe value target_value
     else if Py.py_eq operator (VStr "contains") then
       Ok (PyStr.contains (PyStr.lower (Py.str target_value))
             (PyStr.lower (Py.str value)))
     else if Py.py_eq operator (VStr "starts_with") then
       Ok (PyStr.startswith (PyStr.lower (Py.str value))
             (PyStr.lower (Py.str target_value)))
     else if Py.py_eq operator (VStr "ends_with") then
       Ok (PyStr.endswith (PyStr.lower (Py.str value))
             (PyStr.lower (Py.str target_value)))
     else Ok false)
  with
  | Raise _ _ => Ok false
  | r => r
  end.

End Ops.

End QueryOperations.

(** ** Risk assessment ([safety/risk_assessor.py]) *)

Module RiskAssessor.

Inductive RiskLevel := LOW | MEDIUM | HIGH | DANGEROUS.

Definition RiskLevel_eqb (a b : RiskLevel) : bool :=
  match a, b with
  | LOW, LOW | MEDIUM, MEDIUM | HIGH, HIGH | DANGEROUS, DANGEROUS => true
  | _, _ => false
  end.

Record RiskAssessment := {
  level : RiskLevel;
  score : float;
  reasons : list string;
  blocked : bool;
  confirmation_required : bool
}.

(** [self._operation_risks] *)
Definition _operation_risks : gmap string RiskLevel :=
  list_to_map
    [("query_data", LOW); ("filter_data", LOW); ("aggregate_data", LOW);
     ("sort_data", LOW); ("create_chart", LOW); ("modify_chart", LOW);
     ("shift_axis", LOW); ("transform_values", LOW); ("resize_chart", LOW);
     ("insert_row", LOW);
     ("insert_column", MEDIUM); ("update_cells", MEDIUM);
     ("delete_rows", HIGH); ("delete_columns", HIGH); ("clear_data", HIGH);
     ("format_all", DANGEROUS); ("delete_all", DANGEROUS);
     ("clear_all", DANGEROUS); ("replace_all", DANGEROUS)].

(** [self._dangerous_keywords] *)
Definition _dangerous_keywords : list string :=
  ["all"; "everything"; "entire"; "whole"; "complete";
   "format all"; "delete all"; "clear all"; "remove all";
   "entire spreadsheet"; "whole sheet"; "complete file"].

(** [max(a, b)] of two floats: the first argument unless the second is
    greater. *)
Definition fmax (a b : float) : float := if PrimFloat.ltb a b then b else a.

(** [_get_base_score] *)
Definition _get_base_score (risk_level : RiskLevel) : float :=
  match risk_level with
  | LOW => 0.2
  | MEDIUM => 0.5
  | HIGH => 0.8
  | DANGEROUS => 1.0
  end%float.

(** [_contains_dangerous_keywords] *)
Definition _contains_dangerous_keywords (text : string) : bool :=
  existsb (fun keyword => PyStr.contains keyword text) _dangerous_keywords.

(** [_is_large_range]: [range_str.lower()] needs a string. *)
Definition _is_large_range (range_str : pyval) : result bool :=
  if negb (Py.truthy range_str) then Ok false
  else
    match range_str with
    | VStr s =>
        Ok (existsb (fun pattern => PyStr.contains pattern (PyStr.lower s))
              [":"; "A:Z"; "1:1000"; "entire"; "all"])
    | _ => Raise AttributeError "object has no attribute 'lower'"
    end.

(** [_score_to_risk_level] *)
Definition _score_to_risk_level (score : float) : RiskLevel :=
  if PrimFloat.leb 1.0 score then DANGEROUS
  else if PrimFloat.leb 0.8 score then HIGH
  else if PrimFloat.leb 0.5 score then MEDIUM
  else LOW.

Definition write_operations : list string :=
  ["update_cells"; "delete_rows"; "delete_columns"; "clear_data"].

Definition read_operations : list string :=
  ["query_data"; "filter_data"; "aggregate_data"; "sort_data"].

Section Assessor.
Context `{PyRuntime}.

(** The [max_rows] block of [_assess_parameters] *)
Definition assess_max_rows (parameters : dict) (acc : float * list string)
  : result (float * list string) :=
  let '(risk_score, reasons) := acc in
  match Py.dict_get "max_rows" parameters with
  | None => Ok acc
  | Some max_rows =>
      over50 ← Py.py_cmp Py.OpGt max_rows (VInt 50);
      if over50 : bool then
        Ok (fmax risk_score 1.0,
            (reasons ++ ["Operation affects " +:+ Py.str max_rows
                         +:+ " rows (limit: 50)"])%list)
      else
        over10 ← Py.py_cmp Py.OpGt max_rows (VInt 10);
        if over10 : bool then
          Ok (fmax risk_score 0.8,
              (reasons ++ ["Operation affects " +:+ Py.str max_rows +:+ " rows"])%list)
        else Ok acc
  end.

(** The [range] block *)
Definition assess_range (parameters : dict) (acc : float * list string)
  : result (float * list string) :=
  let '(risk_score, reasons) := acc in
  match Py.dict_get "range" parameters with
  | None => Ok acc
  | Some range_str =>
      large ← _is_large_range range_str;
      if large : bool then
        Ok (fmax risk_score 0.8,
            (reasons ++ ["Operation affects large range of cells"])%list)
      else Ok acc
  end.

(** The [conditions] block *)
Definition assess_conditions (parameters : dict) (operation : string)
  (acc : float * list string) : float * list string :=
  let '(risk_score, reasons) := acc in
  match Py.dict_get "conditions" parameters with
  | None => acc
  | Some conditions =>
      if bool_decide (operation ∈ read_operations) then acc
      else if ((negb (Py.truthy conditions)
                || Py.py_eq conditions (VList [VStr "*"])
                || PyStr.contains "all" (PyStr.lower (Py.str conditions)))
               && existsb (fun op => PyStr.contains op operation) write_operations)%bool
      then (fmax risk_score 1.0,
            (reasons ++ ["Operation has no limiting conditions"])%list)
      else acc
  end.

(** The formatting block *)
Definition assess_format (parameters : dict) (acc : float * list string)
  : float * list string :=
  let '(risk_score, reasons) := acc in
  if existsb (fun param => Py.dict_has param parameters)
       ["format"; "style"; "formatting"]
  then (fmax risk_score 0.6,
        (reasons ++ ["Operation involves formatting changes"])%list)
  else acc.

(** [_assess_parameters] *)
Definition _assess_parameters (parameters : dict) (operation : string)
  : result (float * list string) :=
  a ← assess_max_rows parameters (0.0%float, []);
  b ← assess_range parameters a;
  Ok (assess_format parameters (assess_conditions parameters operation b)).

(** [assess_operation] *)
Definition assess_operation (operation : string) (parameters : dict)
  (command_text : string) : result RiskAssessment :=
  let base_risk := default MEDIUM (_operation_risks !! operation) in
  let risk_score := _get_base_score base_risk in
  let '(risk_score, reasons) :=
    if _contains_dangerous_keywords (PyStr.lower command_text)
    then (1.0%float, ["Contains dangerous mass operation keywords"])
    else (risk_score, []) in
  '(param_risk, param_reasons) ← _assess_parameters parameters operation;
  let risk_score := fmax risk_score param_risk in
  let reasons := (reasons ++ param_reasons)%list in
  let final_risk := _score_to_risk_level risk_score in
  let blocked := RiskLevel_eqb final_risk DANGEROUS in
  let confirmation_required :=
    if bool_decide (operation ∈ read_operations) then false
    else (RiskLevel_eqb final_risk HIGH || RiskLevel_eqb final_risk MEDIUM)%bool in
  Ok {| level := final_risk; score := risk_score; reasons := reasons;
        blocked := blocked; confirmation_required := confirmation_required |}.

End Assessor.

End RiskAssessor.

(** ** Chart type detection ([operations/visualization_operations.py]) *)

Module ChartTypeDetector.

Inductive ChartType := BAR | LINE | PIE | SCATTER | AREA | DOUGHNUT | RADAR.

Record DataRange := {
  sheet_name : string;
  start_row : Z;
  start_col : Z;
  end_row : Z;
  end_col : Z;
  has_headers : bool
}.

(** The inner loop over the sampled rows of one column: [false] at the
    first cell that is neither empty nor a number. *)
Fixpoint column_is_numeric (sheet : Worksheet) (col : Z) (rows : list Z)
  : result bool :=
  match rows with
  | [] => Ok true
  | row :: rest =>
      cell_value ← Openpyxl.cell sheet row col;
      if (negb (Py.py_eq cell_value VNone) && negb (Py.is_int_or_float cell_value))%bool
      then Ok false
      else column_is_numeric sheet col rest
  end.

(** The outer loop: the numbers of numeric and of text columns. *)
Fixpoint count_columns (sheet : Worksheet) (rows : list Z) (cols : list Z)
  (numeric_cols text_cols : Z) : result (Z * Z) :=
  match cols with
  | [] => Ok (numeric_cols, text_cols)
  | col :: rest =>
      is_numeric ← column_is_numeric sheet col rows;
      if is_numeric : bool
      then count_columns sheet rows rest (numeric_cols + 1) text_cols
      else count_columns sheet rows rest numeric_cols (text_cols + 1)
  end.

(** The decision chain at the end of [detect_chart_type]. *)
Definition decide_chart (num_cols data_rows numeric_cols text_cols : Z)
  : ChartType :=
  if ((num_cols =? 2) && (text_cols =? 1) && (numeric_cols =? 1))%bool then
    if data_rows <=? 10 then PIE else BAR
  else if 2 <=? numeric_cols then
    if 20 <? data_rows then LINE else BAR
  else if ((numeric_cols =? 1) && (1 <=? text_cols))%bool then BAR
  else if ((2 <=? numeric_cols) && (data_rows <=? 50) && (10 <? data_rows))%bool
  then SCATTER
  else BAR.

(** [detect_chart_type] *)
Definition detect_chart_type (data_range : DataRange) (sheet : Worksheet)
  : result ChartType :=
  let num_cols := end_col data_range - start_col data_range + 1 in
  let num_rows := end_row data_range - start_row data_range + 1 in
  let data_rows := num_rows - (if has_headers data_range then 1 else 0) in
  let start_data_row :=
    start_row data_range + (if has_headers data_range then 1 else 0) in
  let sample_size := Z.min 5 data_rows in
  '(numeric_cols, text_cols) ←
    count_columns sheet (seqZ start_data_row sample_size)
      (seqZ (start_col data_range) num_cols) 0 0;
  Ok (decide_chart num_cols data_rows numeric_cols text_cols).

End ChartTypeDetector.

(** ** Outlier detection ([operations/data_analysis_operations.py]) *)

(** The numeric library the function calls: [statistics.mean],
    [statistics.stdev], [round(x, 2)] and the parser of [float(str)]. *)
Class Statistics := {
  mean : list float -> float;
  stdev : list float -> float;
  round2 : float -> float;
  parse_float : string -> option float
}.

Module DataAnalysis.

Record Outlier := {
  value : float;
  row : Z;
  z_score : option float;
  type : string
}.

Record OutlierData := {
  column : string;
  method : string;
  total_values : Z;
  outlier_count : Z;
  outliers : list Outlier
}.

(** The dictionary [find_outliers] returns. *)
Record Report := {
  success : bool;
  message : string;
  data : option OutlierData
}.

Definition failure (m : string) : Report :=
  {| success := false; message := m; data := None |}.

(** [float(n)] of an [int]: rounded to nearest even; [OverflowError]
    beyond the range of a double. *)
Definition float_of_int (z : Z) : result float :=
  match SpecFloat.binary_normalize FloatOps.prec FloatOps.emax z 0 false with
  | S754_infinity _ => Raise OverflowError "int too large to convert to float"
  | sf => Ok (SF2Prim sf)
  end.

(** [sorted(values)]: a stable insertion with [<]. *)
Fixpoint insert_sorted (x : float) (l : list float) : list float :=
  match l with
  | [] => [x]
  | y :: r => if PrimFloat.ltb x y then x :: l else y :: insert_sorted x r
  end.

Definition sorted (l : list float) : list float :=
  foldl (fun acc x => insert_sorted x acc) [] l.

(** [len(column) == 1 and column.isalpha()], on ASCII *)
Definition single_letter (column : string) : option ascii :=
  match column with
  | String c EmptyString =>
      let n := nat_of_ascii (PyStr.lower_ascii c) in
      if ((97 <=? n)%nat && (n <=? 122)%nat)%bool then Some c else None
  | _ => None
  end.

Section Outliers.
Context `{PyRuntime} `{Statistics}.

(** The column number: from the letter, or from the first header equal to
    the name up to case; [None] when no header matches. *)
Definition find_column (sheet : Worksheet) (column : string) : option Z :=
  match single_letter column with
  | Some c => Some (Z.of_nat (nat_of_ascii (PyStr.lower_ascii c)) - 96)
  | None =>
      List.find (fun col =>
                   let header := Openpyxl.cell_value sheet 1 col in
                   (Py.truthy header
                    && String.eqb (PyStr.lower (Py.str header)) (PyStr.lower column))%bool)
                (seqZ 1 (Openpyxl.max_column sheet))
  end.

(** The extraction loop: [(float(cell), row)] for the cells that convert. *)
Fixpoint values_with_rows (sheet : Worksheet) (col_num : Z) (rows : list Z)
  : result (list (float * Z)) :=
  match rows with
  | [] => Ok []
  | row :: rest =>
      match Openpyxl.cell_value sheet row col_num with
      | VNone => values_with_rows sheet col_num rest
      | VBool b =>
          tl ← values_with_rows sheet col_num rest;
          Ok ((if b then 1.0%float else 0.0%float, row) :: tl)
      | VInt z =>
          f ← float_of_int z;
          tl ← values_with_rows sheet col_num rest;
          Ok ((f, row) :: tl)
      | VFloat f =>
          tl ← values_with_rows sheet col_num rest;
          Ok ((f, row) :: tl)
      | v =>
          match parse_float (Py.str v) with
          | Some f =>
              tl ← values_with_rows sheet col_num rest;
              Ok ((f, row) :: tl)
          | None => values_with_rows sheet col_num rest
          end
      end
  end.

(** The IQR branch *)
Definition iqr_outliers (pairs : list (float * Z)) : list Outlier :=
  let values := map fst pairs in
  let sorted_values := sorted values in
  let n := length sorted_values in
  let q1_idx := (n / 4)%nat in
  let q3_idx := (3 * n / 4)%nat in
  let q1 := nth q1_idx sorted_values 0%float in
  let q3 := nth q3_idx sorted_values 0%float in
  let iqr := (q3 - q1)%float in
  let lower_bound := (q1 - 1.5 * iqr)%float in
  let upper_bound := (q3 + 1.5 * iqr)%float in
  omap (fun '(v, r) =>
          if (PrimFloat.ltb v lower_bound || PrimFloat.ltb upper_bound v)%bool
          then Some {| value := v; row := r; z_score := None;
                       type := if PrimFloat.ltb v lower_bound then "low" else "high" |}
          else None) pairs.

(** The z-score branch; [None] when the standard deviation is zero. *)
Definition zscore_outliers (pairs : list (float * Z)) : option (list Outlier) :=
  let values := map fst pairs in
  let mean_val := mean values in
  let std_val := if (1 <? length values)%nat then stdev values else 0%float in
  if PrimFloat.eqb std_val 0 then None
  else
    Some (omap (fun '(v, r) =>
                  let z := PrimFloat.abs ((v - mean_val) / std_val)%float in
                  if PrimFloat.ltb 2.5 z
                  then Some {| value := v; row := r; z_score := Some (round2 z);
                               type := if PrimFloat.ltb mean_val v then "high" else "low" |}
                  else None) pairs).

(** [find_outliers] *)
Definition find_outliers (workbook : list (string * Worksheet))
  (sheet_name column method : string) : Report :=
  match Py.dict_get sheet_name workbook with
  | None => failure ("Sheet '" +:+ sheet_name +:+ "' not found")
  | Some sheet =>
      match find_column sheet column with
      | None => failure ("Column '" +:+ column +:+ "' not found")
      | Some col_num =>
          match values_with_rows sheet col_num
                  (seqZ 2 (Openpyxl.max_row sheet - 1)) with
          | Raise _ e => failure ("Error finding outliers: " +:+ e)
          | Ok pairs =>
              if (length pairs <? 4)%nat then
                failure "Not enough numeric data for outlier detection (need at least 4 values)"
              else
                let found :=
                  if String.eqb (PyStr.lower method) "iqr" then Some (iqr_outliers pairs)
                  else if String.eqb (PyStr.lower method) "zscore"
                  then zscore_outliers pairs
                  else Some [] in
                match found with
                | None =>
                    failure "Cannot calculate z-score: standard deviation is zero"
                | Some outs =>
                    {| success := true;
                       message :=
                         "Found " +:+ PyStr.of_Z (Z.of_nat (length outs))
                         +:+ " outliers in column '" +:+ column +:+ "' using "
                         +:+ PyStr.upper method +:+ " method";
                       data :=
                         Some {| column := column; method := PyStr.upper method;
                                 total_values := Z.of_nat (length pairs);
                                 outlier_count := Z.of_nat (length outs);
                                 outliers := outs |} |}
                end
          end
      end
  end.

End Outliers.

End DataAnalysis.

(** ** The template registry ([templates/template_registry.py]) *)

(** The module system the registry imports from: [import_module name]
    gives the attributes of the module ([None]: no such attribute,
    [Some c]: an attribute, callable when [c]) or raises; [call] runs a
    function of a module. *)
Class ModuleSystem := {
  import_module : string -> result (string -> option bool);
  call : string -> string -> list pyval -> result pyval
}.

Module TemplateRegistry.

(** What a registry entry holds: a loaded function, or the closure
    [_create_placeholder_function] returns. *)
Inductive callable :=
| Function (module_name function_name : string)
| Placeholder (category operation : string) (function_path : pyval).

Record Metadata := {
  category : string;
  operation : string;
  config : dict;
  function_path : pyval;
  placeholder : bool
}.

(** [self._function_registry] and [self._operation_metadata] *)
Record t := {
  _function_registry : gmap string callable;
  _operation_metadata : gmap string Metadata
}.

Definition empty : t :=
  {| _function_registry := ∅; _operation_metadata := ∅ |}.

Definition registry_key (category_name op_name : string) : string :=
  category_name +:+ "." +:+ op_name.

Section Registry.
Context `{PyRuntime} `{ModuleSystem}.

(** The three import attempts of [_load_function]; the name that was
    imported comes with the module. *)
Definition import_with_fallbacks (module_path : string)
  : result (string * (string -> option bool)) :=
  match import_module ("src.operations." +:+ module_path) with
  | Ok m => Ok ("src.operations." +:+ module_path, m)
  | Raise ImportError _ =>
      match import_module ("operations." +:+ module_path) with
      | Ok m => Ok ("operations." +:+ module_path, m)
      | Raise ImportError _ =>
          match import_module module_path with
          | Ok m => Ok (module_path, m)
          | Raise ImportError e =>
              Raise ImportError
                ("Cannot import module '" +:+ module_path +:+ "': " +:+ e)
          | Raise k e => Raise k e
          end
      | Raise k e => Raise k e
      end
  | Raise k e => Raise k e
  end.

(** [_load_function].  A reference that is not a string ends in an
    exception at the membership test or at [rsplit]. *)
Definition _load_function (function_path : pyval) : result callable :=
  match function_path with
  | VStr path =>
      match PyStr.rsplit_dot path with
      | None => Raise ValueError ("Invalid function path format: " +:+ path)
      | Some (module_path, function_name) =>
          '(name, module) ← import_with_fallbacks module_path;
          match module function_name with
          | None =>
              Raise AttributeError
                ("Function '" +:+ function_name +:+ "' not found in module '"
                 +:+ module_path +:+ "'")
          | Some false => Raise TypeError ("'" +:+ path +:+ "' is not callable")
          | Some true => Ok (Function name function_name)
          end
      end
  | _ => Raise TypeError "function path is not a string"
  end.

(** The message of the [NotImplementedError] a placeholder raises. *)
Definition not_implemented (category operation : string) (function_path : pyval)
  : string :=
  "Operation '" +:+ category +:+ "." +:+ operation
  +:+ "' is not implemented. Expected function at: " +:+ Py.str function_path.

(** Calling a registry entry. *)
Definition invoke (f : callable) (args : list pyval) : result pyval :=
  match f with
  | Function m name => call m name args
  | Placeholder c o p => Raise NotImplementedError (not_implemented c o p)
  end.

(** The body of the inner loop of [_build_registry] *)
Definition register (reg : t) (category_name op_name : string) (op_config : dict)
  : t :=
  let function_path := default VNone (Py.dict_get "function" op_config) in
  if Py.truthy function_path then
    let key := registry_key category_name op_name in
    match _load_function function_path with
    | Ok function =>
        {| _function_registry := <[key := function]> (_function_registry reg);
           _operation_metadata :=
             <[key := {| category := category_name; operation := op_name;
                         config := op_config; function_path := function_path;
                         placeholder := false |}]> (_operation_metadata reg) |}
    | Raise _ _ =>
        {| _function_registry :=
             <[key := Placeholder category_name op_name function_path]>
               (_function_registry reg);
           _operation_metadata :=
             <[key := {| category := category_name; operation := op_name;
                         config := op_config; function_path := function_path;
                         placeholder := true |}]> (_operation_metadata reg) |}
    end
  else reg.

(** [_build_registry] over the catalog [category -> operation -> config] *)
Definition _build_registry (operations : list (string * list (string * dict)))
  : t :=
  foldl (fun reg '(category_name, category_ops) =>
           foldl (fun reg '(op_name, op_config) =>
                    register reg category_name op_name op_config)
                 reg category_ops)
        empty operations.

(** [get_function] *)
Definition get_function (reg : t) (category operation : string)
  : option callable :=
  _function_registry reg !! registry_key category operation.

(** [execute_operation] *)
Definition execute_operation (reg : t) (category operation : string)
  (args : list pyval) : result pyval :=
  match get_function reg category operation with
  | None =>
      Raise KeyError
        ("Operation '" +:+ category +:+ "." +:+ operation
         +:+ "' not found in registry")
  | Some function => invoke function args
  end.

(** [is_operation_available] *)
Definition is_operation_available (reg : t) (category operation : string)
  : bool :=
  match _operation_metadata reg !! registry_key category operation with
  | None => false
  | Some metadata => negb (placeholder metadata)
  end.

End Registry.

End TemplateRegistry.

(** ** Backups ([excel/excel_service.py]) *)

Module Backup.

(** A naive [datetime] to the second. *)
Record datetime := {
  year : Z; month : Z; day : Z; hour : Z; minute : Z; second : Z
}.

(** The order of [datetime] values, as one number. *)
Definition ordinal (t : datetime) : Z :=
  ((((year t * 13 + month t) * 32 + day t) * 24 + hour t) * 60 + minute t) * 60
  + second t.

(** [strftime("%Y%m%d_%H%M%S")], for the years 1000 to 9999 *)
Definition strftime (t : datetime) : string :=
  PyStr.zfill 4 (year t) +:+ PyStr.zfill 2 (month t) +:+ PyStr.zfill 2 (day t)
  +:+ "_" +:+ PyStr.zfill 2 (hour t) +:+ PyStr.zfill 2 (minute t)
  +:+ PyStr.zfill 2 (second t).

(** The regular expression [strptime] builds from that format: a field is
    a list of alternatives, tried in order; an alternative is a list of
    character classes. *)
Definition chr_in (lo hi : string) (c : ascii) : bool :=
  match lo, hi with
  | String a _, String b _ =>
      ((nat_of_ascii a <=? nat_of_ascii c)%nat
       && (nat_of_ascii c <=? nat_of_ascii b)%nat)%bool
  | _, _ => false
  end.

Definition field := list (list (ascii -> bool)).

Definition re_Y : field := [[PyStr.is_digit; PyStr.is_digit; PyStr.is_digit; PyStr.is_digit]].
Definition re_m : field :=
  [[chr_in "1" "1"; chr_in "0" "2"]; [chr_in "0" "0"; chr_in "1" "9"]; [chr_in "1" "9"]].
Definition re_d : field :=
  [[chr_in "3" "3"; chr_in "0" "1"]; [chr_in "1" "2"; PyStr.is_digit];
   [chr_in "0" "0"; chr_in "1" "9"]; [chr_in "1" "9"]; [chr_in " " " "; chr_in "1" "9"]].
Definition re_sep : field := [[chr_in "_" "_"]].
Definition re_H : field :=
  [[chr_in "2" "2"; chr_in "0" "3"]; [chr_in "0" "1"; PyStr.is_digit]; [PyStr.is_digit]].
Definition re_M : field := [[chr_in "0" "5"; PyStr.is_digit]; [PyStr.is_digit]].
Definition re_S : field :=
  [[chr_in "6" "6"; chr_in "0" "1"]; [chr_in "0" "5"; PyStr.is_digit]; [PyStr.is_digit]].

Fixpoint match_alt (alt : list (ascii -> bool)) (s : string)
  : option (string * string) :=
  match alt, s with
  | [], _ => Some (EmptyString, s)
  | p :: ps, String c r =>
      if p c then
        match match_alt ps r with
        | Some (m, rest) => Some (String c m, rest)
        | None => None
        end
      else None
  | _ :: _, EmptyString => None
  end.

(** A backtracking match of the fields at the start of [s]: the groups and
    what is left of [s]. *)
Fixpoint match_fields (fields : list field) (s : string)
  : option (list string * string) :=
  match fields with
  | [] => Some ([], s)
  | alts :: rest =>
      (fix try (alts : field) : option (list string * string) :=
         match alts with
         | [] => None
         | alt :: more =>
             match match_alt alt s with
             | Some (m, s') =>
                 match match_fields rest s' with
                 | Some (ms, remaining) => Some (m :: ms, remaining)
                 | None => try more
                 end
             | None => try more
             end
         end) alts
  end.

Definition is_leap (y : Z) : bool :=
  ((y mod 4 =? 0) && (negb (y mod 100 =? 0) || (y mod 400 =? 0)))%bool.

Definition days_in_month (y m : Z) : Z :=
  if m =? 2 then (if is_leap y then 29 else 28)
  else if bool_decide (m ∈ [4; 6; 9; 11]) then 30 else 31.

(** [int(" 7")] is 7 *)
Definition group_to_Z (g : string) : Z := PyStr.digits_to_Z (PyStr.lstrip g).

(** [datetime.strptime(s, "%Y%m%d_%H%M%S")]; [None] is the [ValueError]. *)
Definition strptime (s : string) : option datetime :=
  match match_fields [re_Y; re_m; re_d; re_sep; re_H; re_M; re_S] s with
  | Some ([Y; m; d; _; Hh; Mi; Ss], EmptyString) =>
      let t := {| year := group_to_Z Y; month := group_to_Z m; day := group_to_Z d;
                  hour := group_to_Z Hh; minute := group_to_Z Mi;
                  second := group_to_Z Ss |} in
      if ((1 <=? year t) && (day t <=? days_in_month (year t) (month t))
          && (second t <=? 59))%bool
      then Some t else None
  | _ => None
  end.

(** [Path(p).name], [.stem] and [.suffix] on POSIX paths *)
Definition path_name (p : string) : string :=
  match PyStr.rsplit_char "/" p with
  | Some (_, n) => n
  | None => p
  end.

Definition stem_suffix (name : string) : string * string :=
  match PyStr.rsplit_dot name with
  | Some (a, b) =>
      if (String.eqb a "" || String.eqb b "")%bool then (name, "")
      else (a, "." +:+ b)
  | None => (name, "")
  end.

Definition stem (name : string) : string := fst (stem_suffix name).
Definition suffix (name : string) : string := snd (stem_suffix name).

(** [BackupInfo] *)
Record BackupInfo := {
  file_path : string;
  timestamp : datetime;
  original_file : string;
  size_bytes : Z
}.

(** The service's settings, and the files it sees: the backup directory
    (name and size of each file, in the order [glob] yields them) and the
    size of the loaded file when it exists. *)
Record Service := {
  backup_dir : string;
  max_backups : Z;
  loaded_path : option string
}.

Record Files := {
  listing : list (string * Z);
  source : option Z
}.

Definition newer_or_equal (a b : BackupInfo) : Prop :=
  ordinal (timestamp b) <= ordinal (timestamp a).

#[global] Instance newer_or_equal_dec a b : Decision (newer_or_equal a b).
Proof. unfold newer_or_equal. apply _. Defined.

(** The loop of [get_backup_list] over one file of the directory *)
Definition backup_entry (svc : Service) (original_filename : option string)
  (file : string * Z) : option BackupInfo :=
  let '(name, size) := file in
  if PyStr.contains "_backup_" name then
    match PyStr.split_on "_backup_" (stem name) with
    | [orig_name; timestamp_str] =>
        if match original_filename with
           | Some f => (negb (String.eqb f "") && negb (String.eqb orig_name f))%bool
           | None => false
           end
        then None
        else
          match strptime timestamp_str with
          | Some ts =>
              Some {| file_path := backup_dir svc +:+ "/" +:+ name;
                      timestamp := ts; original_file := orig_name;
                      size_bytes := size |}
          | None => None
          end
    | _ => None
    end
  else None.

(** [get_backup_list]: newest first; the sort is stable. *)
Definition get_backup_list (svc : Service) (files : Files)
  (original_filename : option string) : list BackupInfo :=
  merge_sort newer_or_equal
    (omap (backup_entry svc original_filename) (listing files)).

(** [l[k:]], also for a negative [k] *)
Definition slice_from {A} (k : Z) (l : list A) : list A :=
  if 0 <=? k then drop (Z.to_nat k) l
  else drop (Z.to_nat (Z.of_nat (length l) + k)) l.

(** [os.remove] of a file of the backup directory, by its path *)
Definition remove (svc : Service) (path : string) (files : Files) : Files :=
  {| listing :=
       List.filter (fun '(name, _) =>
                      negb (String.eqb (backup_dir svc +:+ "/" +:+ name) path))
                   (listing files);
     source := source files |}.

(** [_cleanup_old_backups] *)
Definition _cleanup_old_backups (svc : Service) (files : Files)
  (original_filename : string) : Files :=
  let backups := get_backup_list svc files (Some original_filename) in
  if max_backups svc <? Z.of_nat (length backups) then
    foldl (fun fs backup => remove svc (file_path backup) fs) files
      (slice_from (max_backups svc) backups)
  else files.

(** [create_backup] at the time [now]: the path of the backup, and the
    files afterwards. *)
Definition create_backup (svc : Service) (files : Files) (now : datetime)
  : option string * Files :=
  match loaded_path svc, source files with
  | Some path, Some size =>
      if String.eqb path "" then (None, files)
      else
        let original_name := stem (path_name path) in
        let extension := suffix (path_name path) in
        let backup_filename :=
          original_name +:+ "_backup_" +:+ strftime now +:+ extension in
        let copied :=
          {| listing := Py.dict_set backup_filename size (listing files);
             source := source files |} in
        (Some (backup_dir svc +:+ "/" +:+ backup_filename),
         _cleanup_old_backups svc copied original_name)
  | _, _ => (None, files)
  end.

(** The calls of [create_backup] at the given times, one after the other. *)
Definition create_backups (svc : Service) (files : Files) (times : list datetime)
  : Files :=
  foldl (fun fs now => snd (create_backup svc fs now)) files times.

End Backup.

(** ** Query execution ([operations/crud_handlers.py], [DataQueryHandler]) *)

(** The built-in functions the query pipeline calls: [sorted(data, key=...,
    reverse=...)] on records, [sum], [/] by a count, [min] and [max] on
    cell values.  Each may raise. *)
Class Builtins := {
  sorted_by_key : (dict -> pyval) -> bool -> list dict -> result (list dict);
  py_sum : list pyval -> result pyval;
  py_truediv : pyval -> Z -> result pyval;
  py_min : list pyval -> result pyval;
  py_max : list pyval -> result pyval
}.

Module QueryExecution.

Import QueryData QueryResult.

(** [data[:limit]], also for a negative [limit] *)
Definition slice_to {A} (limit : Z) (data : list A) : list A :=
  if 0 <=? limit then take (Z.to_nat limit) data
  else take (Z.to_nat (Z.of_nat (length data) + limit)) data.

(** [_apply_limit] *)
Definition _apply_limit (data : list dict) (limit : option Z) : list dict :=
  match limit with
  | None => data
  | Some l => slice_to l data
  end.

(** One record of [_select_columns] *)
Definition selected_record (record : dict) (columns : list string) : dict :=
  foldl (fun selected column =>
           match Py.dict_get column record with
           | Some v => Py.dict_set column v selected
           | None => selected
           end) [] columns.

(** [_select_columns]: [not columns] holds for [None] and for the empty
    list. *)
Definition _select_columns (data : list dict) (columns : option (list string))
  (all_headers : list string) : list dict :=
  match columns with
  | None | Some [] => data
  | Some cols => map (fun record => selected_record record cols) data
  end.

Section Execution.
Context `{PyRuntime} `{Builtins}.

(** The loop of [_apply_filters] *)
Fixpoint filter_records (data : list dict) (conditions : dict)
  : result (list dict) :=
  match data with
  | [] => Ok []
  | record :: rest =>
      b ← DataQueryHandler.record_matches record conditions;
      tl ← filter_records rest conditions;
      Ok (if b : bool then record :: tl else tl)
  end.

(** [_apply_filters] *)
Definition _apply_filters (data : list dict) (conditions : option dict)
  : result (list dict) :=
  match conditions with
  | None | Some [] => Ok data
  | Some conds => filter_records data conds
  end.

(** [sort_key]: the pair [(1, "")] for a missing value, [(0, value)]
    otherwise, as a sequence. *)
Definition sort_key (sort_by : string) (record : dict) : pyval :=
  match Py.dict_get sort_by record with
  | None | Some VNone => VList [VInt 1; VStr ""]
  | Some value => VList [VInt 0; value]
  end.

(** [_apply_sorting]: any exception of the sort leaves the data as it is. *)
Definition _apply_sorting (data : list dict) (sort_by : option string)
  (sort_order : string) : list dict :=
  match sort_by, data with
  | None, _ | _, [] => data
  | Some column, _ =>
      if String.eqb column "" then data
      else
        match sorted_by_key (sort_key column) (String.eqb sort_order "desc") data with
        | Ok sorted_data => sorted_data
        | Raise _ _ => data
        end
  end.

(** One entry of [_calculate_aggregations], with its [try]. *)
Definition aggregate_column (data : list dict) (column function : string) : pyval :=
  let values :=
    omap (fun record =>
            match Py.dict_get column record with
            | None | Some VNone => None
            | Some v => Some v
            end) data in
  match values with
  | [] => VNone
  | _ =>
      let numeric_values := List.filter Py.is_int_or_float values in
      let computed : result pyval :=
        if String.eqb (PyStr.lower function) "count" then
          Ok (VInt (Z.of_nat (length values)))
        else if String.eqb (PyStr.lower function) "sum" then
          match numeric_values with
          | [] => Ok (VInt 0)
          | _ => py_sum numeric_values
          end
        else if String.eqb (PyStr.lower function) "avg" then
          match numeric_values with
          | [] => Ok (VInt 0)
          | _ =>
              total ← py_sum numeric_values;
              py_truediv total (Z.of_nat (length numeric_values))
          end
        else if String.eqb (PyStr.lower function) "min" then py_min values
        else if String.eqb (PyStr.lower function) "max" then py_max values
        else Ok (VStr ("Unknown function: " +:+ function)) in
      match computed with
      | Ok v => v
      | Raise _ e => VStr ("Error: " +:+ e)
      end
  end.

(** [_calculate_aggregations] *)
Definition _calculate_aggregations (data : list dict)
  (aggregations : list (string * string)) : dict :=
  foldl (fun results '(column, function) =>
           Py.dict_set (function +:+ "(" +:+ column +:+ ")")
             (aggregate_column data column function) results)
        [] aggregations.

(** [query_data] after its validation gate. *)
Definition execute (svc : ExcelService.t) (query : QueryData.t) : QueryResult.t :=
  match ExcelService.get_sheet svc (target_sheet query) with
  | None => make false ("Sheet '" +:+ target_sheet query +:+ "' not found")
  | Some sheet =>
      match ExcelService.get_structure svc with
      | None => make false "Unable to analyze sheet structure"
      | Some structure =>
          let sheet_headers :=
            ExcelService.info_headers
              (ExcelService.get_sheet_info structure (target_sheet query)) in
          match sheet_headers with
          | [] => make false "No headers found in sheet"
          | _ =>
              let raw_data :=
                DataQueryHandler._extract_sheet_data sheet sheet_headers None in
              match _apply_filters raw_data (conditions query) with
              | Raise _ e => make false ("Failed to execute query: " +:+ e)
              | Ok filtered_data =>
                  let selected_data :=
                    _select_columns filtered_data (columns query) sheet_headers in
                  let sorted_data :=
                    _apply_sorting selected_data (sort_by query) (sort_order query) in
                  let limited_data := _apply_limit sorted_data (limit query) in
                  let results :=
                    match aggregations query with
                    | None | Some [] => None
                    | Some a => Some (_calculate_aggregations filtered_data a)
                    end in
                  let final_headers :=
                    match columns query with
                    | None | Some [] => sheet_headers
                    | Some cols => cols
                    end in
                  {| success := true;
                     message :=
                       "Query executed successfully. Retrieved "
                       +:+ PyStr.of_Z (Z.of_nat (length limited_data)) +:+ " rows.";
                     data := limited_data;
                     headers := final_headers;
                     row_count := Z.of_nat (length limited_data);
                     aggregation_results := results |}
              end
          end
      end
  end.

(** [query_data] *)
Definition query_data (svc : ExcelService.t) (query : QueryData.t)
  : QueryResult.t :=
  DataQueryHandler.query_data execute svc query.

(** The loop of [get_cross_sheet_data]: the answer of the first query that
    fails, or the combined data. *)
Fixpoint cross_sheet_loop (svc : ExcelService.t)
  (sheet_references : list (string * string)) (combined_data : dict)
  : QueryResult.t + dict :=
  match sheet_references with
  | [] => inr combined_data
  | (sheet_name, column_name) :: rest =>
      let query :=
        {| target_sheet := sheet_name;
           columns := if String.eqb column_name "*" then None else Some [column_name];
           conditions := None; sort_by := None; sort_order := "asc";
           limit := None; aggregations := None |} in
      let result := query_data svc query in
      if negb (success result) then
        inl (make false ("Failed to get data from sheet '" +:+ sheet_name +:+ "': "
                         +:+ message result))
      else
        let key :=
          if String.eqb column_name "*" then sheet_name
          else sheet_name +:+ "." +:+ column_name in
        cross_sheet_loop svc rest
          (Py.dict_set key (VList (map VDict (data result))) combined_data)
  end.

(** [get_cross_sheet_data] *)
Definition get_cross_sheet_data (svc : ExcelService.t)
  (sheet_references : list (string * string)) : QueryResult.t :=
  match cross_sheet_loop svc sheet_references [] with
  | inl failed => failed
  | inr combined_data =>
      {| success := true;
         message :=
           "Retrieved cross-sheet data from "
           +:+ PyStr.of_Z (Z.of_nat (length sheet_references)) +:+ " references";
         data := [combined_data]; headers := []; row_count := 1;
         aggregation_results := None |}
  end.

(** The inner loop of [find_records] over the search columns, with its
    [break]. *)
Fixpoint record_contains (search_term : string) (record : dict)
  (search_columns : list string) : bool :=
  match search_columns with
  | [] => false
  | col :: rest =>
      match Py.dict_get col record with
      | Some v =>
          if PyStr.contains (PyStr.lower search_term) (PyStr.lower (Py.str v))
          then true
          else record_contains search_term record rest
      | None => record_contains search_term record rest
      end
  end.

(** [find_records] *)
Definition find_records (svc : ExcelService.t) (sheet_name search_term : string)
  (columns : option (list string)) : QueryResult.t :=
  match ExcelService.get_sheet svc sheet_name with
  | None => make false ("Sheet '" +:+ sheet_name +:+ "' not found")
  | Some sheet =>
      match ExcelService.get_structure svc with
      | None => make false "Unable to analyze sheet structure"
      | Some structure =>
          let sheet_headers :=
            ExcelService.info_headers
              (ExcelService.get_sheet_info structure sheet_name) in
          let raw_data :=
            DataQueryHandler._extract_sheet_data sheet sheet_headers None in
          let search_columns :=
            match columns with
            | None | Some [] => sheet_headers
            | Some cols => cols
            end in
          let matching_records :=
            List.filter (fun record => record_contains search_term record search_columns)
              raw_data in
          {| success := true;
             message :=
               "Found " +:+ PyStr.of_Z (Z.of_nat (length matching_records))
               +:+ " records containing '" +:+ search_term +:+ "'";
             data := matching_records;
             headers := sheet_headers;
             row_count := Z.of_nat (length matching_records);
             aggregation_results := None |}
      end
  end.

End Execution.

End QueryExecution.

(** ** Insertion ([operations/crud_handlers.py], [DataInsertionHandler]) *)

(** [int(s)], [float(s)] and [datetime.strptime(s, fmt)] on a string:
    [None] is the [ValueError] of a string that does not parse. *)
Class Parsing := {
  int_of_str : string -> option Z;
  float_of_str : string -> option float;
  datetime_strptime : string -> string -> option Z
}.

(** Writing to a worksheet ([openpyxl]). *)
Module OpenpyxlWrite.

(** [l], continued with [x] up to the length [n] *)
Definition fill {A} (n : nat) (x : A) (l : list A) : list A :=
  (l ++ replicate (n - length l) x)%list.

(** [sheet.insert_rows(idx)] for [idx >= 1]: the cells of the rows from
    [idx] on move down by one.  A sheet that ends above [idx] has no cell
    to move. *)
Definition insert_rows (ws : Worksheet) (idx : Z) : Worksheet :=
  if idx <=? Z.of_nat (length ws)
  then (take (Z.to_nat (idx - 1)) ws ++ [] :: drop (Z.to_nat (idx - 1)) ws)%list
  else ws.

(** [sheet.cell(row, column).value = v] for [row >= 1] and [column >= 1]:
    the cell is created when the grid ends before it. *)
Definition assign (ws : Worksheet) (row col : Z) (v : pyval) : Worksheet :=
  let i := Z.to_nat (row - 1) in
  let j := Z.to_nat (col - 1) in
  alter (fun r => <[j := v]> (fill (S j) VNone r)) i (fill (S i) [] ws).

End OpenpyxlWrite.

Module InsertionData.
Record t := {
  values : list pyval;
  target_sheet : string;
  target_row : option Z;
  target_column : option string;
  column_names : option (list string);
  insert_type : string
}.
End InsertionData.

Module DataInsertionHandler.

Import InsertionData.

Definition len {A} (l : list A) : Z := Z.of_nat (length l).

(** [_validate_row_insertion] *)
Definition _validate_row_insertion (svc : ExcelService.t) (data : InsertionData.t)
  : OperationResult.t :=
  if values data is [] then
    OperationResult.make false "No values provided for row insertion"
  else if String.eqb (target_sheet data) "" then
    OperationResult.make false "Target sheet not specified"
  else if negb (bool_decide (target_sheet data ∈ ExcelService.get_sheet_names svc)) then
    OperationResult.make false
      ("Sheet '" +:+ target_sheet data +:+ "' does not exist")
  else if match target_row data with
          | Some r => r <? 1
          | None => false
          end then
    OperationResult.make false "Row position must be greater than 0"
  else if 100 <? len (values data) then
    OperationResult.make false "Row insertion limited to 100 values for safety"
  else OperationResult.make true "Validation passed".

Section Handler.
Context `{PyRuntime} `{Parsing}.

(** The type [_validate_and_convert_value] expects in a column; every call
    has [column_index >= 1]. *)
Definition expected_type (structure : ExcelService.ExcelStructure)
  (sheet_name : string) (column_index : Z) : string :=
  let sheet_info := ExcelService.get_sheet_info structure sheet_name in
  let headers := ExcelService.info_headers sheet_info in
  let data_types := ExcelService.info_data_types sheet_info in
  if column_index <=? len headers then
    match headers !! Z.to_nat (column_index - 1) with
    | Some header => default "text" (Py.dict_get header data_types)
    | None => "text"
    end
  else "text".

(** The loop over the three date formats: the first that parses. *)
Fixpoint first_format (value : string) (formats : list string) : option Z :=
  match formats with
  | [] => None
  | fmt :: rest =>
      match datetime_strptime value fmt with
      | Some t => Some t
      | None => first_format value rest
      end
  end.

(** [_validate_and_convert_value]: what is not converted, and what fails to
    convert, falls through to [str(value)]. *)
Definition _validate_and_convert_value (svc : ExcelService.t) (value : pyval)
  (sheet_name : string) (column_index : Z) : pyval :=
  if ((if value is VNone then true else false) || Py.py_eq value (VStr ""))%bool
  then VNone
  else
    match ExcelService.get_structure svc with
    | None => value
    | Some structure =>
        let expected := expected_type structure sheet_name column_index in
        if String.eqb expected "number" then
          match value with
          | VStr s =>
              if PyStr.contains "." s then
                match float_of_str s with
                | Some f => VFloat f
                | None => VStr (Py.str value)
                end
              else
                match int_of_str s with
                | Some z => VInt z
                | None => VStr (Py.str value)
                end
          | VBool _ | VInt _ | VFloat _ => value
          | _ => VStr (Py.str value)
          end
        else if String.eqb expected "boolean" then
          match value with
          | VStr s =>
              VBool (bool_decide (PyStr.lower s ∈ ["true"; "1"; "yes"; "on"]))
          | VBool _ => value
          | _ => VStr (Py.str value)
          end
        else if String.eqb expected "date" then
          match value with
          | VStr s =>
              match first_format s ["%Y-%m-%d"; "%m/%d/%Y"; "%d/%m/%Y"] with
              | Some t => VDateTime t
              | None => VStr (Py.str value)
              end
          | VDateTime _ => value
          | _ => VStr (Py.str value)
          end
        else VStr (Py.str value)
    end.

(** The loop of [insert_row] over [enumerate(data.values, 1)], with its
    [break] at the first column beyond the sheet. *)
Fixpoint write_values (svc : ExcelService.t) (sheet_name : string)
  (target_row : Z) (sheet : Worksheet) (col_idx : Z) (values : list pyval)
  (inserted_count : Z) : Worksheet * Z :=
  match values with
  | [] => (sheet, inserted_count)
  | value :: rest =>
      if ((Openpyxl.max_column sheet <? col_idx)
          && (0 <? Openpyxl.max_column sheet))%bool
      then (sheet, inserted_count)
      else
        let converted_value :=
          _validate_and_convert_value svc value sheet_name col_idx in
        write_values svc sheet_name target_row
          (OpenpyxlWrite.assign sheet target_row col_idx converted_value)
          (col_idx + 1) rest (inserted_count + 1)
  end.

(** [insert_row]: the result and the service after the call. *)
Definition insert_row (svc : ExcelService.t) (disk : Disk) (data : InsertionData.t)
  : OperationResult.t * ExcelService.t :=
  let validation_result := _validate_row_insertion svc data in
  if negb (OperationResult.success validation_result) then (validation_result, svc)
  else
    match ExcelService.get_sheet svc (target_sheet data) with
    | None =>
        (OperationResult.make false
           ("Sheet '" +:+ target_sheet data +:+ "' not found"), svc)
    | Some sheet =>
        let '(row, sheet) :=
          match target_row data with
          | None => (Openpyxl.max_row sheet + 1, sheet)
          | Some r =>
              (r, if r <=? Openpyxl.max_row sheet
                  then OpenpyxlWrite.insert_rows sheet r else sheet)
          end in
        let '(sheet, inserted_count) :=
          write_values svc (target_sheet data) row sheet 1 (values data) 0 in
        let svc := ExcelService.put_sheet svc (target_sheet data) sheet in
        match DataDeletionHandler.save_workbook svc disk with
        | Raise _ e =>
            (OperationResult.make false ("Failed to insert row: " +:+ e), svc)
        | Ok false =>
            (OperationResult.make false
               "Failed to save workbook after row insertion", svc)
        | Ok true =>
            ({| OperationResult.success := true;
                OperationResult.message :=
                  "Successfully inserted row at position " +:+ PyStr.of_Z row
                  +:+ " with " +:+ PyStr.of_Z inserted_count +:+ " values";
                OperationResult.affected_rows := 1;
                OperationResult.affected_columns := 0;
                OperationResult.data :=
                  Some (VDict [("row", VInt row);
                               ("values_inserted", VInt inserted_count)]);
                OperationResult.warnings := [] |},
             {| ExcelService.workbook := ExcelService.workbook svc;
                ExcelService.file_path := ExcelService.file_path svc;
                ExcelService.structure :=
                  option_map ExcelService._analyze_structure
                    (ExcelService.workbook svc) |})
        end
    end.

(** The loop of [add_multiple_rows]: the service, the two counters and the
    error messages.  [disk_at i] is what the file system answers during the
    insertion of row [i]. *)
Definition add_row (disk_at : Z -> Disk)
  : ExcelService.t * Z * Z * list string -> Z * InsertionData.t
    -> ExcelService.t * Z * Z * list string :=
  fun '(svc, successful_insertions, failed_insertions, error_messages)
      '(i, row_data) =>
    let '(result, svc) := insert_row svc (disk_at i) row_data in
    if OperationResult.success result
    then (svc, successful_insertions + 1, failed_insertions, error_messages)
    else (svc, successful_insertions, failed_insertions + 1,
          (error_messages
           ++ ["Row " +:+ PyStr.of_Z (i + 1) +:+ ": "
               +:+ OperationResult.message result])%list).

(** [add_multiple_rows] *)
Definition add_multiple_rows (svc : ExcelService.t) (disk_at : Z -> Disk)
  (rows_data : list InsertionData.t) : OperationResult.t * ExcelService.t :=
  if rows_data is [] then
    (OperationResult.make false "No data provided for insertion", svc)
  else if 50 <? len rows_data then
    (OperationResult.make false
       "Batch insertion limited to 50 rows for safety. Please split into smaller batches.",
     svc)
  else
    let '(svc, successful_insertions, failed_insertions, error_messages) :=
      foldl (add_row disk_at) (svc, 0, 0, [])
            (zip (seqZ 0 (len rows_data)) rows_data) in
    if failed_insertions =? 0 then
      ({| OperationResult.success := true;
          OperationResult.message :=
            "Successfully inserted " +:+ PyStr.of_Z successful_insertions
            +:+ " rows";
          OperationResult.affected_rows := successful_insertions;
          OperationResult.affected_columns := 0;
          OperationResult.data := None;
          OperationResult.warnings := [] |}, svc)
    else if 0 <? successful_insertions then
      ({| OperationResult.success := true;
          OperationResult.message :=
            "Partially successful: " +:+ PyStr.of_Z successful_insertions
            +:+ " rows inserted, " +:+ PyStr.of_Z failed_insertions +:+ " failed";
          OperationResult.affected_rows := successful_insertions;
          OperationResult.affected_columns := 0;
          OperationResult.data := None;
          OperationResult.warnings := error_messages |}, svc)
    else
      ({| OperationResult.success := false;
          OperationResult.message :=
            "All " +:+ PyStr.of_Z failed_insertions +:+ " row insertions failed";
          OperationResult.affected_rows := 0;
          OperationResult.affected_columns := 0;
          OperationResult.data := None;
          OperationResult.warnings := error_messages |}, svc).

End Handler.

End DataInsertionHandler.

(** ** Updates ([operations/crud_handlers.py], [DataUpdateHandler]) *)

Module UpdateData.
Record t := {
  target_sheet : string;
  updates : dict;
  conditions : option dict;
  target_row : option Z;
  target_range : option string;
  unique_identifier : option dict
}.
End UpdateData.

Module UpdateResult.
Record t := {
  success : bool;
  message : string;
  affected_rows : Z;
  affected_cells : Z;
  changes_made : list dict;
  warnings : list string
}.
(** [UpdateResult(success=s, message=m)] *)
Definition make (s : bool) (m : string) : t :=
  {| success := s; message := m; affected_rows := 0; affected_cells := 0;
     changes_made := []; warnings := [] |}.
End UpdateResult.

Module DataUpdateHandler.

Import UpdateData UpdateResult.

(** [s.replace(c, '')] for a single character [c] *)
Fixpoint without_char (c : ascii) (s : string) : string :=
  match s with
  | EmptyString => EmptyString
  | String a r =>
      if Ascii.eqb a c then without_char c r else String a (without_char c r)
  end.

(** [str.isdigit] on the ASCII range: at least one character, and digits
    only. *)
Definition is_digit (c : ascii) : bool :=
  let n := nat_of_ascii c in ((48 <=? n)%nat && (n <=? 57)%nat)%bool.

Definition isdigit (s : string) : bool :=
  match s with
  | EmptyString => false
  | _ => forallb is_digit (list_ascii_of_string s)
  end.

(** [headers.index(column_name)] for a name among the headers *)
Fixpoint index (column_name : string) (headers : list string) : Z :=
  match headers with
  | [] => 0
  | h :: rest => if String.eqb h column_name then 0 else 1 + index column_name rest
  end.

Section Handler.
Context `{PyRuntime} `{Parsing}.

(** [_validate_and_convert_cell_value]: a string that looks like a number
    but does not parse comes back as it is. *)
Definition _validate_and_convert_cell_value (value : pyval) (sheet_name : string)
  (cell_reference : string) : pyval :=
  if ((if value is VNone then true else false) || Py.py_eq value (VStr ""))%bool
  then VNone
  else
    match value with
    | VStr s =>
        if isdigit (without_char "-" (without_char "." s)) then
          if PyStr.contains "." s then
            match float_of_str s with
            | Some f => VFloat f
            | None => VStr (Py.str value)
            end
          else
            match int_of_str s with
            | Some z => VInt z
            | None => VStr (Py.str value)
            end
        else if bool_decide (PyStr.lower s ∈ ["true"; "false"]) then
          VBool (String.eqb (PyStr.lower s) "true")
        else value
    | _ => value
    end.

(** One turn of the loop of [_update_specific_row] over [updates.items()]:
    the sheet, the counter and the change records. *)
Definition update_cell_of (sheet_name : string) (headers : list string)
  (target_row : Z)
  : Worksheet * Z * list dict -> string * pyval -> Worksheet * Z * list dict :=
  fun '(sheet, cells_updated, changes_made) '(column_name, new_value) =>
    if negb (bool_decide (column_name ∈ headers))
    then (sheet, cells_updated, changes_made)
    else
      let col_idx := index column_name headers + 1 in
      let old_value := Openpyxl.cell_value sheet target_row col_idx in
      let converted_value :=
        _validate_and_convert_cell_value new_value sheet_name
          (Openpyxl.coordinate target_row col_idx) in
      (OpenpyxlWrite.assign sheet target_row col_idx converted_value,
       cells_updated + 1,
       (changes_made
        ++ [[("cell", VStr (Openpyxl.coordinate target_row col_idx));
             ("column", VStr column_name);
             ("old_value", old_value);
             ("new_value", converted_value)]])%list).

(** [_update_specific_row]: the result and the service after the call. *)
Definition _update_specific_row (svc : ExcelService.t) (disk : Disk)
  (sheet : Worksheet) (update_data : UpdateData.t)
  : UpdateResult.t * ExcelService.t :=
  match target_row update_data with
  | None =>
      (make false ("Failed to update row: "
                   +:+ "'<' not supported between instances of 'NoneType' and 'int'"),
       svc)
  | Some row =>
      if ((row <? 1) || (Openpyxl.max_row sheet <? row))%bool then
        (make false ("Row " +:+ PyStr.of_Z row +:+ " is out of range (1-"
                     +:+ PyStr.of_Z (Openpyxl.max_row sheet) +:+ ")"), svc)
      else
        match ExcelService.get_structure svc with
        | None => (make false "Unable to analyze sheet structure", svc)
        | Some structure =>
            let headers :=
              ExcelService.info_headers
                (ExcelService.get_sheet_info structure (target_sheet update_data)) in
            let '(sheet', cells_updated, changes) :=
              foldl (update_cell_of (target_sheet update_data) headers row)
                    (sheet, 0, []) (updates update_data) in
            let svc := ExcelService.put_sheet svc (target_sheet update_data) sheet' in
            match DataDeletionHandler.save_workbook svc disk with
            | Raise _ e => (make false ("Failed to update row: " +:+ e), svc)
            | Ok false =>
                (make false "Failed to save workbook after row update", svc)
            | Ok true =>
                ({| success := true;
                    message :=
                      "Successfully updated row " +:+ PyStr.of_Z row +:+ " with "
                      +:+ PyStr.of_Z cells_updated +:+ " changes";
                    affected_rows := 1;
                    affected_cells := cells_updated;
                    changes_made := changes;
                    warnings := [] |},
                 {| ExcelService.workbook := ExcelService.workbook svc;
                    ExcelService.file_path := ExcelService.file_path svc;
                    ExcelService.structure :=
                      option_map ExcelService._analyze_structure
                        (ExcelService.workbook svc) |})
            end
        end
  end.

End Handler.

End DataUpdateHandler.

(** ** Confirmation parsing ([ui/confirmation_handler.py]) *)

Module ConfirmationHandler.

(** [self.positive_responses] *)
Definition positive_responses : gset string :=
  list_to_set
    ["yes"; "y"; "ok"; "okay"; "proceed"; "continue"; "confirm";
     "go"; "do it"; "execute"; "run"; "sure"; "absolutely";
     "affirmative"; "correct"; "right"; "true"; "1"].

(** [self.negative_responses] *)
Definition negative_responses : gset string :=
  list_to_set
    ["no"; "n"; "cancel"; "stop"; "abort"; "quit"; "exit";
     "deny"; "refuse"; "reject"; "negative"; "false"; "0";
     "nope"; "nah"; "never"; "skip"; "not"].

Definition normalize (user_input : string) : string :=
  PyStr.strip (PyStr.lower user_input).

(** [any(word in self.positive_responses for word in words)] *)
Definition positive_found (words : list string) : bool :=
  existsb (fun w => bool_decide (w ∈ positive_responses)) words.

Definition negative_found (words : list string) : bool :=
  existsb (fun w => bool_decide (w ∈ negative_responses)) words.

(** [parse_confirmation_response]: [Some true] is Python's [True],
    [Some false] is [False], [None] is [None]. *)
Definition parse_confirmation_response (user_input : string) : option bool :=
  if String.eqb user_input "" then None
  else
    let normalized := normalize user_input in
    if bool_decide (normalized ∈ positive_responses) then Some true
    else if bool_decide (normalized ∈ negative_responses) then Some false
    else
      let words := PyStr.split normalized in
      let pos := positive_found words in
      let neg := negative_found words in
      if (pos && negb neg)%bool then Some true
      else if (neg && negb pos)%bool then Some false
      else None.

(** [ConfirmationResponse] *)
Inductive ConfirmationResponse := YES | NO | CANCEL | UNKNOWN.

(** [get_confirmation_response_type] *)
Definition get_confirmation_response_type (user_input : string)
  : ConfirmationResponse :=
  match parse_confirmation_response user_input with
  | Some true => YES
  | Some false => NO
  | None => UNKNOWN
  end.

End ConfirmationHandler.

(** * Properties *)

(** ** String primitives on concrete inputs *)

Example lower_ex : PyStr.lower "Sure, Let's" = "sure, let's".
Proof. reflexivity. Qed.
Example split_ex : PyStr.split "  sure,  let's do it " = ["sure,"; "let's"; "do"; "it"].
Proof. reflexivity. Qed.
Example strip_ex : PyStr.strip "  a b  " = "a b".
Proof. reflexivity. Qed.
Example split_on_ex :
PyStr.split_on "_backup_" "a_backup_b_backup_c" = ["a"; "b"; "c"].
Proof. reflexivity. Qed.
Example split_on_ex2 : PyStr.split_on "_backup_" "abc" = ["abc"].
Proof. reflexivity. Qed.
Example rsplit_ex : PyStr.rsplit_dot "a.b.c" = Some ("a.b", "c").
Proof. reflexivity. Qed.
Example of_Z_ex : (PyStr.of_Z 0, PyStr.of_Z 51, PyStr.of_Z (-3)) = ("0", "51", "-3").
Proof. reflexivity. Qed.
Example endswith_ex : PyStr.endswith "hello" "llo" = true.
Proof. reflexivity. Qed.
Example parse_yes : ConfirmationHandler.parse_confirmation_response "yes" = Some true.
Proof. vm_compute. reflexivity. Qed.

(** ** Confirmation parsing *)

Section ConfirmationProperties.
Import ConfirmationHandler.

(** C7, as the claim states it, fails on its third input: the reply
    "sure, let's do it" is not affirmative.  Its tokens are "sure,"
    (with the comma), "let's", "do" and "it"; none is a positive word. *)
Lemma C7_sure_lets_do_it_not_affirmative :
  PyStr.split (normalize "sure, let's do it") = ["sure,"; "let's"; "do"; "it"]
  /\ positive_found ["sure,"; "let's"; "do"; "it"] = false
  /\ parse_confirmation_response "sure, let's do it" = None
  /\ parse_confirmation_response "sure, let's do it" <> Some true.
Proof.
  assert (E : parse_confirmation_response "sure, let's do it" = None)
    by (vm_compute; reflexivity).
  split; [vm_compute; reflexivity|].
  split; [vm_compute; reflexivity|].
  split; [exact E|].
  rewrite E. discriminate.
Qed.

(** C7 (amended): "yes" and "Y" are affirmative, "no" and "cancel please"
    are negative, "maybe" and "sure, let's do it" are unclear; and for
    every reply the answer is decided by an exact match of the normalised
    reply first (positive set, then negative set), then by the presence
    of words of the two sets among its tokens, and it is unclear only for
    an empty reply or when both or neither set matched. *)
Theorem C7_parse_confirmation_response :
  parse_confirmation_response "yes" = Some true
  /\ parse_confirmation_response "Y" = Some true
  /\ parse_confirmation_response "no" = Some false
  /\ parse_confirmation_response "cancel please" = Some false
  /\ parse_confirmation_response "maybe" = None
  /\ parse_confirmation_response "sure, let's do it" = None
  /\ forall s : string,
       let exact_pos := bool_decide (normalize s ∈ positive_responses) in
       let exact_neg := bool_decide (normalize s ∈ negative_responses) in
       let words := PyStr.split (normalize s) in
       match parse_confirmation_response s with
       | Some true =>
           exact_pos = true
           \/ (exact_neg = false
               /\ positive_found words = true /\ negative_found words = false)
       | Some false =>
           exact_pos = false
           /\ (exact_neg = true
               \/ (negative_found words = true /\ positive_found words = false))
       | None =>
           s = ""
           \/ (exact_pos = false /\ exact_neg = false
               /\ positive_found words = negative_found words)
       end.
Proof.
  do 6 (split; [vm_compute; reflexivity|]).
  intros s. cbv zeta. unfold parse_confirmation_response.
  destruct (String.eqb_spec s "") as [->|Hs]; [left; reflexivity|].
  destruct (bool_decide (normalize s ∈ positive_responses)); [left; reflexivity|].
  destruct (bool_decide (normalize s ∈ negative_responses)); [split; auto|].
  destruct (positive_found (PyStr.split (normalize s)));
    destruct (negative_found (PyStr.split (normalize s))); simpl; auto.
Qed.

End ConfirmationProperties.

(** ** Outlier detection *)

Section OutlierProperties.
Import DataAnalysis.
Context `{PyRuntime} `{Statistics}.

(** The sample of the claim, in the order of the column. *)
Definition sample : list float :=
  [10; 12; 12; 13; 12; 11; 14; 13; 100]%float.

(** A sheet whose column A holds the header and the sample in rows 2-10. *)
Definition sample_workbook : list (string * Worksheet) :=
  [("Data", [VStr "Score"]
            :: map (fun z => [VInt z]) [10; 12; 12; 13; 12; 11; 14; 13; 100])].

Definition low_outliers (l : list Outlier) : list Outlier :=
  List.filter (fun o => String.eqb (type o) "low") l.

(** C8, as the claim states it, fails: on the sample the quartiles are
    Q1 = 12 (position 9 // 4 = 2) and Q3 = 13 (position 27 // 4 = 6), the
    lower fence is 12 - 1.5 = 10.5, and 10 lies below it, so one low
    outlier is flagged. *)
Lemma C8_sample_has_a_low_outlier :
  DataAnalysis.sorted sample = [10; 11; 12; 12; 12; 13; 13; 14; 100]%float
  /\ low_outliers (iqr_outliers (zip sample (seqZ 2 9)))
     = [{| value := 10; row := 2; z_score := None; type := "low" |}]
  /\ low_outliers (iqr_outliers (zip sample (seqZ 2 9))) <> [].
Proof.
  repeat split; try (vm_compute; reflexivity).
  vm_compute. discriminate.
Qed.

(** C8 (amended): for a column whose numeric samples are the nine values
    of the claim, in whatever rows [r1] ... [r9] they stand, the IQR
    method flags exactly two outliers: 10 as a low outlier and 100 as a
    high outlier; and [find_outliers] reports just that on a sheet that
    holds the sample in rows 2 to 10 of column A. *)
Theorem C8_find_outliers_iqr_sample :
  (forall r1 r2 r3 r4 r5 r6 r7 r8 r9 : Z,
     iqr_outliers
       [(10, r1); (12, r2); (12, r3); (13, r4); (12, r5); (11, r6);
        (14, r7); (13, r8); (100, r9)]%float
     = [{| value := 10; row := r1; z_score := None; type := "low" |};
        {| value := 100; row := r9; z_score := None; type := "high" |}])
  /\ find_outliers sample_workbook "Data" "A" "iqr"
     = {| success := true;
          message := "Found 2 outliers in column 'A' using IQR method";
          data :=
            Some {| column := "A"; method := "IQR"; total_values := 9;
                    outlier_count := 2;
                    outliers :=
                      [{| value := 10; row := 2; z_score := None; type := "low" |};
                       {| value := 100; row := 10; z_score := None;
                          type := "high" |}] |} |}.
Proof.
  split.
  - intros. vm_compute. reflexivity.
  - vm_compute. reflexivity.
Qed.

End OutlierProperties.

(** ** Chart type detection *)

Section ChartProperties.
Import ChartTypeDetector.

(** The rules of the decision chain that the code does follow. *)
Lemma decide_chart_rules (num_cols data_rows numeric_cols text_cols : Z) :
  (num_cols = 2 -> text_cols = 1 -> numeric_cols = 1 ->
   decide_chart num_cols data_rows numeric_cols text_cols
   = if data_rows <=? 10 then PIE else BAR)
  /\ (2 <= numeric_cols ->
      decide_chart num_cols data_rows numeric_cols text_cols
      = if 20 <? data_rows then LINE else BAR)
  /\ (numeric_cols = 1 -> 1 <= text_cols ->
      ~ (num_cols = 2 /\ text_cols = 1) ->
      decide_chart num_cols data_rows numeric_cols text_cols = BAR)
  /\ (numeric_cols <= 0 ->
      decide_chart num_cols data_rows numeric_cols text_cols = BAR).
Proof.
  unfold decide_chart. repeat split; intros.
  - subst. reflexivity.
  - destruct (num_cols =? 2) eqn:E1, (text_cols =? 1) eqn:E2,
      (numeric_cols =? 1) eqn:E3; simpl;
      try (apply Z.eqb_eq in E3; lia);
      (destruct (2 <=? numeric_cols) eqn:E4; [reflexivity|apply Z.leb_gt in E4; lia]).
  - subst. destruct (num_cols =? 2) eqn:E1, (text_cols =? 1) eqn:E2; simpl;
      try (apply Z.eqb_eq in E1; apply Z.eqb_eq in E2; tauto);
      (destruct (1 <=? text_cols) eqn:E5; [reflexivity|apply Z.leb_gt in E5; lia]).
  - destruct (numeric_cols =? 1) eqn:E3; [apply Z.eqb_eq in E3; lia|].
    rewrite andb_false_r. simpl.
    destruct (2 <=? numeric_cols) eqn:E4; [apply Z.leb_le in E4; lia|].
    reflexivity.
Qed.

(** The decision chain never answers scatter: its fourth branch asks for
    [numeric_cols >= 2], which the second branch has already taken. *)
Lemma decide_chart_never_scatter (num_cols data_rows numeric_cols text_cols : Z) :
  decide_chart num_cols data_rows numeric_cols text_cols <> SCATTER.
Proof.
  unfold decide_chart.
  destruct ((num_cols =? 2) && (text_cols =? 1) && (numeric_cols =? 1))%bool.
  - destruct (data_rows <=? 10); discriminate.
  - destruct (2 <=? numeric_cols) eqn:E.
    + destruct (20 <? data_rows); discriminate.
    + simpl. destruct ((numeric_cols =? 1) && (1 <=? text_cols))%bool; discriminate.
Qed.

(** A range of two numeric columns with a header row and 15 data rows. *)
Definition two_numeric_columns : Worksheet :=
  [VStr "x"; VStr "y"] :: map (fun z => [VInt z; VInt (z * z)]) (seqZ 1 15).

Definition range_A1_B16 : DataRange :=
  {| sheet_name := "Data"; start_row := 1; start_col := 1; end_row := 16;
     end_col := 2; has_headers := true |}.

(** C9: the code misses the scatter rule of the claim.  Two numeric
    columns with 15 data rows (more than 10, at most 50) are detected as
    bar, and no range on any sheet is ever detected as scatter. *)
Theorem C9_scatter_rule_unreachable :
  detect_chart_type range_A1_B16 two_numeric_columns = Ok BAR
  /\ forall (data_range : DataRange) (sheet : Worksheet),
       detect_chart_type data_range sheet <> Ok SCATTER.
Proof.
  split; [vm_compute; reflexivity|].
  intros data_range sheet. unfold detect_chart_type.
  destruct (count_columns _ _ _ _ _) as [[n t]|k m]; simpl; [|discriminate].
  intros E. injection E as E. exact (decide_chart_never_scatter _ _ _ _ E).
Qed.

(** The pie and bar examples of the claim hold: a text and a numeric
    column with 8 data rows give pie, with 30 data rows bar. *)
Example detect_pie_and_bar :
  let sheet n := [VStr "name"; VStr "amount"]
                 :: map (fun z => [VStr "item"; VInt z]) (seqZ 1 n) in
  let range n := {| sheet_name := "Data"; start_row := 1; start_col := 1;
                    end_row := n + 1; end_col := 2; has_headers := true |} in
  detect_chart_type (range 8) (sheet 8) = Ok PIE
  /\ detect_chart_type (range 30) (sheet 30) = Ok BAR.
Proof. split; vm_compute; reflexivity. Qed.

End ChartProperties.

(** ** Python comparisons *)

Section PyProperties.

(** An ordering comparison ends normally or in a [TypeError]. *)
Lemma py_cmp_raises_TypeError (op : Py.cmpop) :
  forall (a b : pyval) (k : exn_kind) (m : string),
    Py.py_cmp op a b = Raise k m -> k = TypeError.
Proof.
  fix IH 1. intros a b k m.
  destruct a as [| |z|f|s|t|la|da]; destruct b as [| |z'|f'|s'|t'|lb|db];
    simpl; try (intros E; inversion E; reflexivity).
  revert lb. induction la as [|x xs IHxs]; intros [|y ys];
    try (intros E; inversion E; reflexivity).
  destruct (Py.py_eq x y); [apply IHxs|apply IH].
Qed.

(** [operator == "..."] holds for that string only. *)
Lemma py_eq_VStr (v : pyval) (s : string) :
  Py.py_eq v (VStr s) = true <-> v = VStr s.
Proof.
  destruct v as [|b|z|f|t|d|l|dd]; simpl; split; intros E;
    try discriminate E; try (destruct b; discriminate E).
  - apply String.eqb_eq in E. congruence.
  - injection E as ->. apply String.eqb_refl.
Qed.

Lemma py_eq_VStr_false (v : pyval) (s : string) :
  v <> VStr s -> Py.py_eq v (VStr s) = false.
Proof.
  intros N. destruct (Py.py_eq v (VStr s)) eqn:E; [|reflexivity].
  apply py_eq_VStr in E. contradiction.
Qed.

End PyProperties.

(** ** Condition evaluation *)

Section ConditionProperties.
Context `{PyRuntime}.

(** The body of [_evaluate_condition] ends normally or in a [TypeError]. *)
Lemma evaluate_condition_body_raises (record_value operator condition_value : pyval)
  (k : exn_kind) (m : string) :
  DataQueryHandler.evaluate_condition_body record_value operator condition_value
  = Raise k m -> k = TypeError.
Proof.
  unfold DataQueryHandler.evaluate_condition_body.
  repeat match goal with
         | |- context [if ?c then _ else _] => destruct c
         end;
    try discriminate; apply py_cmp_raises_TypeError.
Qed.

(** With an operator outside the nine, the body answers [False]. *)
Lemma evaluate_condition_body_unsupported
  (record_value operator condition_value : pyval) :
  (forall s, In s DataQueryHandler.supported_operators -> operator <> VStr s) ->
  DataQueryHandler.evaluate_condition_body record_value operator condition_value
  = Ok false.
Proof.
  intros N. unfold DataQueryHandler.evaluate_condition_body.
  rewrite !py_eq_VStr_false; [reflexivity|..];
    apply N; unfold DataQueryHandler.supported_operators; simpl; tauto.
Qed.

(** The two copies of the function compute the same thing. *)
Lemma evaluate_condition_copies_agree (value operator target_value : pyval) :
  QueryOperations._evaluate_condition value operator target_value
  = DataQueryHandler._evaluate_condition value operator target_value.
Proof.
  unfold QueryOperations._evaluate_condition,
    DataQueryHandler._evaluate_condition.
  fold (DataQueryHandler.evaluate_condition_body value operator target_value).
  destruct (DataQueryHandler.evaluate_condition_body value operator target_value)
    as [b|k m] eqn:E; [reflexivity|].
  apply evaluate_condition_body_raises in E. subst k. reflexivity.
Qed.

(** C10: the condition evaluation of the query, update and delete filters
    (and its copy in the query operations) is total: for every record
    value, operator and condition value it returns a boolean and raises
    nothing; a comparison that raises (a type error) gives [False]; and an
    operator outside the nine supported ones gives [False]. *)
Theorem C10_evaluate_condition_total
  (record_value operator condition_value : pyval) :
  (exists b : bool,
     DataQueryHandler._evaluate_condition record_value operator condition_value
     = Ok b)
  /\ (exists b : bool,
        QueryOperations._evaluate_condition record_value operator condition_value
        = Ok b)
  /\ (forall k m,
        DataQueryHandler.evaluate_condition_body record_value operator
          condition_value = Raise k m ->
        DataQueryHandler._evaluate_condition record_value operator condition_value
        = Ok false
        /\ QueryOperations._evaluate_condition record_value operator
             condition_value = Ok false)
  /\ ((forall s, In s DataQueryHandler.supported_operators -> operator <> VStr s) ->
      DataQueryHandler._evaluate_condition record_value operator condition_value
      = Ok false
      /\ QueryOperations._evaluate_condition record_value operator condition_value
         = Ok false).
Proof.
  assert (T : exists b : bool,
             DataQueryHandler._evaluate_condition record_value operator
               condition_value = Ok b).
  { unfold DataQueryHandler._evaluate_condition.
    destruct (DataQueryHandler.evaluate_condition_body _ _ _) as [b|k m] eqn:E.
    - exists b. reflexivity.
    - apply evaluate_condition_body_raises in E. subst k. exists false. reflexivity. }
  split; [exact T|].
  split; [rewrite evaluate_condition_copies_agree; exact T|].
  split.
  - intros k m E. rewrite evaluate_condition_copies_agree.
    unfold DataQueryHandler._evaluate_condition. rewrite E.
    apply evaluate_condition_body_raises in E. subst k. split; reflexivity.
  - intros N. rewrite evaluate_condition_copies_agree.
    unfold DataQueryHandler._evaluate_condition.
    rewrite (evaluate_condition_body_unsupported _ _ _ N). split; reflexivity.
Qed.

End ConditionProperties.

(** Concrete runs of C10: a string compared with a number, an unknown
    operator, and a comparison that holds. *)
Example evaluate_condition_runs :
  @DataQueryHandler._evaluate_condition run_time (VStr "abc") (VStr ">") (VInt 3)
  = Ok false
  /\ @DataQueryHandler._evaluate_condition run_time (VInt 5) (VStr "like") (VInt 5)
     = Ok false
  /\ @DataQueryHandler._evaluate_condition run_time (VInt 5) (VStr ">=") (VFloat 4.5)
     = Ok true
  /\ @DataQueryHandler._evaluate_condition run_time (VStr "Hello World")
       (VStr "contains") (VStr "WORLD") = Ok true.
Proof. repeat split; vm_compute; reflexivity. Qed.

(** ** Risk assessment *)

Section RiskProperties.
Import RiskAssessor.
Context `{PyRuntime}.

(** The scores the assessor works with. *)
Definition levels : list float := [0.0; 0.2; 0.5; 0.6; 0.8; 1.0]%float.

Ltac in_levels :=
  vm_compute; first [reflexivity | repeat (first [left; reflexivity | right])].

Ltac by_levels :=
  unfold levels; simpl In; intros;
  repeat match goal with
         | H : _ \/ _ |- _ => destruct H as [<-|H]
         | H : False |- _ => destruct H
         end;
  in_levels.

Lemma fmax_levels (a b : float) : In a levels -> In b levels -> In (fmax a b) levels.
Proof. by_levels. Qed.

Lemma fmax_one_r (a : float) : In a levels -> fmax a 1.0 = 1.0%float.
Proof. by_levels. Qed.

Lemma fmax_one_l (b : float) : In b levels -> fmax 1.0 b = 1.0%float.
Proof. by_levels. Qed.

Lemma base_score_level (l : RiskLevel) : In (_get_base_score l) levels.
Proof. destruct l; in_levels. Qed.

Lemma assess_max_rows_level parameters acc acc' :
  assess_max_rows parameters acc = Ok acc' -> In (fst acc) levels -> In (fst acc') levels.
Proof.
  unfold assess_max_rows. destruct acc as [r rs].
  destruct (Py.dict_get "max_rows" parameters) as [v|]; [|intros [= <-]; auto].
  destruct (Py.py_cmp Py.OpGt v (VInt 50)) as [[]|]; simpl; try discriminate.
  - intros [= <-] Hr. simpl. apply fmax_levels; [exact Hr|in_levels].
  - destruct (Py.py_cmp Py.OpGt v (VInt 10)) as [[]|]; simpl; try discriminate.
    + intros [= <-] Hr. simpl. apply fmax_levels; [exact Hr|in_levels].
    + intros [= <-] Hr. exact Hr.
Qed.

Lemma assess_range_level parameters acc acc' :
  assess_range parameters acc = Ok acc' -> In (fst acc) levels -> In (fst acc') levels.
Proof.
  unfold assess_range. destruct acc as [r rs].
  destruct (Py.dict_get "range" parameters) as [v|]; [|intros [= <-]; auto].
  destruct (_is_large_range v) as [[]|]; simpl; try discriminate.
  - intros [= <-] Hr. simpl. apply fmax_levels; [exact Hr|in_levels].
  - intros [= <-] Hr. exact Hr.
Qed.

Lemma assess_conditions_level parameters operation acc :
  In (fst acc) levels -> In (fst (assess_conditions parameters operation acc)) levels.
Proof.
  unfold assess_conditions. destruct acc as [r rs]. intros Hr.
  destruct (Py.dict_get "conditions" parameters) as [v|]; [|exact Hr].
  destruct (bool_decide (operation ∈ read_operations)); [exact Hr|].
  match goal with |- context [if ?c then _ else _] => destruct c end;
    [|exact Hr].
  simpl. apply fmax_levels; [exact Hr|in_levels].
Qed.

Lemma assess_format_level parameters acc :
  In (fst acc) levels -> In (fst (assess_format parameters acc)) levels.
Proof.
  unfold assess_format. destruct acc as [r rs]. intros Hr.
  match goal with |- context [if ?c then _ else _] => destruct c end;
    [|exact Hr].
  simpl. apply fmax_levels; [exact Hr|in_levels].
Qed.

(** Every parameter score is one of the levels. *)
Lemma assess_parameters_level parameters operation r rs :
  _assess_parameters parameters operation = Ok (r, rs) -> In r levels.
Proof.
  unfold _assess_parameters.
  destruct (assess_max_rows parameters (0%float, [])) as [a|] eqn:Ea;
    simpl; [|discriminate].
  destruct (assess_range parameters a) as [b|] eqn:Eb; simpl; [|discriminate].
  intros [= E]. change r with (fst (r, rs)). rewrite <- E.
  apply assess_format_level, assess_conditions_level.
  apply (assess_range_level _ _ _ Eb), (assess_max_rows_level _ _ _ Ea).
  in_levels.
Qed.

(** Deleting rows with an empty [conditions] parameter scores 1.0. *)
Lemma assess_parameters_delete_rows_empty parameters conditions r rs :
  Py.dict_get "conditions" parameters = Some conditions ->
  Py.truthy conditions = false ->
  _assess_parameters parameters "delete_rows" = Ok (r, rs) ->
  r = 1.0%float.
Proof.
  intros Hc Hf. unfold _assess_parameters.
  destruct (assess_max_rows parameters (0%float, [])) as [a|] eqn:Ea;
    simpl; [|discriminate].
  destruct (assess_range parameters a) as [[b bs]|] eqn:Eb; simpl; [|discriminate].
  assert (Hb : In b levels).
  { change b with (fst (b, bs)).
    apply (assess_range_level _ _ _ Eb), (assess_max_rows_level _ _ _ Ea).
    in_levels. }
  unfold assess_conditions. rewrite Hc, Hf.
  cbn [negb orb andb].
  rewrite (fmax_one_r b Hb). unfold assess_format.
  match goal with |- context [if ?c then _ else _] => destruct c end;
    intros [= <- _]; vm_compute; reflexivity.
Qed.

(** C4: whatever the parameters and the command text, an assessment of
    one of the four read-only operations never requires confirmation,
    also with a [conditions] parameter that is present and empty; an
    assessment of [delete_rows] with an empty [conditions] parameter has
    score 1.0; and every assessment with score 1.0 is blocked. *)
Theorem C4_risk_assessment :
  (forall operation parameters command_text a,
     In operation ["query_data"; "filter_data"; "aggregate_data"; "sort_data"] ->
     assess_operation operation parameters command_text = Ok a ->
     confirmation_required a = false)
  /\ (forall parameters command_text conditions a,
        Py.dict_get "conditions" parameters = Some conditions ->
        Py.truthy conditions = false ->
        assess_operation "delete_rows" parameters command_text = Ok a ->
        score a = 1.0%float)
  /\ (forall operation parameters command_text a,
        assess_operation operation parameters command_text = Ok a ->
        score a = 1.0%float -> blocked a = true)
  /\ (forall command_text,
        exists a,
          assess_operation "query_data" [("conditions", VList [])] command_text
          = Ok a /\ confirmation_required a = false)
  /\ (exists a,
        assess_operation "delete_rows" [("conditions", VList [])] "" = Ok a
        /\ score a = 1.0%float /\ blocked a = true).
Proof.
  split; [|split; [|split; [|split]]].
  - intros operation parameters command_text a Hop.
    unfold assess_operation.
    generalize (_get_base_score (default MEDIUM (_operation_risks !! operation))).
    intros base.
    destruct (_contains_dangerous_keywords (PyStr.lower command_text));
      destruct (_assess_parameters parameters operation) as [[p ps]|];
      unfold mbind, result_bind; try discriminate; intros [= <-];
      cbn [confirmation_required];
      (case_bool_decide as Hd; [reflexivity|]);
      exfalso; apply Hd, list_elem_of_In; exact Hop.
  - intros parameters command_text conditions a Hc Hf.
    unfold assess_operation.
    assert (Hbase : In (_get_base_score
                          (default MEDIUM (_operation_risks !! "delete_rows")))
                       levels) by apply base_score_level.
    revert Hbase.
    generalize (_get_base_score (default MEDIUM (_operation_risks !! "delete_rows"))).
    intros base Hbase.
    destruct (_assess_parameters parameters "delete_rows") as [[p ps]|] eqn:Ep;
      [|destruct (_contains_dangerous_keywords (PyStr.lower command_text));
        unfold mbind, result_bind; discriminate].
    rewrite (assess_parameters_delete_rows_empty _ _ _ _ Hc Hf Ep).
    destruct (_contains_dangerous_keywords (PyStr.lower command_text));
      unfold mbind, result_bind; intros [= <-]; cbn [score].
    + reflexivity.
    + apply fmax_one_r, Hbase.
  - intros operation parameters command_text a.
    unfold assess_operation.
    generalize (_get_base_score (default MEDIUM (_operation_risks !! operation))).
    intros base.
    destruct (_contains_dangerous_keywords (PyStr.lower command_text));
      destruct (_assess_parameters parameters operation) as [[p ps]|];
      unfold mbind, result_bind; try discriminate; intros [= <-];
      cbn [score blocked]; intros ->; reflexivity.
  - intros command_text. unfold assess_operation.
    destruct (_contains_dangerous_keywords (PyStr.lower command_text));
      eexists; (split; [vm_compute; reflexivity|reflexivity]).
  - eexists. split; [vm_compute; reflexivity|]. split; reflexivity.
Qed.

End RiskProperties.

(** ** Query validation *)

Section QueryProperties.
Import DataQueryHandler.

(** A workbook with one sheet, and queries on it. *)
Definition sales_service : ExcelService.t :=
  {| ExcelService.workbook :=
       Some [("Sales", [[VStr "Item"; VStr "Qty"]; [VStr "pen"; VInt 3]])];
     ExcelService.file_path := Some "sales.xlsx";
     ExcelService.structure := None |}.

Definition sales_query (sort_order : string) (limit : option Z) : QueryData.t :=
  {| QueryData.target_sheet := "Sales"; QueryData.columns := None;
     QueryData.conditions := None; QueryData.sort_by := None;
     QueryData.sort_order := sort_order; QueryData.limit := limit;
     QueryData.aggregations := None |}.

Definition limit_message : string :=
  "Query result limited to 10000 rows for safety. Please add a limit parameter.".

Definition executed (svc : ExcelService.t) (query : QueryData.t) : QueryResult.t :=
  QueryResult.make true "executed".

(** C3, as the claim states it, fails for a request whose sort order is
    neither "asc" nor "desc": the sort order is checked before the limit,
    so a request without limit is rejected with the sort-order message,
    not with the message that asks for a limit, and a request with limit
    10000 is rejected too. *)
Lemma C3_sort_order_is_checked_first :
  QueryResult.message (query_data executed sales_service (sales_query "up" None))
  = "Sort order must be 'asc' or 'desc'"
  /\ QueryResult.message (query_data executed sales_service (sales_query "up" None))
     <> limit_message
  /\ QueryResult.success
       (query_data executed sales_service (sales_query "up" (Some 10000)))
     = false.
Proof.
  split; [vm_compute; reflexivity|].
  split; [vm_compute; discriminate|vm_compute; reflexivity].
Qed.

(** C3 (amended): for every query request against an existing sheet, a
    request without limit, with a limit above 10000 or with a limit below
    1 is rejected; when moreover the sort order is "asc" or "desc", the
    rejection of a missing or too large limit carries the message that
    asks for a limit, the rejection of a limit below 1 says that the
    limit must be greater than 0, and a request with limit exactly 10000
    passes validation and goes on to execution. *)
Theorem C3_query_limit_validation
  (run_query : ExcelService.t -> QueryData.t -> QueryResult.t)
  (svc : ExcelService.t) (query : QueryData.t) :
  QueryData.target_sheet query <> "" ->
  In (QueryData.target_sheet query) (ExcelService.get_sheet_names svc) ->
  let valid_order := In (QueryData.sort_order query) ["asc"; "desc"] in
  let r := query_data run_query svc query in
  match QueryData.limit query with
  | None =>
      QueryResult.success r = false
      /\ (valid_order -> QueryResult.message r = limit_message)
  | Some l =>
      (l < 1 ->
       QueryResult.success r = false
       /\ (valid_order -> QueryResult.message r = "Limit must be greater than 0"))
      /\ (10000 < l ->
          QueryResult.success r = false
          /\ (valid_order -> QueryResult.message r = limit_message))
      /\ (l = 10000 -> valid_order ->
          _validate_query svc query = OperationResult.make true "Validation passed"
          /\ r = run_query svc query)
  end.
Proof.
  intros Hname Hsheet valid_order r. subst valid_order r.
  unfold query_data, _validate_query.
  destruct (String.eqb_spec (QueryData.target_sheet query) "") as [E|_];
    [contradiction|].
  rewrite bool_decide_true by (apply list_elem_of_In; exact Hsheet).
  cbn [negb].
  case_bool_decide as Hord; cbn [negb].
  - assert (Hv : In (QueryData.sort_order query) ["asc"; "desc"])
      by (apply list_elem_of_In; exact Hord).
    destruct (QueryData.limit query) as [l|].
    + repeat split.
      * destruct (Z.ltb_spec l 1); [reflexivity|lia].
      * destruct (Z.ltb_spec l 1); [reflexivity|lia].
      * destruct (Z.ltb_spec l 1); [reflexivity|].
        destruct (Z.ltb_spec 10000 l); [reflexivity|lia].
      * destruct (Z.ltb_spec l 1); [lia|].
        destruct (Z.ltb_spec 10000 l); [reflexivity|lia].
      * subst l. reflexivity.
      * subst l. reflexivity.
    + split; reflexivity.
  - assert (Hn : ~ In (QueryData.sort_order query) ["asc"; "desc"])
      by (intros Hi; apply Hord, list_elem_of_In; exact Hi).
    destruct (QueryData.limit query) as [l|]; repeat split;
      try reflexivity; intros; contradiction.
Qed.

(** C3 at a concrete request: limit 10000 in ascending order is accepted. *)
Lemma C3_limit_10000_accepted :
  _validate_query sales_service (sales_query "asc" (Some 10000))
  = OperationResult.make true "Validation passed"
  /\ query_data executed sales_service (sales_query "asc" (Some 10000))
     = executed sales_service (sales_query "asc" (Some 10000)).
Proof.
  assert (Hname : QueryData.target_sheet (sales_query "asc" (Some 10000)) <> "")
    by discriminate.
  assert (Hsheet : In (QueryData.target_sheet (sales_query "asc" (Some 10000)))
                      (ExcelService.get_sheet_names sales_service))
    by (simpl; tauto).
  exact (proj2 (proj2 (C3_query_limit_validation executed sales_service
                         (sales_query "asc" (Some 10000)) Hname Hsheet))
           eq_refl (or_introl eq_refl)).
Defined.

End QueryProperties.

(** ** Deletion: the limit of 50 rows *)

(** A reference grammar without references, for the runs on rows. *)
Definition no_ranges : RangeSyntax := {| resolve_range := fun _ _ => None |}.

(** A workbook with the sheet "Data": a header and the given data rows,
    loaded from "data.xlsx" and analysed. *)
Definition data_service (header : list pyval) (rows : list (list pyval))
  : ExcelService.t :=
  let wb := [("Data", header :: rows)] in
  {| ExcelService.workbook := Some wb;
     ExcelService.file_path := Some "data.xlsx";
     ExcelService.structure := Some (@ExcelService._analyze_structure run_time wb) |}.

Definition healthy_disk : Disk :=
  {| backup_path := Some "./backups/data_backup_20240309_070501.xlsx";
     save_outcome := Ok tt |}.

(** The request "delete the rows of Data whose column is the value". *)
Definition delete_where (column : string) (v : pyval) (confirmation : bool)
  : DeletionData.t :=
  {| DeletionData.target_sheet := "Data";
     DeletionData.conditions := Some [(column, v)];
     DeletionData.target_rows := None; DeletionData.target_range := None;
     DeletionData.unique_identifier := None;
     DeletionData.confirmation_required := confirmation |}.

Section DeletionLimit.
Import DataDeletionHandler.
Context `{PyRuntime} `{RangeSyntax}.

(** C2: when the preview pass of a deletion request finds more than 50
    affected rows, [delete_data] fails without asking for confirmation
    and leaves the workbook as it was, whatever the confirmation flag of
    the request and whether or not the call was confirmed. *)
Theorem C2_more_than_50_rows_rejected
  (svc : ExcelService.t) (disk : Disk) (deletion_data : DeletionData.t)
  (confirmed : bool) (sheet : Worksheet) :
  OperationResult.success (_validate_deletion_data svc deletion_data) = true ->
  ExcelService.get_sheet svc (DeletionData.target_sheet deletion_data) = Some sheet ->
  DeletionResult.success (_preview_deletion svc sheet deletion_data) = true ->
  50 < DeletionResult.affected_rows (_preview_deletion svc sheet deletion_data) ->
  DeletionResult.success (delete_data svc disk deletion_data confirmed).1 = false
  /\ DeletionResult.requires_confirmation
       (delete_data svc disk deletion_data confirmed).1 = false
  /\ DeletionResult.confirmation_prompt
       (delete_data svc disk deletion_data confirmed).1 = None
  /\ DeletionResult.message (delete_data svc disk deletion_data confirmed).1
     = "Deletion would affect "
       +:+ PyStr.of_Z
             (DeletionResult.affected_rows (_preview_deletion svc sheet deletion_data))
       +:+ " rows. Limited to 50 rows for safety. Please use more specific conditions."
  /\ (delete_data svc disk deletion_data confirmed).2 = svc.
Proof.
  intros Hv Hs Hp Hn. unfold delete_data.
  rewrite Hv, Hs, Hp. cbn [negb].
  destruct (Z.ltb_spec 50
              (DeletionResult.affected_rows
                 (_preview_deletion svc sheet deletion_data))); [|lia].
  repeat split.
Qed.

End DeletionLimit.

(** C2 on a sheet of 51 rows that all match: rejected, confirmed or not,
    with or without the confirmation flag. *)
Lemma C2_rejects_51_rows :
  let svc := data_service [VStr "Flag"] (replicate 51 [VStr "x"]) in
  let out :=
    @DataDeletionHandler.delete_data run_time no_ranges svc healthy_disk
      (delete_where "Flag" (VStr "x") false) true in
  DeletionResult.success out.1 = false
  /\ DeletionResult.requires_confirmation out.1 = false
  /\ DeletionResult.message out.1
     = "Deletion would affect 51 rows. Limited to 50 rows for safety. Please use more specific conditions."
  /\ out.2 = svc.
Proof.
  cbv zeta.
  destruct (@C2_more_than_50_rows_rejected run_time no_ranges
              (data_service [VStr "Flag"] (replicate 51 [VStr "x"]))
              healthy_disk (delete_where "Flag" (VStr "x") false) true
              ([VStr "Flag"] :: replicate 51 [VStr "x"]))
    as (Hs & Hc & _ & Hm & Hu); try (vm_compute; reflexivity).
  split; [exact Hs|]. split; [exact Hc|]. split; [|exact Hu].
  rewrite Hm. vm_compute. reflexivity.
Defined.

(** ** The template registry *)

(** A module system that knows one module, with a function and a
    constant. *)
Definition one_module : ModuleSystem :=
  {| import_module := fun name =>
       if String.eqb name "src.operations.crud_handlers" then
         Ok (fun attr =>
               if String.eqb attr "insert_row" then Some true
               else if String.eqb attr "VERSION" then Some false
               else None)
       else Raise ImportError ("No module named '" +:+ name +:+ "'");
     call := fun _ _ _ => Ok (VStr "done") |}.

(** A catalog of one category with three operations: one that resolves,
    one whose module does not exist, one with an empty reference. *)
Definition small_catalog : list (string * list (string * dict)) :=
  [("data_operations",
    [("insert_row", [("function", VStr "crud_handlers.insert_row")]);
     ("pivot", [("function", VStr "pivot_tools.pivot")]);
     ("merge", [("function", VStr "")])])].

Section RegistryProperties.
Import TemplateRegistry.
Context `{PyRuntime} `{ModuleSystem}.

(** The entries of a catalog in the order [_build_registry] visits them. *)
Definition catalog_entries (operations : list (string * list (string * dict)))
  : list (string * string * dict) :=
  flat_map (fun '(category_name, category_ops) =>
              map (fun '(op_name, op_config) => (category_name, op_name, op_config))
                category_ops) operations.

Definition register_entry (reg : t) (e : string * string * dict) : t :=
  let '(category_name, op_name, op_config) := e in
  register reg category_name op_name op_config.

Definition reference (op_config : dict) : pyval :=
  default VNone (Py.dict_get "function" op_config).

Lemma build_registry_from (reg : t) (operations : list (string * list (string * dict))) :
  foldl (fun reg '(category_name, category_ops) =>
           foldl (fun reg '(op_name, op_config) =>
                    register reg category_name op_name op_config)
                 reg category_ops)
        reg operations
  = foldl register_entry reg (catalog_entries operations).
Proof.
  revert reg. induction operations as [|[c ops] rest IH]; intros reg; [reflexivity|].
  simpl. rewrite foldl_app, IH. f_equal.
  clear. revert reg. induction ops as [|[o cfg] ops IH]; intros reg; [reflexivity|].
  simpl. apply IH.
Qed.

Lemma build_registry_entries (operations : list (string * list (string * dict))) :
  _build_registry operations = foldl register_entry empty (catalog_entries operations).
Proof. apply build_registry_from. Qed.

(** Registering an entry leaves the other keys alone, and an entry with
    an empty reference changes nothing. *)
Lemma register_other (reg : t) (c o : string) (cfg : dict) (key : string) :
  (registry_key c o = key -> Py.truthy (reference cfg) = false) ->
  _function_registry (register reg c o cfg) !! key = _function_registry reg !! key
  /\ _operation_metadata (register reg c o cfg) !! key
     = _operation_metadata reg !! key.
Proof.
  intros Hk. unfold register. fold (reference cfg).
  destruct (Py.truthy (reference cfg)) eqn:Et; [|split; reflexivity].
  assert (Hne : registry_key c o <> key) by (intros E; specialize (Hk E); discriminate).
  destruct (_load_function (reference cfg)); simpl;
    rewrite !lookup_insert_ne by exact Hne; split; reflexivity.
Qed.

Lemma register_entries_other (entries : list (string * string * dict)) (reg : t)
  (key : string) :
  (forall c o cfg, In (c, o, cfg) entries ->
                   registry_key c o = key -> Py.truthy (reference cfg) = false) ->
  _function_registry (foldl register_entry reg entries) !! key
  = _function_registry reg !! key
  /\ _operation_metadata (foldl register_entry reg entries) !! key
     = _operation_metadata reg !! key.
Proof.
  revert reg. induction entries as [|[[c o] cfg] rest IH]; intros reg Hall;
    [split; reflexivity|].
  simpl.
  destruct (IH (register reg c o cfg)) as [E1 E2].
  { intros c' o' cfg' Hin. apply Hall. right. exact Hin. }
  destruct (register_other reg c o cfg key) as [F1 F2].
  { apply Hall. left. reflexivity. }
  rewrite E1, E2, F1, F2. split; reflexivity.
Qed.

(** An entry whose reference does not load is registered as a placeholder. *)
Lemma register_unresolved (reg : t) (c o : string) (cfg : dict) (k : exn_kind)
  (m : string) :
  Py.truthy (reference cfg) = true ->
  _load_function (reference cfg) = Raise k m ->
  _function_registry (register reg c o cfg) !! registry_key c o
  = Some (Placeholder c o (reference cfg))
  /\ _operation_metadata (register reg c o cfg) !! registry_key c o
     = Some {| category := c; operation := o; config := cfg;
               function_path := reference cfg; placeholder := true |}.
Proof.
  intros Et El. unfold register. fold (reference cfg). rewrite Et, El. simpl.
  rewrite !lookup_insert_eq. split; reflexivity.
Qed.

(** In every registry that [register] builds, an entry that is not marked
    as a placeholder holds a loaded function. *)
Definition consistent (reg : t) : Prop :=
  forall key md,
    _operation_metadata reg !! key = Some md -> placeholder md = false ->
    exists module_name function_name,
      _function_registry reg !! key = Some (Function module_name function_name).

Lemma register_consistent (reg : t) (c o : string) (cfg : dict) :
  consistent reg -> consistent (register reg c o cfg).
Proof.
  intros Hreg. unfold register.
  destruct (Py.truthy _); [|exact Hreg].
  destruct (_load_function _) as [f|k m] eqn:El; intros key md; simpl;
    (destruct (decide (registry_key c o = key)) as [->|Hne];
     [rewrite !lookup_insert_eq|rewrite !lookup_insert_ne by exact Hne; apply Hreg]).
  - intros _ _. unfold _load_function in El.
    destruct (default VNone (Py.dict_get "function" cfg)); try discriminate.
    destruct (PyStr.rsplit_dot s) as [[mp fn]|]; [|discriminate].
    destruct (import_with_fallbacks mp) as [[name module]|]; simpl in El;
      [|discriminate].
    destruct (module fn) as [[]|]; try discriminate.
    injection El as <-. eauto.
  - intros [= <-]. simpl. discriminate.
Qed.

Lemma build_registry_consistent (operations : list (string * list (string * dict))) :
  consistent (_build_registry operations).
Proof.
  rewrite build_registry_entries.
  assert (G : forall entries reg, consistent reg ->
                consistent (foldl register_entry reg entries)).
  { induction entries as [|[[c o] cfg] rest IH]; intros reg Hreg; [exact Hreg|].
    simpl. apply IH, register_consistent, Hreg. }
  apply G. intros key md. unfold empty. simpl. rewrite lookup_empty. discriminate.
Qed.

(** C6 (amended): building the registry is a total function of the
    catalog.  For every catalog entry whose function reference is not
    empty and does not load (and whose key [category.operation] no later
    entry with a reference takes over), the registry holds an entry under
    that key, marked as a placeholder; executing the operation raises
    [NotImplementedError] with a message that names the category, the
    operation and the expected function path; and
    [is_operation_available] is false for it.  [is_operation_available]
    is true only for entries that are not placeholders and hold a loaded
    function. *)
Theorem C6_unresolved_function_is_placeholder
  (operations : list (string * list (string * dict)))
  (before after : list (string * string * dict))
  (c o : string) (cfg : dict) (k : exn_kind) (m : string) :
  catalog_entries operations = (before ++ (c, o, cfg) :: after)%list ->
  Py.truthy (reference cfg) = true ->
  _load_function (reference cfg) = Raise k m ->
  (forall c' o' cfg', In (c', o', cfg') after ->
                      registry_key c' o' = registry_key c o ->
                      Py.truthy (reference cfg') = false) ->
  let reg := _build_registry operations in
  get_function reg c o = Some (Placeholder c o (reference cfg))
  /\ (exists md, _operation_metadata reg !! (c +:+ "." +:+ o) = Some md
                 /\ placeholder md = true /\ category md = c
                 /\ operation md = o /\ function_path md = reference cfg)
  /\ (forall args,
        execute_operation reg c o args
        = Raise NotImplementedError
            ("Operation '" +:+ c +:+ "." +:+ o
             +:+ "' is not implemented. Expected function at: "
             +:+ Py.str (reference cfg)))
  /\ is_operation_available reg c o = false
  /\ (forall c' o',
        is_operation_available reg c' o' = true ->
        exists md module_name function_name,
          _operation_metadata reg !! registry_key c' o' = Some md
          /\ placeholder md = false
          /\ get_function reg c' o' = Some (Function module_name function_name)).
Proof.
  intros Hcat Ht Hl Hafter reg.
  assert (Hlook :
            _function_registry reg !! registry_key c o
            = Some (Placeholder c o (reference cfg))
            /\ _operation_metadata reg !! registry_key c o
               = Some {| category := c; operation := o; config := cfg;
                         function_path := reference cfg; placeholder := true |}).
  { subst reg. rewrite build_registry_entries, Hcat, foldl_app. simpl.
    destruct (register_entries_other after
                (register (foldl register_entry empty before) c o cfg)
                (registry_key c o) Hafter) as [E1 E2].
    rewrite E1, E2. apply (register_unresolved _ _ _ _ k m Ht Hl). }
  destruct Hlook as [Hf Hm].
  split; [exact Hf|].
  split; [eexists; split; [exact Hm|repeat split]|].
  split; [intros args; unfold execute_operation, get_function; rewrite Hf;
          reflexivity|].
  split; [unfold is_operation_available; rewrite Hm; reflexivity|].
  intros c' o'. unfold is_operation_available, get_function.
  destruct (_operation_metadata reg !! registry_key c' o') as [md|] eqn:Emd;
    [|discriminate].
  intros Hp. apply negb_true_iff in Hp.
  destruct (build_registry_consistent operations _ _ Emd Hp) as (mn & fn & Hfn).
  exists md, mn, fn. repeat split; assumption.
Qed.

End RegistryProperties.

(** C6, as the claim states it, fails for an entry whose function
    reference is empty: the reference does not resolve to a callable, yet
    [_build_registry] skips the entry ([if function_path:]), so no
    registry entry exists under its key and executing the operation
    raises [KeyError], not a not-implemented error. *)
Lemma C6_empty_reference_is_skipped :
  let reg := @TemplateRegistry._build_registry one_module small_catalog in
  (exists k m, @TemplateRegistry._load_function one_module (VStr "") = Raise k m)
  /\ TemplateRegistry.get_function reg "data_operations" "merge" = None
  /\ TemplateRegistry._operation_metadata reg !! "data_operations.merge" = None
  /\ (@TemplateRegistry.execute_operation run_time one_module reg "data_operations" "merge" []
      = Raise KeyError "Operation 'data_operations.merge' not found in registry")
  /\ (forall m,
        @TemplateRegistry.execute_operation run_time one_module reg "data_operations" "merge" []
        <> Raise NotImplementedError m).
Proof.
  cbv zeta.
  split; [eexists; eexists; vm_compute; reflexivity|].
  split; [vm_compute; reflexivity|].
  split; [vm_compute; reflexivity|].
  split; [vm_compute; reflexivity|].
  intros m. vm_compute. discriminate.
Qed.

(** C6 at the entry "pivot" of the small catalog; the entry that resolves
    is available. *)
Lemma C6_pivot_is_placeholder :
  let reg := @TemplateRegistry._build_registry one_module small_catalog in
  (@TemplateRegistry.execute_operation run_time one_module reg "data_operations" "pivot" []
   = Raise NotImplementedError
       "Operation 'data_operations.pivot' is not implemented. Expected function at: pivot_tools.pivot")
  /\ TemplateRegistry.is_operation_available reg "data_operations" "pivot" = false
  /\ TemplateRegistry.is_operation_available reg "data_operations" "insert_row" = true.
Proof.
  cbv zeta.
  destruct (@C6_unresolved_function_is_placeholder run_time one_module small_catalog
              [("data_operations", "insert_row",
                [("function", VStr "crud_handlers.insert_row")])]
              [("data_operations", "merge", [("function", VStr "")])]
              "data_operations" "pivot" [("function", VStr "pivot_tools.pivot")]
              ImportError
              "Cannot import module 'pivot_tools': No module named 'pivot_tools'")
    as (_ & _ & Hx & Ha & _).
  - reflexivity.
  - reflexivity.
  - vm_compute. reflexivity.
  - intros c' o' cfg' [[= <- <- <-]|[]] _. reflexivity.
  - split; [rewrite Hx; vm_compute; reflexivity|].
    split; [exact Ha|vm_compute; reflexivity].
Defined.

(** ** Deletion by condition *)

(** The sheet "Data" with the header "Name", a blank row 2, "a" in row 3
    and "b" in row 4. *)
Definition blank_row_service : ExcelService.t :=
  data_service [VStr "Name"] [[VNone]; [VStr "a"]; [VStr "b"]].

Definition prompt_one_row : string :=
  "This will delete 1 row(s). Sample of data to be deleted:"
  +:+ DataDeletionHandler.nl +:+ "  Row 1: Name: b" +:+ DataDeletionHandler.nl
  +:+ DataDeletionHandler.nl
  +:+ "Are you sure you want to proceed with this deletion? (This action cannot be undone without restoring from backup)".

(** C1: the code deletes a row that was not matched.  On a sheet with a
    blank row above the data, the request "delete the rows whose Name is
    b" is previewed correctly (one matched row, the record of "b", a
    prompt for 1 row, the sheet unchanged), but the confirmed call
    deletes row 3, which holds "a", and keeps the matched row "b":
    [_extract_sheet_data] leaves the blank row out, and
    [_delete_by_conditions] numbers the records it returns from 2 on. *)
Theorem C1_blank_row_shifts_deleted_row :
  let request := delete_where "Name" (VStr "b") true in
  let preview :=
    @DataDeletionHandler.delete_data run_time no_ranges blank_row_service
      healthy_disk request false in
  let confirmed :=
    @DataDeletionHandler.delete_data run_time no_ranges blank_row_service
      healthy_disk request true in
  DeletionResult.requires_confirmation preview.1 = true
  /\ DeletionResult.success preview.1 = false
  /\ DeletionResult.affected_rows preview.1 = 1
  /\ DeletionResult.deleted_data preview.1 = [[("Name", VStr "b")]]
  /\ DeletionResult.confirmation_prompt preview.1 = Some prompt_one_row
  /\ preview.2 = blank_row_service
  /\ DeletionResult.success confirmed.1 = true
  /\ DeletionResult.message confirmed.1
     = "Successfully deleted 1 rows matching conditions"
  /\ DeletionResult.deleted_data confirmed.1 = [[("Name", VStr "b")]]
  /\ ExcelService.get_sheet confirmed.2 "Data"
     = Some [[VStr "Name"]; [VNone]; [VStr "b"]]
  /\ ExcelService.get_sheet confirmed.2 "Data"
     <> Some [[VStr "Name"]; [VNone]; [VStr "a"]].
Proof.
  cbv zeta.
  do 9 (split; [vm_compute; reflexivity|]).
  split; [vm_compute; reflexivity|].
  vm_compute. discriminate.
Qed.

(** ** Deletion by condition on sheets without blank rows *)

Section RowDeletion.

(** Row numbers in strictly increasing order, none below [lo]. *)
Fixpoint increasing_from (lo : Z) (ks : list Z) : Prop :=
  match ks with
  | [] => True
  | k :: rest => lo <= k /\ increasing_from (k + 1) rest
  end.

(** The rows of a sheet whose numbers are not in [matched]; [row] is the
    number of the first row of [ws]. *)
Fixpoint keep_rows (matched : list Z) (row : Z) (ws : Worksheet) : Worksheet :=
  match ws with
  | [] => []
  | r :: rest =>
      if bool_decide (row ∈ matched) then keep_rows matched (row + 1) rest
      else r :: keep_rows matched (row + 1) rest
  end.

Lemma increasing_from_weaken (lo lo' : Z) (ks : list Z) :
  lo' <= lo -> increasing_from lo ks -> increasing_from lo' ks.
Proof. destruct ks as [|k rest]; simpl; [auto|]. intros ? [? ?]. split; [lia|assumption]. Qed.

Lemma increasing_from_bound (lo : Z) (ks : list Z) (x : Z) :
  increasing_from lo ks -> x ∈ ks -> lo <= x.
Proof.
  revert lo. induction ks as [|k rest IH]; intros lo Hinc Hx.
  - inversion Hx.
  - destruct Hinc as [Hk Hrest]. apply elem_of_cons in Hx as [->|Hx]; [exact Hk|].
    specialize (IH _ Hrest Hx). lia.
Qed.

(** A row number below the first row of [ws] plays no part. *)
Lemma keep_rows_below (k : Z) (matched : list Z) (row : Z) (ws : Worksheet) :
  k < row -> keep_rows (k :: matched) row ws = keep_rows matched row ws.
Proof.
  revert row. induction ws as [|r rest IH]; intros row Hk; [reflexivity|].
  simpl. rewrite (IH (row + 1)) by lia.
  assert (E : bool_decide (row ∈ k :: matched) = bool_decide (row ∈ matched)).
  { apply bool_decide_ext. rewrite elem_of_cons. split; [intros [?|?]; [lia|assumption]|auto]. }
  rewrite E. reflexivity.
Qed.

Lemma keep_rows_nil (row : Z) (ws : Worksheet) : keep_rows [] row ws = ws.
Proof.
  revert row. induction ws as [|r rest IH]; intros row; [reflexivity|].
  simpl. rewrite IH. reflexivity.
Qed.

(** Deleting below the head leaves the head in place. *)
Lemma delete_tail_rows (start : Z) (r : list pyval) (rest : Worksheet) (ks : list Z) :
  increasing_from (start + 1) ks ->
  foldr (fun k acc => delete (Z.to_nat (k - start)) acc) (r :: rest) ks
  = r :: foldr (fun k acc => delete (Z.to_nat (k - (start + 1))) acc) rest ks.
Proof.
  revert start. induction ks as [|k ks IH]; intros start Hinc; [reflexivity|].
  destruct Hinc as [Hk Hrest]. simpl.
  rewrite IH by (apply (increasing_from_weaken (k + 1)); [lia|exact Hrest]).
  replace (Z.to_nat (k - start)) with (S (Z.to_nat (k - (start + 1)))) by lia.
  reflexivity.
Qed.

(** Deleting the rows of [ks] from the last to the first removes exactly
    the rows whose numbers are in [ks]. *)
Lemma delete_bottom_up (ws : Worksheet) :
  forall (start : Z) (ks : list Z),
    increasing_from start ks ->
    foldr (fun k acc => delete (Z.to_nat (k - start)) acc) ws ks
    = keep_rows ks start ws.
Proof.
  induction ws as [|r rest IH]; intros start ks Hinc.
  - simpl. induction ks as [|k ks IHks]; [reflexivity|].
    simpl. destruct Hinc as [Hk Hrest].
    rewrite IHks by (apply (increasing_from_weaken (k + 1)); [lia|exact Hrest]).
    reflexivity.
  - destruct ks as [|k ks].
    + simpl. rewrite keep_rows_nil. reflexivity.
    + destruct Hinc as [Hk Hrest].
      destruct (decide (k = start)) as [->|Hne].
      * simpl foldr.
        rewrite delete_tail_rows by exact Hrest.
        replace (Z.to_nat (start - start)) with O by lia. simpl delete.
        rewrite IH by exact Hrest.
        simpl keep_rows. rewrite bool_decide_true by (apply elem_of_cons; auto).
        rewrite keep_rows_below by lia. reflexivity.
      * rewrite delete_tail_rows by (simpl; split; [lia|exact Hrest]).
        rewrite IH by (simpl; split; [lia|exact Hrest]).
        simpl keep_rows. rewrite bool_decide_false; [reflexivity|].
        intros Hin. apply (increasing_from_bound k (k :: ks)) in Hin; [lia|].
        simpl. split; [lia|exact Hrest].
Qed.

Lemma foldl_delete_rows_reverse (ws : Worksheet) (ks : list Z) :
  increasing_from 1 ks ->
  foldl Openpyxl.delete_rows ws (reverse ks) = keep_rows ks 1 ws.
Proof.
  intros Hinc. rewrite <- (delete_bottom_up ws 1 ks Hinc).
  revert ws. induction ks as [|k ks IH]; intros ws; [reflexivity|].
  destruct Hinc as [Hk Hrest].
  rewrite reverse_cons, foldl_app. simpl.
  rewrite IH by (apply (increasing_from_weaken (k + 1)); [lia|exact Hrest]).
  unfold Openpyxl.delete_rows. destruct (Z.leb_spec 1 k); [reflexivity|lia].
Qed.

(** The rows that a test selects among consecutive row numbers are in
    increasing order. *)
Lemma increasing_from_filter (P : Z -> bool) (n : nat) (start : Z) :
  increasing_from start (List.filter P (seqZ start (Z.of_nat n))).
Proof.
  revert start. induction n as [|n IH]; intros start; [exact I|].
  rewrite seqZ_cons by lia.
  replace (Z.pred (Z.of_nat (S n))) with (Z.of_nat n) by lia.
  simpl. destruct (P start); simpl.
  - split; [lia|]. apply IH.
  - apply (increasing_from_weaken (Z.succ start)); [lia|apply IH].
Qed.

#[local] Instance Zge_trans : Transitive Z.ge.
Proof. intros x y z ? ?. lia. Qed.
#[local] Instance Zge_antisym : AntiSymm (=) Z.ge.
Proof. intros x y ? ?. lia. Qed.
#[local] Instance Zge_total : Total Z.ge.
Proof. intros x y. lia. Qed.

Lemma increasing_from_reverse_sorted (lo : Z) (ks : list Z) :
  increasing_from lo ks -> StronglySorted Z.ge (reverse ks).
Proof.
  revert lo. induction ks as [|k ks IH]; intros lo Hinc; [constructor|].
  destruct Hinc as [Hk Hrest]. rewrite reverse_cons.
  apply StronglySorted_app_2; [|apply (IH _ Hrest)|repeat constructor].
  intros x1 x2 Hx1 Hx2. apply list_elem_of_singleton in Hx2 as ->.
  rewrite elem_of_reverse in Hx1.
  pose proof (increasing_from_bound _ _ _ Hrest Hx1). lia.
Qed.

(** [sorted(rows, reverse=True)] of increasing row numbers is the list
    read backwards. *)
Lemma sorted_reverse_increasing (lo : Z) (ks : list Z) :
  increasing_from lo ks -> DataDeletionHandler.sorted_reverse ks = reverse ks.
Proof.
  intros Hinc. unfold DataDeletionHandler.sorted_reverse.
  apply (StronglySorted_unique Z.ge).
  - apply StronglySorted_merge_sort; apply _.
  - apply (increasing_from_reverse_sorted lo), Hinc.
  - rewrite merge_sort_Permutation, reverse_Permutation. reflexivity.
Qed.

End RowDeletion.

Section DeletionExact.
Import DataDeletionHandler.
Context `{PyRuntime} `{RangeSyntax}.

Lemma evaluate_condition_ok (record_value operator condition_value : pyval) :
  exists b : bool,
    DataQueryHandler._evaluate_condition record_value operator condition_value = Ok b.
Proof.
  unfold DataQueryHandler._evaluate_condition.
  destruct (DataQueryHandler.evaluate_condition_body _ _ _) as [b|k m] eqn:E.
  - exists b. reflexivity.
  - apply evaluate_condition_body_raises in E. subst k. exists false. reflexivity.
Qed.

Lemma record_matches_ok (record conds : dict) :
  exists b : bool, DataQueryHandler.record_matches record conds = Ok b.
Proof.
  induction conds as [|[column condition] rest IH]; [exists true; reflexivity|].
  simpl. unfold DataQueryHandler.condition_holds.
  destruct (Py.dict_get column record) as [v|]; [|exists false; reflexivity].
  destruct condition;
    try (simpl; destruct (Py.py_eq v _); [exact IH|exists false; reflexivity]).
  destruct (evaluate_condition_ok v (default (VStr "=") (Py.dict_get "operator" d))
              (default VNone (Py.dict_get "value" d))) as [b ->].
  simpl. destruct b; [exact IH|exists false; reflexivity].
Qed.

(** Whether a record satisfies all conditions. *)
Definition satisfies (conds : dict) (record : dict) : bool :=
  match DataQueryHandler.record_matches record conds with
  | Ok b => b
  | Raise _ _ => false
  end.

Lemma record_matches_satisfies (record conds : dict) :
  DataQueryHandler.record_matches record conds = Ok (satisfies conds record).
Proof.
  unfold satisfies. destruct (record_matches_ok record conds) as [b ->]. reflexivity.
Qed.

Lemma matching_records_filter (raw_data : list dict) (conds : dict) :
  matching_records raw_data (Some conds)
  = Ok (List.filter (satisfies conds) raw_data).
Proof.
  induction raw_data as [|record rest IH]; [reflexivity|].
  simpl. rewrite record_matches_satisfies, IH. simpl.
  destruct (satisfies conds record); reflexivity.
Qed.

Lemma matching_row_numbers_filter (record : Z -> dict) (conds : dict) (n : nat)
  (start : Z) :
  matching_row_numbers start (map record (seqZ start (Z.of_nat n))) (Some conds)
  = Ok (List.filter (fun row => satisfies conds (record row))
          (seqZ start (Z.of_nat n))).
Proof.
  revert start. induction n as [|n IH]; intros start; [reflexivity|].
  rewrite seqZ_cons by lia.
  replace (Z.pred (Z.of_nat (S n))) with (Z.of_nat n) by lia.
  simpl. rewrite record_matches_satisfies. simpl.
  replace (start + 1) with (Z.succ start) by lia. rewrite IH. simpl.
  destruct (satisfies conds (record start)); reflexivity.
Qed.

Lemma filter_map_records (record : Z -> dict) (conds : dict) (rows : list Z) :
  List.filter (satisfies conds) (map record rows)
  = map record (List.filter (fun row => satisfies conds (record row)) rows).
Proof.
  induction rows as [|row rest IH]; [reflexivity|].
  simpl. destruct (satisfies conds (record row)); simpl; rewrite IH; reflexivity.
Qed.

(** On a sheet without blank data rows, extraction returns one record for
    each row from 2 to [max_row]. *)
Lemma extract_all_rows (sheet : Worksheet) (headers : list string) :
  (forall row, 2 <= row <= Openpyxl.max_row sheet ->
               (DataQueryHandler.read_record sheet headers row).2 = true) ->
  DataQueryHandler._extract_sheet_data sheet headers None
  = map (fun row => (DataQueryHandler.read_record sheet headers row).1)
      (seqZ 2 (Openpyxl.max_row sheet - 1)).
Proof.
  intros Hfilled. unfold DataQueryHandler._extract_sheet_data.
  replace (Openpyxl.max_row sheet + 1 - 2) with (Openpyxl.max_row sheet - 1) by lia.
  assert (G : forall rows : list Z,
             (forall row, row ∈ rows -> 2 <= row <= Openpyxl.max_row sheet) ->
             omap (fun row_num =>
                     let '(record, has_data) :=
                       DataQueryHandler.read_record sheet headers row_num in
                     if has_data then Some record else None) rows
             = map (fun row => (DataQueryHandler.read_record sheet headers row).1) rows).
  { induction rows as [|row rest IH]; intros Hrows; [reflexivity|].
    simpl. specialize (Hfilled row (Hrows row ltac:(left))).
    destruct (DataQueryHandler.read_record sheet headers row) as [record has_data].
    simpl in Hfilled. subst has_data. simpl. f_equal.
    apply IH. intros r Hr. apply Hrows. right. exact Hr. }
  apply G. intros row Hrow. apply elem_of_seqZ in Hrow. lia.
Qed.

Lemma dict_get_set_eq {A} (k : string) (v : A) (d : list (string * A)) :
  Py.dict_get k (Py.dict_set k v d) = Some v.
Proof.
  induction d as [|[k' v'] rest IH]; simpl.
  - rewrite String.eqb_refl. reflexivity.
  - destruct (String.eqb k k') eqn:E; simpl; rewrite ?String.eqb_refl, ?E; auto.
Qed.


Lemma prefix_append (p s t : string) :
  String.prefix p s = true -> String.prefix p (s +:+ t) = true.
Proof.
  revert s. induction p as [|c p IH]; intros s;
    [destruct s; simpl; [destruct t|]; reflexivity|].
  destruct s as [|c' s]; simpl; [discriminate|].
  destruct (Ascii.ascii_dec c c'); [apply IH|discriminate].
Qed.

Lemma prefix_refl (p : string) : String.prefix p p = true.
Proof.
  induction p as [|c p IH]; [reflexivity|].
  simpl. destruct (Ascii.ascii_dec c c); [exact IH|contradiction].
Qed.

(** The prompt of a preview that affects rows states their number. *)
Lemma prompt_states_count (preview_result : DeletionResult.t) :
  DeletionResult.affected_rows preview_result <> 0 ->
  String.prefix
    ("This will delete " +:+ PyStr.of_Z (DeletionResult.affected_rows preview_result)
     +:+ " row(s). ")
    (_generate_confirmation_prompt preview_result) = true.
Proof.
  intros Hn. unfold _generate_confirmation_prompt.
  destruct (Z.eqb_spec (DeletionResult.affected_rows preview_result) 0);
    [contradiction|].
  apply prefix_append.
  destruct (DeletionResult.deleted_data preview_result); [apply prefix_refl|].
  match goal with |- context [if ?c then _ else _] => destruct c end;
    repeat first [apply prefix_refl|apply prefix_append].
Qed.

Section Request.
Variables (svc : ExcelService.t) (disk : Disk) (deletion_data : DeletionData.t)
  (sheet : Worksheet) (structure : ExcelService.ExcelStructure) (conds : dict).
Hypothesis Hvalid :
  OperationResult.success (_validate_deletion_data svc deletion_data) = true.
Hypothesis Hsheet :
  ExcelService.get_sheet svc (DeletionData.target_sheet deletion_data) = Some sheet.
Hypothesis Hstructure : ExcelService.get_structure svc = Some structure.
Hypothesis Hrows : DeletionData.target_rows deletion_data = None.
Hypothesis Hrange : DeletionData.target_range deletion_data = None.
Hypothesis Hconds : DeletionData.conditions deletion_data = Some conds.

(** The record of a row, and the numbers of the rows that match. *)
Definition record_of (row : Z) : dict :=
  (DataQueryHandler.read_record sheet (sheet_headers structure deletion_data) row).1.

Definition matched_rows : list Z :=
  List.filter (fun row => satisfies conds (record_of row))
    (seqZ 2 (Openpyxl.max_row sheet - 1)).

Hypothesis Hfilled :
  forall row, 2 <= row <= Openpyxl.max_row sheet ->
    (DataQueryHandler.read_record sheet (sheet_headers structure deletion_data) row).2
    = true.

Lemma preview_by_conditions_exact :
  _preview_by_conditions svc sheet deletion_data
  = DeletionResult.make_data true
      ("Would delete " +:+ PyStr.of_Z (len matched_rows) +:+ " rows matching conditions")
      (len matched_rows) (map record_of matched_rows).
Proof.
  unfold _preview_by_conditions. rewrite Hstructure, Hconds.
  rewrite (extract_all_rows _ _ Hfilled), matching_records_filter.
  rewrite (filter_map_records
             (fun row => (DataQueryHandler.read_record sheet
                            (sheet_headers structure deletion_data) row).1)).
  fold record_of. fold matched_rows.
  unfold len. rewrite List.length_map. reflexivity.
Qed.

Lemma preview_deletion_exact :
  _preview_deletion svc sheet deletion_data
  = _preview_by_conditions svc sheet deletion_data.
Proof. unfold _preview_deletion. rewrite Hrows, Hrange, Hconds. reflexivity. Qed.

Lemma matched_rows_increasing : increasing_from 2 matched_rows.
Proof.
  unfold matched_rows.
  assert (E : Openpyxl.max_row sheet - 1
              = Z.of_nat (Z.to_nat (Openpyxl.max_row sheet - 1)))
    by (unfold Openpyxl.max_row; lia).
  rewrite E. apply increasing_from_filter.
Qed.

(** The worksheet after the deletion strategy has run. *)
Lemma delete_by_conditions_sheet :
  ExcelService.get_sheet (_delete_by_conditions svc disk sheet deletion_data).2
    (DeletionData.target_sheet deletion_data)
  = Some (keep_rows matched_rows 1 sheet).
Proof.
  unfold _delete_by_conditions. rewrite preview_by_conditions_exact.
  cbn [DeletionResult.success DeletionResult.make_data negb
       DeletionResult.affected_rows DeletionResult.deleted_data].
  destruct (Z.eqb_spec (len matched_rows) 0) as [E|E].
  - cbn [snd]. rewrite Hsheet.
    destruct matched_rows; [rewrite keep_rows_nil; reflexivity|discriminate E].
  - rewrite Hstructure, Hconds, (extract_all_rows _ _ Hfilled).
    assert (En : Openpyxl.max_row sheet - 1
                 = Z.of_nat (Z.to_nat (Openpyxl.max_row sheet - 1)))
      by (unfold Openpyxl.max_row; lia).
    rewrite En, matching_row_numbers_filter, <- En.
    fold record_of. fold matched_rows.
    rewrite (sorted_reverse_increasing 2) by apply matched_rows_increasing.
    rewrite foldl_delete_rows_reverse
      by (apply (increasing_from_weaken 2); [lia|apply matched_rows_increasing]).
    assert (G : forall svc' saved failed done,
               ExcelService.workbook (commit svc' disk saved failed done).2
               = ExcelService.workbook svc').
    { intros svc' saved failed done. unfold commit.
      destruct (save_workbook svc' disk) as [[]|]; reflexivity. }
    unfold ExcelService.get_sheet. rewrite G.
    unfold ExcelService.put_sheet. cbn [ExcelService.workbook].
    unfold ExcelService.get_sheet in Hsheet.
    destruct (ExcelService.workbook svc) as [wb|]; [|discriminate].
    simpl. apply dict_get_set_eq.
Qed.


Lemma save_after_put (sheet' : Worksheet) :
  save_workbook
    (ExcelService.put_sheet svc (DeletionData.target_sheet deletion_data) sheet') disk
  = save_workbook svc disk.
Proof.
  unfold save_workbook, ExcelService.put_sheet. cbn [ExcelService.workbook
    ExcelService.file_path].
  unfold ExcelService.get_sheet in Hsheet.
  destruct (ExcelService.workbook svc); [reflexivity|discriminate].
Qed.

(** What the deletion strategy reports when the workbook can be saved. *)
Lemma delete_by_conditions_report :
  save_workbook svc disk = Ok true ->
  DeletionResult.success (_delete_by_conditions svc disk sheet deletion_data).1 = true
  /\ DeletionResult.affected_rows
       (_delete_by_conditions svc disk sheet deletion_data).1 = len matched_rows
  /\ (matched_rows <> [] ->
      DeletionResult.deleted_data
        (_delete_by_conditions svc disk sheet deletion_data).1
      = map record_of matched_rows).
Proof.
  intros Hsave. unfold _delete_by_conditions. rewrite preview_by_conditions_exact.
  cbn [DeletionResult.success DeletionResult.make_data negb
       DeletionResult.affected_rows DeletionResult.deleted_data].
  destruct (Z.eqb_spec (len matched_rows) 0) as [E|E].
  - cbn [fst]. rewrite E. repeat split.
    intros Hne. destruct matched_rows; [contradiction|discriminate E].
  - rewrite Hstructure, Hconds, (extract_all_rows _ _ Hfilled).
    assert (En : Openpyxl.max_row sheet - 1
                 = Z.of_nat (Z.to_nat (Openpyxl.max_row sheet - 1)))
      by (unfold Openpyxl.max_row; lia).
    rewrite En, matching_row_numbers_filter, <- En.
    fold record_of. fold matched_rows.
    unfold commit. rewrite save_after_put, Hsave.
    cbn [fst DeletionResult.success DeletionResult.make_data
         DeletionResult.affected_rows DeletionResult.deleted_data].
    rewrite (sorted_reverse_increasing 2) by apply matched_rows_increasing.
    unfold len. rewrite length_reverse. repeat split.
Qed.


End Request.

End DeletionExact.


(** ** Backups *)

Definition at_second (s : Z) : Backup.datetime :=
  {| Backup.year := 2024; Backup.month := 3; Backup.day := 9;
     Backup.hour := 7; Backup.minute := 5; Backup.second := s |}.

Definition backup_service (path : string) : Backup.Service :=
  {| Backup.backup_dir := "./backups"; Backup.max_backups := 10;
     Backup.loaded_path := Some path |}.

Definition empty_backup_dir : Backup.Files :=
  {| Backup.listing := []; Backup.source := Some 4096 |}.

(** Twelve backups, one second apart. *)
Definition twelve_backups (path : string) : Backup.Files :=
  Backup.create_backups (backup_service path) empty_backup_dir
    (map at_second (seqZ 1 12)).

(** On a file name without the token, retention works as the claim says:
    of twelve backups the ten newest remain, listed newest first. *)
Example backups_of_sales :
  map fst (Backup.listing (twelve_backups "data/sales.xlsx"))
  = map (fun s => "sales_backup_20240309_0705" +:+ PyStr.zfill 2 s +:+ ".xlsx")
      (seqZ 3 10)
  /\ map (fun b => Backup.second (Backup.timestamp b))
       (Backup.get_backup_list (backup_service "data/sales.xlsx")
          (twelve_backups "data/sales.xlsx") (Some "sales"))
     = [12; 11; 10; 9; 8; 7; 6; 5; 4; 3].
Proof. split; vm_compute; reflexivity. Qed.

(** C5: the code does not prune the backups of a file whose stem holds
    the token "_backup_".  The stem of a backup of "sales_backup_old.xlsx"
    splits into three parts at the token, [get_backup_list] leaves such
    files out, and [_cleanup_old_backups] finds nothing to remove: after
    twelve backups with [max_backups = 10] all twelve files are there,
    and the backup list of the stem is empty. *)
Theorem C5_backups_of_stem_with_token_never_pruned :
  PyStr.split_on "_backup_" "sales_backup_old_backup_20240309_070501"
  = ["sales"; "old"; "20240309_070501"]
  /\ map fst (Backup.listing (twelve_backups "data/sales_backup_old.xlsx"))
     = map (fun s => "sales_backup_old_backup_20240309_0705" +:+ PyStr.zfill 2 s
                     +:+ ".xlsx")
         (seqZ 1 12)
  /\ length (Backup.listing (twelve_backups "data/sales_backup_old.xlsx"))
     = 12%nat
  /\ Backup.get_backup_list (backup_service "data/sales_backup_old.xlsx")
       (twelve_backups "data/sales_backup_old.xlsx") (Some "sales_backup_old")
     = [].
Proof. repeat split; vm_compute; reflexivity. Qed.

(** ** Backup retention *)

Section BackupProperties.
Import Backup.

#[local] Instance newer_or_equal_trans : Transitive newer_or_equal.
Proof. unfold newer_or_equal. intros x y z ? ?. lia. Qed.
#[local] Instance newer_or_equal_total : Total newer_or_equal.
Proof. unfold newer_or_equal. intros x y. lia. Qed.

Lemma get_backup_list_sorted (svc : Service) (files : Files)
  (original_filename : option string) :
  StronglySorted newer_or_equal (get_backup_list svc files original_filename).
Proof. unfold get_backup_list. apply StronglySorted_merge_sort; apply _. Qed.

(** The backup list is sorted newest first, and with a stem given it
    lists backups of that stem only. *)
Theorem backup_list_newest_first (svc : Service) (files : Files)
  (original_filename : option string) :
  StronglySorted newer_or_equal (get_backup_list svc files original_filename)
  /\ forall (f : string) (b : BackupInfo),
       original_filename = Some f -> f <> "" ->
       b ∈ get_backup_list svc files original_filename ->
       original_file b = f.
Proof.
  split; [apply get_backup_list_sorted|].
  intros f b -> Hf Hb. unfold get_backup_list in Hb.
  rewrite merge_sort_Permutation in Hb.
  apply list_elem_of_omap in Hb as ([name size] & _ & Hentry).
  unfold backup_entry in Hentry.
  destruct (PyStr.contains "_backup_" name); [|discriminate].
  destruct (PyStr.split_on "_backup_" (stem name)) as [|orig [|ts [|? ?]]];
    try discriminate.
  destruct (String.eqb_spec f ""); [contradiction|].
  destruct (String.eqb_spec orig f) as [->|]; simpl in Hentry; [|discriminate].
  destruct (strptime ts); [|discriminate].
  injection Hentry as <-. reflexivity.
Qed.

(** *** Retention *)

Definition backup_path_of (svc : Service) (name : string) : string :=
  backup_dir svc +:+ "/" +:+ name.

Lemma append_inj (p a b : string) : p +:+ a = p +:+ b -> a = b.
Proof. induction p as [|c p IH]; simpl; [auto|]. intros [= E]. auto. Qed.

Lemma backup_path_of_inj (svc : Service) (a b : string) :
  backup_path_of svc a = backup_path_of svc b -> a = b.
Proof.
  unfold backup_path_of. intros E. apply append_inj in E.
  simpl in E. injection E as E. exact E.
Qed.

Lemma backup_entry_path (svc : Service) (f : option string) (name : string)
  (size : Z) (b : BackupInfo) :
  backup_entry svc f (name, size) = Some b -> file_path b = backup_path_of svc name.
Proof.
  unfold backup_entry.
  destruct (PyStr.contains "_backup_" name); [|discriminate].
  destruct (PyStr.split_on "_backup_" (stem name)) as [|orig [|ts [|? ?]]];
    try discriminate.
  match goal with |- context [if ?c then _ else _] => destruct c end;
    [discriminate|].
  destruct (strptime ts); [|discriminate].
  intros [= <-]. reflexivity.
Qed.

(** Whether a path is none of the paths of the backups [gone]. *)
Definition not_removed (gone : list BackupInfo) (path : string) : bool :=
  forallb (fun b => negb (String.eqb path (file_path b))) gone.

Lemma filter_filter {A} (p q : A -> bool) (l : list A) :
  List.filter p (List.filter q l) = List.filter (fun x => q x && p x)%bool l.
Proof.
  induction l as [|x l IH]; [reflexivity|].
  simpl. destruct (q x); simpl; [destruct (p x)|]; rewrite IH; reflexivity.
Qed.

Lemma filter_ext_bool {A} (p q : A -> bool) (l : list A) :
  (forall x, p x = q x) -> List.filter p l = List.filter q l.
Proof.
  intros E. induction l as [|x l IH]; [reflexivity|].
  simpl. rewrite E, IH. reflexivity.
Qed.

(** Removing the backups [gone] one after the other keeps the files whose
    path is none of theirs. *)
Lemma remove_all (svc : Service) (gone : list BackupInfo) (files : Files) :
  listing (foldl (fun fs backup => remove svc (file_path backup) fs) files gone)
  = List.filter (fun '(name, _) => not_removed gone (backup_path_of svc name))
      (listing files).
Proof.
  revert files. induction gone as [|b gone IH]; intros files.
  - simpl. induction (listing files) as [|[name size] l IHl]; [reflexivity|].
    simpl. rewrite <- IHl. reflexivity.
  - simpl foldl. rewrite IH. unfold remove. cbn [listing].
    rewrite filter_filter. apply filter_ext_bool. intros [name size]. reflexivity.
Qed.

Lemma omap_filter_entries (svc : Service) (f : option string)
  (gone : list BackupInfo) (l : list (string * Z)) :
  omap (backup_entry svc f)
    (List.filter (fun '(name, _) => not_removed gone (backup_path_of svc name)) l)
  = List.filter (fun b => not_removed gone (file_path b)) (omap (backup_entry svc f) l).
Proof.
  induction l as [|[name size] l IH]; [reflexivity|].
  destruct (backup_entry svc f (name, size)) as [b|] eqn:E.
  - pose proof (backup_entry_path _ _ _ _ _ E) as Hp.
    cbn [List.filter omap list_omap]. rewrite E. cbn [List.filter]. rewrite Hp.
    destruct (not_removed gone (backup_path_of svc name));
      cbn [omap list_omap]; rewrite ?E, IH; reflexivity.
  - cbn [List.filter omap list_omap]. rewrite E.
    destruct (not_removed gone (backup_path_of svc name));
      cbn [omap list_omap]; rewrite ?E, IH; reflexivity.
Qed.

Lemma filter_Permutation {A} (p : A -> bool) (l k : list A) :
  l ≡ₚ k -> List.filter p l ≡ₚ List.filter p k.
Proof.
  induction 1 as [|x l k _ IH|x y l|l k m _ IH1 _ IH2]; simpl.
  - reflexivity.
  - destruct (p x); [constructor|]; exact IH.
  - destruct (p x), (p y); try reflexivity. constructor.
  - etransitivity; eassumption.
Qed.

Lemma entries_paths_NoDup (svc : Service) (f : option string) (l : list (string * Z)) :
  NoDup (map fst l) -> NoDup (map file_path (omap (backup_entry svc f) l)).
Proof.
  induction l as [|[name size] l IH]; intros Hnd; [constructor|].
  simpl in Hnd. apply NoDup_cons in Hnd as [Hname Hnd]. cbn [omap list_omap].
  destruct (backup_entry svc f (name, size)) as [b|] eqn:E; [|apply IH, Hnd].
  cbn [map]. apply NoDup_cons. split; [|apply IH, Hnd].
  intros Hin. apply Hname.
  apply list_elem_of_In, in_map_iff in Hin as (b' & Hp & Hb').
  apply list_elem_of_In, list_elem_of_omap in Hb' as ([name' size'] & Hin' & E').
  rewrite (backup_entry_path _ _ _ _ _ E), (backup_entry_path _ _ _ _ _ E') in Hp.
  apply backup_path_of_inj in Hp. subst name'.
  apply list_elem_of_In, in_map_iff. exists (name, size'). split; [reflexivity|].
  apply list_elem_of_In. exact Hin'.
Qed.

Lemma filter_all {A} (p : A -> bool) (l : list A) :
  (forall x, x ∈ l -> p x = true) -> List.filter p l = l.
Proof.
  induction l as [|x l IH]; intros Hall; [reflexivity|].
  simpl. rewrite (Hall x) by left. f_equal. apply IH. intros y Hy. apply Hall. right. exact Hy.
Qed.

Lemma filter_none {A} (p : A -> bool) (l : list A) :
  (forall x, x ∈ l -> p x = false) -> List.filter p l = [].
Proof.
  induction l as [|x l IH]; intros Hall; [reflexivity|].
  simpl. rewrite (Hall x) by left. apply IH. intros y Hy. apply Hall. right. exact Hy.
Qed.

Lemma not_removed_true (gone : list BackupInfo) (path : string) :
  (forall b, b ∈ gone -> file_path b <> path) -> not_removed gone path = true.
Proof.
  intros Hall. unfold not_removed. apply forallb_forall. intros b Hb.
  apply list_elem_of_In in Hb. destruct (String.eqb_spec path (file_path b)) as [E|];
    [|reflexivity]. exfalso. apply (Hall b Hb). symmetry. exact E.
Qed.

Lemma not_removed_false (gone : list BackupInfo) (b : BackupInfo) :
  b ∈ gone -> not_removed gone (file_path b) = false.
Proof.
  intros Hb. unfold not_removed.
  destruct (forallb _ gone) eqn:E; [|reflexivity].
  rewrite forallb_forall in E. specialize (E b (proj1 (list_elem_of_In _ _) Hb)).
  rewrite String.eqb_refl in E. discriminate.
Qed.

(** Keeping what is not among the last backups of a list with distinct
    paths keeps its first backups. *)
Lemma keep_first (n : nat) (backups : list BackupInfo) :
  NoDup (map file_path backups) ->
  List.filter (fun b => not_removed (drop n backups) (file_path b)) backups
  = take n backups.
Proof.
  intros Hnd.
  set (gone := drop n backups).
  assert (E : List.filter (fun b => not_removed gone (file_path b)) backups
              = List.filter (fun b => not_removed gone (file_path b))
                  (take n backups ++ gone))
    by (unfold gone; rewrite take_drop; reflexivity).
  rewrite E. clear E.
  rewrite <- (take_drop n backups) in Hnd. fold gone in Hnd.
  rewrite List.map_app in Hnd. apply NoDup_app in Hnd as (_ & Hdisj & _).
  rewrite List.filter_app, filter_all, filter_none.
  - apply app_nil_r.
  - intros b Hb. apply not_removed_false, Hb.
  - intros b Hb. apply not_removed_true. intros b' Hb' E.
    apply (Hdisj (file_path b)).
    + apply list_elem_of_In, in_map, list_elem_of_In, Hb.
    + rewrite <- E. apply list_elem_of_In, in_map, list_elem_of_In, Hb'.
Qed.

(** What [_cleanup_old_backups] leaves of the backups listed for a stem
    are the first [max_backups] of the newest-first list. *)
Lemma cleanup_listing_take (svc : Service) (files : Files)
  (original_filename : string) :
  0 <= max_backups svc ->
  NoDup (map fst (listing files)) ->
  get_backup_list svc (_cleanup_old_backups svc files original_filename)
    (Some original_filename)
  ≡ₚ take (Z.to_nat (max_backups svc))
       (get_backup_list svc files (Some original_filename)).
Proof.
  intros Hmax Hnd.
  set (before := get_backup_list svc files (Some original_filename)).
  unfold _cleanup_old_backups. fold before.
  destruct (Z.ltb_spec (max_backups svc) (Z.of_nat (length before))) as [Hlt|Hge].
  - unfold slice_from. destruct (Z.leb_spec 0 (max_backups svc)); [|lia].
    unfold get_backup_list at 1. rewrite merge_sort_Permutation.
    rewrite remove_all, omap_filter_entries.
    rewrite <- (keep_first (Z.to_nat (max_backups svc)) before).
    + apply filter_Permutation. subst before. unfold get_backup_list.
      rewrite merge_sort_Permutation. reflexivity.
    + subst before. unfold get_backup_list.
      rewrite (Permutation_map file_path (merge_sort_Permutation _ _)).
      apply (entries_paths_NoDup svc (Some original_filename) _ Hnd).
  - fold before. rewrite take_ge by lia. reflexivity.
Qed.


Lemma dict_set_names {A} (k : string) (v : A) (d : list (string * A)) :
  NoDup (map fst d) -> NoDup (map fst (Py.dict_set k v d))
  /\ forall x, x ∈ map fst (Py.dict_set k v d) -> x = k \/ x ∈ map fst d.
Proof.
  induction d as [|[k' v'] d IH]; intros Hnd.
  - simpl. split; [apply NoDup_singleton|].
    intros x Hx. apply list_elem_of_singleton in Hx. auto.
  - simpl in Hnd. apply NoDup_cons in Hnd as [Hk' Hnd].
    destruct (IH Hnd) as [IH1 IH2]. simpl.
    destruct (String.eqb_spec k k') as [->|Hne]; simpl.
    + split; [apply NoDup_cons; auto|]. intros x Hx. right. exact Hx.
    + split.
      * apply NoDup_cons. split; [|exact IH1].
        intros Hin. destruct (IH2 _ Hin) as [E|Hin']; [congruence|contradiction].
      * intros x Hx. apply elem_of_cons in Hx as [->|Hx].
        -- right. left.
        -- destruct (IH2 _ Hx) as [E|Hin']; [auto|]. right. right. exact Hin'.
Qed.

Lemma filter_names_NoDup {A} (p : string * A -> bool) (l : list (string * A)) :
  NoDup (map fst l) -> NoDup (map fst (List.filter p l)).
Proof.
  induction l as [|[k v] l IH]; intros Hnd; [constructor|].
  simpl in Hnd. apply NoDup_cons in Hnd as [Hk Hnd]. simpl.
  destruct (p (k, v)); [|apply IH, Hnd].
  simpl. apply NoDup_cons. split; [|apply IH, Hnd].
  intros Hin. apply Hk.
  apply list_elem_of_In, in_map_iff in Hin as ([k' v'] & E & Hin). simpl in E. subst k'.
  apply filter_In in Hin as [Hin _].
  apply list_elem_of_In, in_map_iff. exists (k, v'). split; [reflexivity|exact Hin].
Qed.

Lemma cleanup_names_NoDup (svc : Service) (files : Files) (f : string) :
  NoDup (map fst (listing files)) ->
  NoDup (map fst (listing (_cleanup_old_backups svc files f))).
Proof.
  intros Hnd. unfold _cleanup_old_backups.
  destruct (_ <? _); [|exact Hnd].
  rewrite remove_all. apply filter_names_NoDup, Hnd.
Qed.


End BackupProperties.

(** Twelve files of backups of "sales.xlsx", as a directory that was
    never pruned holds them. *)
Definition unpruned_backups : Backup.Files :=
  {| Backup.listing :=
       map (fun s => ("sales_backup_20240309_0705" +:+ PyStr.zfill 2 s +:+ ".xlsx",
                      4096))
         (seqZ 1 12);
     Backup.source := Some 4096 |}.



(** ** Invariants of the risk assessment *)

Section RiskInvariants.
Import RiskAssessor.
Context `{PyRuntime}.

(** The order of the risk levels. *)
Definition rank (l : RiskLevel) : Z :=
  match l with LOW => 0 | MEDIUM => 1 | HIGH => 2 | DANGEROUS => 3 end.

Ltac in_scores := vm_compute; repeat (first [left; reflexivity | right]).

Ltac level_cases H :=
  unfold levels in H; simpl In in H;
  repeat match type of H with
         | _ \/ _ => destruct H as [<-|H]
         | False => destruct H
         end.

(** What the final score and level are, from the base level [l], the
    keyword test [k] and the parameter score [p]. *)
Lemma final_level (l : RiskLevel) (k : bool) (p : float) :
  In p levels ->
  let s := fmax (if k then 1.0%float else _get_base_score l) p in
  rank l <= rank (_score_to_risk_level s)
  /\ In s [0.2; 0.5; 0.6; 0.8; 1.0]%float
  /\ (k = true -> s = 1.0%float)
  /\ (_score_to_risk_level s = DANGEROUS <-> s = 1.0%float).
Proof.
  intros Hp. level_cases Hp; destruct l, k; vm_compute;
    (split; [discriminate|]);
    (split; [repeat (first [left; reflexivity | right])|]);
    (split; [first [reflexivity | discriminate]|]);
    split; first [reflexivity | discriminate].
Qed.

(** Every assessment the assessor returns is consistent: its level is the
    level of its score, never below the base level of the operation; it is
    blocked exactly when the level is dangerous, which is exactly when the
    score is 1.0; a blocked assessment never asks for confirmation, and
    confirmation is asked at the levels medium and high only. *)
Theorem assessment_never_below_base_level (operation : string)
  (parameters : dict) (command_text : string) (a : RiskAssessment) :
  assess_operation operation parameters command_text = Ok a ->
  rank (default MEDIUM (_operation_risks !! operation)) <= rank (level a)
  /\ In (score a) [0.2; 0.5; 0.6; 0.8; 1.0]%float
  /\ level a = _score_to_risk_level (score a)
  /\ (blocked a = true <-> level a = DANGEROUS)
  /\ (level a = DANGEROUS <-> score a = 1.0%float)
  /\ (blocked a = true -> confirmation_required a = false)
  /\ (confirmation_required a = true -> level a = MEDIUM \/ level a = HIGH).
Proof.
  unfold assess_operation.
  generalize (default MEDIUM (_operation_risks !! operation)). intros l.
  destruct (_assess_parameters parameters operation) as [[p ps]|] eqn:Ep.
  2: { destruct (_contains_dangerous_keywords _); unfold mbind, result_bind;
       discriminate. }
  pose proof (assess_parameters_level _ _ _ _ Ep) as Hp.
  pose proof (final_level l (_contains_dangerous_keywords (PyStr.lower command_text))
                p Hp) as F.
  cbv zeta in F.
  destruct (_contains_dangerous_keywords (PyStr.lower command_text));
    unfold mbind, result_bind; intros [= <-];
    cbn [level score blocked confirmation_required];
    destruct F as (F1 & F2 & _ & F4);
    (split; [exact F1|]); (split; [exact F2|]); (split; [reflexivity|]);
    match goal with
    | |- context [_score_to_risk_level ?s] =>
        revert F4; generalize (_score_to_risk_level s); intros lv F4
    end;
    (split; [destruct lv; cbn; split; first [reflexivity | discriminate]|]);
    (split; [exact F4|]);
    (split; [destruct lv; cbn; try discriminate; intros _;
             destruct (bool_decide _); reflexivity|]);
    destruct (bool_decide _); [discriminate| |discriminate|];
    destruct lv; cbn; try discriminate; auto.
Qed.

(** A command text that contains one of the dangerous keywords, in any
    case and anywhere (also inside a word), gives a blocked assessment of
    level dangerous, whatever the operation and the parameters. *)
Theorem dangerous_keyword_blocks (operation : string) (parameters : dict)
  (command_text keyword : string) (a : RiskAssessment) :
  In keyword _dangerous_keywords ->
  PyStr.contains keyword (PyStr.lower command_text) = true ->
  assess_operation operation parameters command_text = Ok a ->
  level a = DANGEROUS /\ score a = 1.0%float /\ blocked a = true
  /\ confirmation_required a = false
  /\ head (reasons a) = Some "Contains dangerous mass operation keywords".
Proof.
  intros Hk Hc.
  assert (K : _contains_dangerous_keywords (PyStr.lower command_text) = true).
  { unfold _contains_dangerous_keywords. apply existsb_exists.
    exists keyword. split; assumption. }
  unfold assess_operation. rewrite K.
  destruct (_assess_parameters parameters operation) as [[p ps]|] eqn:Ep;
    unfold mbind, result_bind; [|discriminate].
  pose proof (assess_parameters_level _ _ _ _ Ep) as Hp.
  rewrite (fmax_one_l p Hp). intros [= <-].
  cbn [level score blocked confirmation_required reasons].
  change (_score_to_risk_level 1) with DANGEROUS. cbn.
  repeat split. destruct (bool_decide _); reflexivity.
Qed.

Lemma lower_keeps_colon (s : string) :
  PyStr.contains ":" s = true -> PyStr.contains ":" (PyStr.lower s) = true.
Proof.
  induction s as [|c r IH]; [discriminate|].
  cbn [PyStr.contains PyStr.lower String.prefix].
  destruct (ascii_dec ":" c) as [<-|Hc].
  - intros _. change (PyStr.lower_ascii ":") with ":"%char.
    destruct (ascii_dec ":" ":"); [|congruence].
    destruct (PyStr.lower r); reflexivity.
  - intros Hr.
    destruct (ascii_dec ":" (PyStr.lower_ascii c));
      [destruct (PyStr.lower r); reflexivity|].
    apply IH, Hr.
Qed.

Lemma fmax_high (a b : float) :
  In a levels -> In b [0.8; 1.0]%float -> In (fmax a b) [0.8; 1.0]%float.
Proof.
  intros Ha Hb. level_cases Ha; simpl In in Hb;
    destruct Hb as [<-|[<-|[]]]; in_scores.
Qed.

Lemma fmax_stays_high (a b : float) :
  In a [0.8; 1.0]%float -> In b levels -> In (fmax a b) [0.8; 1.0]%float.
Proof.
  intros Ha Hb. level_cases Hb; simpl In in Ha;
    destruct Ha as [<-|[<-|[]]]; in_scores.
Qed.

(** A [range] parameter that is a string with a colon in it makes the
    parameter score 0.8 or 1.0. *)
Lemma colon_range_score parameters operation (s : string) r rs :
  Py.dict_get "range" parameters = Some (VStr s) ->
  PyStr.contains ":" s = true ->
  _assess_parameters parameters operation = Ok (r, rs) ->
  In r [0.8; 1.0]%float /\ In "Operation affects large range of cells" rs.
Proof.
  intros Hr Hc. unfold _assess_parameters.
  destruct (assess_max_rows parameters (0%float, [])) as [[a0 as0]|] eqn:Ea;
    simpl; [|discriminate].
  assert (Ha : In a0 levels).
  { change a0 with (fst (a0, as0)). apply (assess_max_rows_level _ _ _ Ea).
    in_scores. }
  unfold assess_range. rewrite Hr.
  assert (L : _is_large_range (VStr s) = Ok true).
  { unfold _is_large_range. cbn [Py.truthy].
    destruct (String.eqb_spec s "") as [->|_]; [discriminate Hc|].
    cbn [negb existsb]. rewrite (lower_keeps_colon s Hc). reflexivity. }
  rewrite L. cbn [mbind result_bind].
  assert (Hb : In (fmax a0 0.8) [0.8; 1.0]%float)
    by (apply fmax_high; [exact Ha|in_scores]).
  revert Hb. generalize (fmax a0 0.8). intros b Hb.
  assert (Hin : In "Operation affects large range of cells"
                  (as0 ++ ["Operation affects large range of cells"])%list)
    by (apply in_or_app; right; left; reflexivity).
  revert Hin.
  generalize (as0 ++ ["Operation affects large range of cells"])%list.
  intros bs Hin.
  unfold assess_conditions, assess_format.
  assert (Hone : In (fmax b 1.0) [0.8; 1.0]%float)
    by (apply fmax_stays_high; [exact Hb|in_scores]).
  assert (Hsix : forall c, In c [0.8; 1.0]%float -> In (fmax c 0.6) [0.8; 1.0]%float)
    by (intros c Hcc; apply fmax_stays_high; [exact Hcc|in_scores]).
  assert (Fin : forall (c : float) (cs : list string) (r0 : float) (rs0 : list string),
            In c [0.8; 1.0]%float ->
            In "Operation affects large range of cells" cs ->
            (if existsb (fun param => Py.dict_has param parameters)
                  ["format"; "style"; "formatting"]
             then (fmax c 0.6, (cs ++ ["Operation involves formatting changes"])%list)
             else (c, cs)) = (r0, rs0) ->
            In r0 [0.8; 1.0]%float
            /\ In "Operation affects large range of cells" rs0).
  { intros c cs r0 rs0 Hcc Hcs. destruct (existsb _ _); intros [= <- <-]; split; auto.
    apply in_or_app; left; exact Hcs. }
  destruct (Py.dict_get "conditions" parameters) as [conditions|].
  - destruct (bool_decide (operation ∈ read_operations)).
    + intros [= E]. exact (Fin _ _ _ _ Hb Hin E).
    + match goal with |- context [if ?c then (fmax b 1, _) else _] => destruct c end;
        intros [= E].
      * refine (Fin _ _ _ _ Hone _ E). apply in_or_app; left; exact Hin.
      * exact (Fin _ _ _ _ Hb Hin E).
  - intros [= E]. exact (Fin _ _ _ _ Hb Hin E).
Qed.

(** Every string range with a colon counts as a large range: with such a
    [range] parameter the assessment is at least high, its reasons say so,
    and unless the operation is one of the four read-only ones the
    operation is blocked or has to be confirmed. *)
Theorem colon_range_needs_confirmation (operation : string) (parameters : dict)
  (command_text range_str : string) (a : RiskAssessment) :
  Py.dict_get "range" parameters = Some (VStr range_str) ->
  PyStr.contains ":" range_str = true ->
  assess_operation operation parameters command_text = Ok a ->
  (level a = HIGH \/ level a = DANGEROUS)
  /\ In "Operation affects large range of cells" (reasons a)
  /\ (~ In operation read_operations ->
      blocked a = true \/ confirmation_required a = true).
Proof.
  intros Hr Hc. unfold assess_operation.
  assert (Hbase : In (_get_base_score (default MEDIUM (_operation_risks !! operation)))
                     levels) by apply base_score_level.
  revert Hbase.
  generalize (_get_base_score (default MEDIUM (_operation_risks !! operation))).
  intros base Hbase.
  destruct (_assess_parameters parameters operation) as [[p ps]|] eqn:Ep.
  2: { destruct (_contains_dangerous_keywords _); unfold mbind, result_bind;
       discriminate. }
  destruct (colon_range_score _ _ _ _ _ Hr Hc Ep) as [Hp Hps].
  assert (F : forall b, In b levels ->
                _score_to_risk_level (fmax b p) = HIGH
                \/ _score_to_risk_level (fmax b p) = DANGEROUS).
  { intros b Hb. pose proof (fmax_high b p Hb Hp) as Hs.
    simpl In in Hs. destruct Hs as [<-|[<-|[]]]; [left|right]; reflexivity. }
  destruct (_contains_dangerous_keywords (PyStr.lower command_text));
    unfold mbind, result_bind; intros [= <-];
    cbn [level score blocked confirmation_required reasons];
    match goal with
    | |- context [_score_to_risk_level (fmax ?b p)] =>
        assert (Hb : In b levels) by (first [exact Hbase | in_scores]);
        specialize (F b Hb); revert F;
        generalize (_score_to_risk_level (fmax b p)); intros lv F
    end;
    (split; [exact F|]);
    (split; [first [exact Hps | right; exact Hps]|]);
    intros Hro; case_bool_decide as Hd;
    try (exfalso; apply Hro, list_elem_of_In, Hd);
    destruct F as [-> | ->]; cbn; auto.
Qed.


End RiskInvariants.

(** "show the small orders" is a query, and it is blocked: "small" holds
    the keyword "all". *)
Lemma small_orders_blocked :
  exists a,
    RiskAssessor.assess_operation (H := run_time) "query_data" [] "Show the small orders" = Ok a
    /\ RiskAssessor.blocked a = true.
Proof.
  eexists. split; [vm_compute; reflexivity|].
  refine (proj1 (proj2 (proj2 (dangerous_keyword_blocks (H := run_time) "query_data" []
            "Show the small orders" "all" _ _ _ _)))).
  - vm_compute. auto.
  - vm_compute. reflexivity.
  - vm_compute. reflexivity.
Defined.

Lemma update_twenty_rows_is_high :
  exists a,
    RiskAssessor.assess_operation (H := run_time) "update_cells"
      [("max_rows", VInt 20)] "" = Ok a
    /\ RiskAssessor.level a = RiskAssessor._score_to_risk_level (RiskAssessor.score a)
    /\ RiskAssessor.confirmation_required a = true.
Proof.
  eexists. split; [vm_compute; reflexivity|].
  split; [|reflexivity].
  refine (proj1 (proj2 (proj2 (assessment_never_below_base_level (H := run_time)
            "update_cells" [("max_rows", VInt 20)] "" _ _)))).
  vm_compute. reflexivity.
Defined.

(** A chart over the two cells A1:A2 has to be confirmed. *)
Lemma chart_of_two_cells_needs_confirmation :
  exists a,
    RiskAssessor.assess_operation (H := run_time) "create_chart"
      [("range", VStr "A1:A2")] "" = Ok a
    /\ (RiskAssessor.blocked a = true \/ RiskAssessor.confirmation_required a = true).
Proof.
  eexists. split; [vm_compute; reflexivity|].
  refine (proj2 (proj2 (colon_range_needs_confirmation (H := run_time) "create_chart"
            [("range", VStr "A1:A2")] "" "A1:A2" _ _ _ _)) _).
  - reflexivity.
  - reflexivity.
  - vm_compute. reflexivity.
  - vm_compute. intros [E|[E|[E|[E|[]]]]]; discriminate E.
Defined.

(** ** Deletion: what a call can and cannot do *)

Section DeletionSafety.
Import DataDeletionHandler.
Context `{PyRuntime} `{RangeSyntax}.


Lemma commit_workbook (svc : ExcelService.t) (disk : Disk) (saved failed : string)
  (done : DeletionResult.t) :
  ExcelService.workbook (commit svc disk saved failed done).2
  = ExcelService.workbook svc.
Proof. unfold commit. destruct (save_workbook svc disk) as [[]|]; reflexivity. Qed.

Lemma commit_sheet (svc : ExcelService.t) (disk : Disk) (saved failed : string)
  (done : DeletionResult.t) (name : string) :
  ExcelService.get_sheet (commit svc disk saved failed done).2 name
  = ExcelService.get_sheet svc name.
Proof. unfold ExcelService.get_sheet. rewrite commit_workbook. reflexivity. Qed.

Lemma get_put_sheet (svc : ExcelService.t) (name : string) (sheet sheet' : Worksheet) :
  ExcelService.get_sheet svc name = Some sheet ->
  ExcelService.get_sheet (ExcelService.put_sheet svc name sheet') name = Some sheet'.
Proof.
  unfold ExcelService.get_sheet, ExcelService.put_sheet. cbn [ExcelService.workbook].
  destruct (ExcelService.workbook svc) as [wb|]; [|discriminate].
  intros _. simpl. apply dict_get_set_eq.
Qed.

(** A sheet that came from [sheet] by deleting rows below the first. *)
Definition rows_removed (sheet sheet' : Worksheet) : Prop :=
  sublist sheet' sheet /\ head sheet' = head sheet.

Lemma rows_removed_refl (sheet : Worksheet) : rows_removed sheet sheet.
Proof. split; reflexivity. Qed.

Lemma delete_rows_removed (sheet sh : Worksheet) (idx : Z) :
  2 <= idx -> rows_removed sheet sh ->
  rows_removed sheet (Openpyxl.delete_rows sh idx).
Proof.
  intros Hidx [Hsub Hhead]. unfold Openpyxl.delete_rows.
  destruct (Z.leb_spec 1 idx); [|lia]. split.
  - transitivity sh; [apply sublist_delete|exact Hsub].
  - rewrite <- Hhead. destruct sh as [|r rest]; [reflexivity|].
    replace (Z.to_nat (idx - 1)) with (S (Z.to_nat (idx - 2))) by lia.
    reflexivity.
Qed.

Lemma foldl_delete_rows_removed (sheet : Worksheet) (rows : list Z) :
  (forall r, r ∈ rows -> 2 <= r) ->
  forall sh, rows_removed sheet sh ->
    rows_removed sheet (foldl Openpyxl.delete_rows sh rows).
Proof.
  induction rows as [|r rest IH]; intros Hrows sh Hsh; [exact Hsh|].
  simpl. apply IH.
  - intros x Hx. apply Hrows. right. exact Hx.
  - apply delete_rows_removed; [apply Hrows; left|exact Hsh].
Qed.

Lemma matching_row_numbers_from (conds : option dict) (raw_data : list dict) :
  forall (row_idx : Z) (rows : list Z),
    matching_row_numbers row_idx raw_data conds = Ok rows ->
    forall r, r ∈ rows -> row_idx <= r.
Proof.
  induction raw_data as [|record rest IH]; intros row_idx rows.
  - intros [= <-] r Hr. inversion Hr.
  - simpl. destruct (items conds) as [cs|]; simpl; [|discriminate].
    destruct (DataQueryHandler.record_matches record cs) as [b|]; simpl; [|discriminate].
    destruct (matching_row_numbers (row_idx + 1) rest conds) as [tl|] eqn:E;
      simpl; [|discriminate].
    specialize (IH _ _ E). intros [= <-] r Hr.
    destruct b.
    + apply elem_of_cons in Hr as [->|Hr]; [lia|]. specialize (IH _ Hr). lia.
    + specialize (IH _ Hr). lia.
Qed.

Section Sheet.
Variables (svc : ExcelService.t) (disk : Disk) (sheet : Worksheet).

Lemma delete_by_conditions_removes_rows (deletion_data : DeletionData.t) :
  ExcelService.get_sheet svc (DeletionData.target_sheet deletion_data) = Some sheet ->
  exists sheet',
    ExcelService.get_sheet (_delete_by_conditions svc disk sheet deletion_data).2
      (DeletionData.target_sheet deletion_data) = Some sheet'
    /\ rows_removed sheet sheet'.
Proof.
  intros Hsheet. unfold _delete_by_conditions.
  assert (Same : exists sheet',
             ExcelService.get_sheet svc (DeletionData.target_sheet deletion_data)
             = Some sheet' /\ rows_removed sheet sheet')
    by (exists sheet; split; [exact Hsheet|apply rows_removed_refl]).
  destruct (negb _); [exact Same|].
  destruct (_ =? 0); [exact Same|].
  destruct (ExcelService.get_structure svc) as [structure|]; [|exact Same].
  destruct (matching_row_numbers 2 _ _) as [rows|] eqn:E; [|exact Same].
  rewrite commit_sheet. eexists. split; [apply (get_put_sheet _ _ sheet), Hsheet|].
  apply foldl_delete_rows_removed; [|apply rows_removed_refl].
  intros r Hr. unfold sorted_reverse in Hr. rewrite merge_sort_Permutation in Hr.
  apply (matching_row_numbers_from _ _ _ _ E r Hr).
Qed.

Lemma delete_specific_rows_removes_rows (deletion_data : DeletionData.t) :
  ExcelService.get_sheet svc (DeletionData.target_sheet deletion_data) = Some sheet ->
  exists sheet',
    ExcelService.get_sheet (_delete_specific_rows svc disk sheet deletion_data).2
      (DeletionData.target_sheet deletion_data) = Some sheet'
    /\ rows_removed sheet sheet'.
Proof.
  intros Hsheet. unfold _delete_specific_rows.
  assert (Same : exists sheet',
             ExcelService.get_sheet svc (DeletionData.target_sheet deletion_data)
             = Some sheet' /\ rows_removed sheet sheet')
    by (exists sheet; split; [exact Hsheet|apply rows_removed_refl]).
  destruct (DeletionData.target_rows deletion_data) as [rows|]; [|exact Same].
  destruct (negb _); [exact Same|].
  match goal with
  | |- context [foldl ?f (sheet, 0) ?l] =>
      assert (F : forall rows' sh n, rows_removed sheet sh ->
                    rows_removed sheet (foldl f (sh, n) rows').1)
  end.
  { induction rows' as [|r rest IH]; intros sh n Hsh; [exact Hsh|].
    simpl. destruct (Z.ltb_spec r 2); simpl; [apply IH, Hsh|].
    destruct (Openpyxl.max_row sh <? r); [apply IH, Hsh|].
    apply IH. apply delete_rows_removed; [lia|exact Hsh]. }
  specialize (F (sorted_reverse rows) sheet 0 (rows_removed_refl sheet)).
  destruct (foldl _ _ _) as [sheet' deleted_count]. simpl in F.
  rewrite commit_sheet. exists sheet'.
  split; [apply (get_put_sheet _ _ sheet), Hsheet|exact F].
Qed.

(** Deleting by rows, by conditions or by a unique identifier only removes
    rows below the header: after any call of [delete_data] without a target
    range, the sheet is what is left of the sheet before when some rows are
    taken out, and its first row is the same. *)
Theorem delete_data_keeps_header_row (deletion_data : DeletionData.t)
  (confirmed : bool) :
  ExcelService.get_sheet svc (DeletionData.target_sheet deletion_data) = Some sheet ->
  DeletionData.target_range deletion_data = None ->
  exists sheet',
    ExcelService.get_sheet (delete_data svc disk deletion_data confirmed).2
      (DeletionData.target_sheet deletion_data) = Some sheet'
    /\ sublist sheet' sheet /\ head sheet' = head sheet.
Proof.
  intros Hsheet Hrange. unfold delete_data.
  assert (Same : exists sheet',
             ExcelService.get_sheet svc (DeletionData.target_sheet deletion_data)
             = Some sheet' /\ sublist sheet' sheet /\ head sheet' = head sheet)
    by (exists sheet; split; [exact Hsheet|split; reflexivity]).
  destruct (negb (OperationResult.success _)); [exact Same|].
  rewrite Hsheet.
  destruct (negb (DeletionResult.success _)); [exact Same|].
  destruct (50 <? _); [exact Same|].
  destruct (_ && _)%bool; [exact Same|].
  rewrite Hrange.
  destruct (DeletionData.target_rows deletion_data) as [rows|] eqn:Hrows.
  { apply delete_specific_rows_removes_rows, Hsheet. }
  destruct (DeletionData.conditions deletion_data) as [conds|].
  { apply delete_by_conditions_removes_rows, Hsheet. }
  destruct (DeletionData.unique_identifier deletion_data) as [ident|]; [|exact Same].
  unfold _delete_by_unique_identifier.
  match goal with
  | |- context [_delete_by_conditions svc disk sheet ?d] =>
      destruct (delete_by_conditions_removes_rows d Hsheet) as (sheet' & Hs & Hr);
      destruct (_delete_by_conditions svc disk sheet d) as [result svc']
  end.
  cbn [snd DeletionData.target_sheet] in Hs.
  exists sheet'. split; [|exact Hr].
  destruct (_ && _)%bool; exact Hs.
Qed.

End Sheet.

End DeletionSafety.


(** The confirmed deletion of the rows named "a" leaves the header. *)
Lemma confirmed_delete_keeps_header :
  exists sheet',
    ExcelService.get_sheet
      (@DataDeletionHandler.delete_data run_time no_ranges
         (data_service [VStr "Name"] [[VStr "a"]; [VStr "b"]]) healthy_disk
         (delete_where "Name" (VStr "a") true) true).2 "Data" = Some sheet'
    /\ head sheet' = Some [VStr "Name"].
Proof.
  destruct (@delete_data_keeps_header_row run_time no_ranges
              (data_service [VStr "Name"] [[VStr "a"]; [VStr "b"]]) healthy_disk
              [[VStr "Name"]; [VStr "a"]; [VStr "b"]]
              (delete_where "Name" (VStr "a") true) true eq_refl eq_refl)
    as (sheet' & Hs & _ & Hh).
  exists sheet'. split; [exact Hs|exact Hh].
Defined.

(** ** Deletion by row numbers *)

Section RowsByNumber.
Import DataDeletionHandler.
Context `{PyRuntime} `{RangeSyntax}.

#[local] Instance Zge_transitive : Transitive Z.ge.
Proof. intros x y z ? ?. lia. Qed.
#[local] Instance Zge_is_total : Total Z.ge.
Proof. intros x y. lia. Qed.

Lemma sorted_filter {A} (R : relation A) (p : A -> bool) (l : list A) :
  StronglySorted R l -> StronglySorted R (List.filter p l).
Proof.
  induction 1 as [|x l Hl IH Hx]; [constructor|].
  simpl. destruct (p x); [|exact IH].
  constructor; [exact IH|].
  apply Forall_forall. intros y Hy. apply list_elem_of_In, filter_In in Hy as [Hy _].
  rewrite Forall_forall in Hx. apply Hx, list_elem_of_In, Hy.
Qed.

Lemma filter_NoDup {A} (p : A -> bool) (l : list A) :
  NoDup l -> NoDup (List.filter p l).
Proof.
  induction 1 as [|x l Hx Hl IH]; [constructor|].
  simpl. destruct (p x); [|exact IH].
  constructor; [|exact IH].
  intros Hin. apply Hx. apply list_elem_of_In, filter_In in Hin as [Hin _].
  apply list_elem_of_In, Hin.
Qed.

Lemma increasing_from_snoc (lo : Z) (ks : list Z) (x : Z) :
  increasing_from lo ks -> lo <= x -> (forall k, k ∈ ks -> k < x) ->
  increasing_from lo (ks ++ [x]).
Proof.
  revert lo. induction ks as [|k ks IH]; intros lo Hinc Hlo Hlt.
  - simpl. split; [exact Hlo|exact I].
  - destruct Hinc as [Hk Hrest]. simpl. split; [exact Hk|].
    apply IH; [exact Hrest| |].
    + specialize (Hlt k ltac:(left)). lia.
    + intros y Hy. apply Hlt. right. exact Hy.
Qed.

(** Distinct numbers in descending order, read backwards, increase. *)
Lemma descending_reverse_increasing (lo : Z) (l : list Z) :
  StronglySorted Z.ge l -> NoDup l -> (forall x, x ∈ l -> lo <= x) ->
  increasing_from lo (reverse l).
Proof.
  induction 1 as [|x l Hl IH Hx]; intros Hnd Hlo; [exact I|].
  apply NoDup_cons in Hnd as [Hx' Hnd]. rewrite reverse_cons.
  apply increasing_from_snoc.
  - apply IH; [exact Hnd|]. intros y Hy. apply Hlo. right. exact Hy.
  - apply Hlo. left.
  - intros k Hk. rewrite elem_of_reverse in Hk.
    rewrite Forall_forall in Hx. specialize (Hx k Hk).
    assert (k <> x) by (intros ->; contradiction). lia.
Qed.

(** [keep_rows] looks at the row numbers of the sheet only. *)
Lemma keep_rows_ext (a b : list Z) (ws : Worksheet) :
  forall row,
    (forall i, row <= i < row + Z.of_nat (length ws) -> i ∈ a <-> i ∈ b) ->
    keep_rows a row ws = keep_rows b row ws.
Proof.
  induction ws as [|r rest IH]; intros row Hext; [reflexivity|].
  simpl. rewrite (IH (row + 1)).
  - rewrite (bool_decide_ext (row ∈ a) (row ∈ b)); [reflexivity|].
    apply Hext. simpl length. lia.
  - intros i Hi. apply Hext. simpl length. lia.
Qed.

(** The loop of [_delete_specific_rows]. *)
Definition delete_valid_row : Worksheet * Z -> Z -> Worksheet * Z :=
  fun '(sh, n) row_num =>
    if ((row_num <? 2) || (Openpyxl.max_row sh <? row_num))%bool then (sh, n)
    else (Openpyxl.delete_rows sh row_num, n + 1).

Lemma delete_valid_rows_descending (ds : list Z) :
  StronglySorted Z.ge ds -> NoDup ds -> (forall d, d ∈ ds -> 2 <= d) ->
  forall (sh : Worksheet) (n : Z),
    let valid := List.filter (fun d => d <=? Openpyxl.max_row sh) ds in
    foldl delete_valid_row (sh, n) ds
    = (foldl Openpyxl.delete_rows sh valid, n + len valid).
Proof.
  induction 1 as [|d ds Hds IH Hd]; intros Hnd Hlo sh n.
  - simpl. f_equal. unfold len. simpl. lia.
  - apply NoDup_cons in Hnd as [Hd' Hnd].
    assert (Hlo' : forall x, x ∈ ds -> 2 <= x) by (intros x Hx; apply Hlo; right; exact Hx).
    specialize (IH Hnd Hlo').
    pose proof (Hlo d ltac:(left)) as Hd2.
    cbn zeta. cbn [foldl List.filter delete_valid_row].
    destruct (Z.ltb_spec d 2); [lia|]. cbn [orb].
    destruct (Z.ltb_spec (Openpyxl.max_row sh) d) as [Hbig|Hok].
    + destruct (Z.leb_spec d (Openpyxl.max_row sh)); [lia|]. apply IH.
    + destruct (Z.leb_spec d (Openpyxl.max_row sh)); [|lia].
      rewrite IH. cbn [foldl].
      assert (E : List.filter (fun x => x <=? Openpyxl.max_row (Openpyxl.delete_rows sh d)) ds
                  = List.filter (fun x => x <=? Openpyxl.max_row sh) ds).
      { apply filter_ext_in. intros x Hx. apply list_elem_of_In in Hx.
        rewrite Forall_forall in Hd. specialize (Hd x Hx).
        assert (x <> d) by (intros ->; contradiction).
        specialize (Hlo' x Hx).
        unfold Openpyxl.delete_rows. destruct (Z.leb_spec 1 d); [|lia].
        unfold Openpyxl.max_row in *. rewrite length_delete.
        2: { apply lookup_lt_is_Some. lia. }
        destruct (Z.leb_spec x (Z.max 1 (Z.of_nat (length sh - 1))));
          destruct (Z.leb_spec x (Z.max 1 (Z.of_nat (length sh)))); lia || reflexivity. }
      rewrite E. f_equal. unfold len. simpl length. lia.
Qed.


Lemma validated_rows (svc : ExcelService.t) (deletion_data : DeletionData.t)
  (rows : list Z) :
  OperationResult.success (_validate_deletion_data svc deletion_data) = true ->
  DeletionData.target_rows deletion_data = Some rows ->
  forall r, r ∈ rows -> 2 <= r.
Proof.
  unfold _validate_deletion_data. intros Hv Hrows. rewrite Hrows in Hv.
  destruct (String.eqb _ ""); [discriminate|].
  destruct (negb _); [discriminate|].
  destruct (_ =? 0); [discriminate|].
  destruct (1 <? _); [discriminate|].
  destruct (List.find (fun row_num => row_num <? 2) rows) as [bad|] eqn:E;
    [discriminate|].
  intros r Hr. apply list_elem_of_In in Hr.
  pose proof (find_none _ _ E r Hr) as Hge. cbv beta in Hge. lia.
Qed.

Section Request.
Variables (svc : ExcelService.t) (disk : Disk) (deletion_data : DeletionData.t)
  (sheet : Worksheet) (structure : ExcelService.ExcelStructure) (rows : list Z).
Hypothesis Hvalid :
  OperationResult.success (_validate_deletion_data svc deletion_data) = true.
Hypothesis Hsheet :
  ExcelService.get_sheet svc (DeletionData.target_sheet deletion_data) = Some sheet.
Hypothesis Hstructure : ExcelService.get_structure svc = Some structure.
Hypothesis Hrows : DeletionData.target_rows deletion_data = Some rows.
Hypothesis Hdistinct : NoDup rows.

(** The rows of the request that are rows of the sheet, in the order of
    the request. *)
Definition rows_of_sheet : list Z :=
  List.filter (fun r => r <=? Openpyxl.max_row sheet) rows.

Definition row_record (r : Z) : dict :=
  (DataQueryHandler.read_record sheet (sheet_headers structure deletion_data) r).1.

Lemma preview_specific_rows_exact :
  _preview_specific_rows svc sheet deletion_data
  = DeletionResult.make_data true
      ("Would delete " +:+ PyStr.of_Z (len rows_of_sheet) +:+ " rows")
      (len rows_of_sheet) (map row_record rows_of_sheet).
Proof.
  unfold _preview_specific_rows. rewrite Hstructure, Hrows.
  assert (E : List.filter
                (fun row_num => negb ((row_num <? 2)
                                     || (Openpyxl.max_row sheet <? row_num))) rows
              = rows_of_sheet).
  { apply filter_ext_in. intros r Hr. apply list_elem_of_In in Hr.
    pose proof (validated_rows _ _ _ Hvalid Hrows r Hr).
    destruct (Z.ltb_spec r 2); [lia|].
    destruct (Z.ltb_spec (Openpyxl.max_row sheet) r);
      destruct (Z.leb_spec r (Openpyxl.max_row sheet)); lia || reflexivity. }
  rewrite E. reflexivity.
Qed.

Lemma delete_rows_loop :
  foldl delete_valid_row (sheet, 0) (sorted_reverse rows)
  = (keep_rows rows 1 sheet, len rows_of_sheet).
Proof.
  unfold sorted_reverse.
  assert (Hs : StronglySorted Z.ge (merge_sort Z.ge rows))
    by (apply StronglySorted_merge_sort; apply _).
  assert (Hp : merge_sort Z.ge rows ≡ₚ rows) by apply merge_sort_Permutation.
  assert (Hnd : NoDup (merge_sort Z.ge rows)) by (rewrite Hp; exact Hdistinct).
  assert (Hlo : forall d, d ∈ merge_sort Z.ge rows -> 2 <= d).
  { intros d Hd. rewrite Hp in Hd. apply (validated_rows _ _ _ Hvalid Hrows d Hd). }
  rewrite (delete_valid_rows_descending _ Hs Hnd Hlo). cbv zeta.
  set (valid := List.filter (fun d => d <=? Openpyxl.max_row sheet)
                  (merge_sort Z.ge rows)).
  assert (Hlen : len valid = len rows_of_sheet).
  { unfold len, valid, rows_of_sheet. f_equal.
    apply Permutation_length, filter_Permutation, Hp. }
  rewrite Hlen, Z.add_0_l. f_equal.
  assert (Hinc : increasing_from 2 (reverse valid)).
  { apply descending_reverse_increasing.
    - apply sorted_filter, Hs.
    - apply filter_NoDup, Hnd.
    - intros x Hx. apply list_elem_of_In, filter_In in Hx as [Hx _].
      apply Hlo, list_elem_of_In, Hx. }
  rewrite <- (reverse_involutive valid).
  rewrite foldl_delete_rows_reverse
    by (apply (increasing_from_weaken 2); [lia|exact Hinc]).
  apply keep_rows_ext. intros i Hi.
  rewrite elem_of_reverse. unfold valid.
  rewrite !list_elem_of_In, filter_In, <- !list_elem_of_In, Hp.
  split; [intros [Hin _]; exact Hin|].
  intros Hin. split; [exact Hin|].
  apply Z.leb_le. unfold Openpyxl.max_row. lia.
Qed.

(** Deletion by row numbers is exact: for distinct row numbers, a call of
    [delete_data] that goes through (no confirmation pending, at most 50
    rows of the sheet named) leaves the sheet with exactly the rows whose
    numbers were not named; row numbers beyond the last row are passed
    over.  When the workbook saves, the call reports what it deleted. *)
Theorem delete_rows_by_number_exact (confirmed : bool) :
  len rows_of_sheet <= 50 ->
  (DeletionData.confirmation_required deletion_data && negb confirmed)%bool = false ->
  let out := delete_data svc disk deletion_data confirmed in
  ExcelService.get_sheet out.2 (DeletionData.target_sheet deletion_data)
  = Some (keep_rows rows 1 sheet)
  /\ (save_workbook svc disk = Ok true ->
      DeletionResult.success out.1 = true
      /\ DeletionResult.affected_rows out.1 = len rows_of_sheet
      /\ DeletionResult.deleted_data out.1 = map row_record rows_of_sheet).
Proof.
  intros Hmax Hconf out. subst out. unfold delete_data.
  rewrite Hvalid, Hsheet. cbn [negb].
  unfold _preview_deletion. rewrite Hrows, preview_specific_rows_exact.
  cbn [negb DeletionResult.success DeletionResult.make_data
       DeletionResult.affected_rows].
  destruct (Z.ltb_spec 50 (len rows_of_sheet)); [lia|].
  rewrite Hconf. unfold _delete_specific_rows.
  rewrite Hrows, preview_specific_rows_exact.
  cbn [negb DeletionResult.success DeletionResult.make_data
       DeletionResult.deleted_data].
  change (foldl _ (sheet, 0) (sorted_reverse rows))
    with (foldl delete_valid_row (sheet, 0) (sorted_reverse rows)).
  rewrite delete_rows_loop.
  split.
  - rewrite commit_sheet. apply (get_put_sheet _ _ sheet), Hsheet.
  - intros Hsave. unfold commit. rewrite (save_after_put _ _ _ _ Hsheet), Hsave.
    repeat split.
Qed.

End Request.

End RowsByNumber.

(** The request "delete the rows of Data with these numbers". *)
Definition delete_numbered (rows : list Z) : DeletionData.t :=
  {| DeletionData.target_sheet := "Data"; DeletionData.conditions := None;
     DeletionData.target_rows := Some rows; DeletionData.target_range := None;
     DeletionData.unique_identifier := None;
     DeletionData.confirmation_required := true |}.

(** Of the rows "a", "b", "c" (rows 2 to 4) the confirmed request for the
    rows 4, 2 and 9 leaves "b". *)
Lemma delete_rows_4_2_9 :
  ExcelService.get_sheet
    (@DataDeletionHandler.delete_data run_time no_ranges
       (data_service [VStr "Name"] [[VStr "a"]; [VStr "b"]; [VStr "c"]])
       healthy_disk (delete_numbered [4; 2; 9]) true).2 "Data"
  = Some [[VStr "Name"]; [VStr "b"]].
Proof.
  refine (proj1 (@delete_rows_by_number_exact run_time no_ranges
                   (data_service [VStr "Name"] [[VStr "a"]; [VStr "b"]; [VStr "c"]])
                   healthy_disk (delete_numbered [4; 2; 9])
                   [[VStr "Name"]; [VStr "a"]; [VStr "b"]; [VStr "c"]]
                   (@ExcelService._analyze_structure run_time
                      [("Data", [[VStr "Name"]; [VStr "a"]; [VStr "b"]; [VStr "c"]])])
                   [4; 2; 9] _ _ _ _ _ true _ _)); try reflexivity.
  - apply (bool_decide_unpack _). vm_compute. exact I.
  - vm_compute. discriminate.
Defined.

(** ** Clearing a range *)

Section RangeClearing.
Import DataDeletionHandler.
Context `{PyRuntime} `{RangeSyntax}.

Lemma py_eq_None (v : pyval) : Py.py_eq v VNone = true <-> v = VNone.
Proof. destruct v as [| | | | | |l|d]; simpl; split; congruence || auto. Qed.

(** Writing a cell that holds a value changes that cell only. *)
Lemma cell_value_set_cell (sh : Worksheet) (r0 c0 r c : Z) (v : pyval) :
  1 <= r0 -> 1 <= c0 -> 1 <= r -> 1 <= c ->
  Openpyxl.cell_value sh r0 c0 <> VNone ->
  Openpyxl.cell_value (Openpyxl.set_cell sh r0 c0 v) r c
  = if bool_decide ((r, c) = (r0, c0)) then v else Openpyxl.cell_value sh r c.
Proof.
  intros Hr0 Hc0 Hr Hc Hv. unfold Openpyxl.set_cell, Openpyxl.cell_value in *.
  destruct (sh !! Z.to_nat (r0 - 1)) as [row|] eqn:Erow; [|contradiction].
  destruct (row !! Z.to_nat (c0 - 1)) as [old|] eqn:Ecol; [|contradiction].
  pose proof (lookup_lt_Some _ _ _ Erow) as Lr.
  pose proof (lookup_lt_Some _ _ _ Ecol) as Lc.
  case_bool_decide as E.
  - injection E as -> ->.
    rewrite list_lookup_insert_eq by exact Lr.
    rewrite list_lookup_insert_eq by exact Lc. reflexivity.
  - destruct (decide (r = r0)) as [->|Hne].
    + rewrite list_lookup_insert_eq by exact Lr. rewrite Erow.
      rewrite list_lookup_insert_ne; [reflexivity|].
      intros Heq. apply E. f_equal. lia.
    + rewrite list_lookup_insert_ne; [reflexivity|]. lia.
Qed.

Lemma length_set_cell (sh : Worksheet) (r c : Z) (v : pyval) :
  length (Openpyxl.set_cell sh r c v) = length sh.
Proof.
  unfold Openpyxl.set_cell. destruct (sh !! _); [apply length_insert|reflexivity].
Qed.

(** The loop of [_delete_specific_range] over the cells of the range. *)
Definition clear_cell : Worksheet * Z -> Z * Z -> Worksheet * Z :=
  fun '(sh, n) '(r, c) =>
    if Py.py_eq (Openpyxl.cell_value sh r c) VNone then (sh, n)
    else (Openpyxl.set_cell sh r c VNone, n + 1).

Lemma clear_cells_spec (cells : list (Z * Z)) :
  (forall r c, (r, c) ∈ cells -> 1 <= r /\ 1 <= c) ->
  forall (sh : Worksheet) (n : Z),
    length (foldl clear_cell (sh, n) cells).1 = length sh
    /\ forall r c, 1 <= r -> 1 <= c ->
         Openpyxl.cell_value (foldl clear_cell (sh, n) cells).1 r c
         = if bool_decide ((r, c) ∈ cells) then VNone
           else Openpyxl.cell_value sh r c.
Proof.
  induction cells as [|[r0 c0] rest IH]; intros Hpos sh n.
  - split; [reflexivity|]. intros r c _ _.
    rewrite bool_decide_false by (intros Hin; inversion Hin). reflexivity.
  - destruct (Hpos r0 c0 ltac:(left)) as [Hr0 Hc0].
    assert (Hrest : forall r c, (r, c) ∈ rest -> 1 <= r /\ 1 <= c)
      by (intros r c Hin; apply Hpos; right; exact Hin).
    cbn [foldl clear_cell].
    destruct (Py.py_eq (Openpyxl.cell_value sh r0 c0) VNone) eqn:E.
    + apply py_eq_None in E. destruct (IH Hrest sh n) as [L V].
      split; [exact L|]. intros r c Hr Hc. rewrite (V r c Hr Hc).
      case_bool_decide as Hin.
      * rewrite bool_decide_true by (right; exact Hin). reflexivity.
      * case_bool_decide as Hin'; [|reflexivity].
        apply elem_of_cons in Hin' as [[= -> ->]|Hin']; [exact E|contradiction].
    + assert (Hv : Openpyxl.cell_value sh r0 c0 <> VNone)
        by (intros Hn; apply py_eq_None in Hn; congruence).
      destruct (IH Hrest (Openpyxl.set_cell sh r0 c0 VNone) (n + 1)) as [L V].
      split; [rewrite L; apply length_set_cell|].
      intros r c Hr Hc. rewrite (V r c Hr Hc).
      rewrite (cell_value_set_cell sh r0 c0 r c VNone Hr0 Hc0 Hr Hc Hv).
      case_bool_decide as Hin.
      * rewrite bool_decide_true by (right; exact Hin). reflexivity.
      * case_bool_decide as Heq.
        -- rewrite bool_decide_true by (rewrite Heq; left). reflexivity.
        -- rewrite bool_decide_false; [reflexivity|].
           intros Hin'. apply elem_of_cons in Hin' as [?|?]; contradiction.
Qed.

(** The cells a range reference stands for. *)
Definition cells_of (ref : Openpyxl.range_ref) : list (Z * Z) :=
  match ref with
  | Openpyxl.SingleCell r c => [(r, c)]
  | Openpyxl.CellBlock cells => cells
  end.

Section Request.
Variables (svc : ExcelService.t) (disk : Disk) (deletion_data : DeletionData.t)
  (sheet : Worksheet) (target : string) (ref : Openpyxl.range_ref).
Hypothesis Hvalid :
  OperationResult.success (_validate_deletion_data svc deletion_data) = true.
Hypothesis Hsheet :
  ExcelService.get_sheet svc (DeletionData.target_sheet deletion_data) = Some sheet.
Hypothesis Hrows : DeletionData.target_rows deletion_data = None.
Hypothesis Hrange : DeletionData.target_range deletion_data = Some target.
Hypothesis Href : resolve_range sheet target = Some ref.
Hypothesis Hcells : forall r c, (r, c) ∈ cells_of ref -> 1 <= r /\ 1 <= c.


End Request.

End RangeClearing.

(** A reference grammar that knows the range "A2:A3". *)
Definition range_A2_A3 : RangeSyntax :=
  {| resolve_range := fun _ s =>
       if String.eqb s "A2:A3" then Some (Openpyxl.CellBlock [(2, 1); (3, 1)])
       else None |}.

Definition clear_range (target : string) : DeletionData.t :=
  {| DeletionData.target_sheet := "Data"; DeletionData.conditions := None;
     DeletionData.target_rows := None; DeletionData.target_range := Some target;
     DeletionData.unique_identifier := None;
     DeletionData.confirmation_required := true |}.


(** ** The time stamp of a backup name *)

Section Timestamps.
Import Backup.

Lemma match_alt_append (alt : list (ascii -> bool)) (z m r rest : string) :
  match_alt alt z = Some (m, r) -> match_alt alt (z +:+ rest) = Some (m, r +:+ rest).
Proof.
  revert z m r. induction alt as [|p ps IH]; intros z m r.
  - simpl. intros [= <- <-]. reflexivity.
  - destruct z as [|c z]; [discriminate|]. cbn [match_alt].
    destruct (p c) eqn:Hp; [|discriminate].
    destruct (match_alt ps z) as [[m' r']|] eqn:E; [|discriminate].
    intros [= <- <-].
    change (String c z +:+ rest) with (String c (z +:+ rest)). cbn [match_alt].
    rewrite Hp, (IH _ _ _ E). reflexivity.
Qed.

Lemma match_alt_fails (alt : list (ascii -> bool)) (z rest : string) :
  match_alt alt z = None -> (length alt <= String.length z)%nat ->
  match_alt alt (z +:+ rest) = None.
Proof.
  revert z. induction alt as [|p ps IH]; intros z; [discriminate|].
  destruct z as [|c z]; [simpl; lia|].
  change (String c z +:+ rest) with (String c (z +:+ rest)). cbn [match_alt].
  destruct (p c); [|reflexivity].
  destruct (match_alt ps z) as [[m' r']|] eqn:E; [discriminate|].
  intros _ Hlen. simpl in Hlen. rewrite (IH z E) by lia. reflexivity.
Qed.

(** Whether the first alternative of a field that matches at the start of
    [z] matches all of [z], the alternatives before it failing on one of
    the characters of [z]. *)
Fixpoint takes (alts : field) (z : string) : bool :=
  match alts with
  | [] => false
  | alt :: more =>
      match match_alt alt z with
      | Some (m, r) => String.eqb m z && String.eqb r ""
      | None => (length alt <=? String.length z)%nat && takes more z
      end
  end.

Lemma append_empty_r (s : string) : s +:+ "" = s.
Proof.
  induction s as [|c s IH]; [reflexivity|].
  change (String c s +:+ "") with (String c (s +:+ "")). rewrite IH. reflexivity.
Qed.

Lemma match_fields_cons (alts : field) (fields : list field) (z rest : string)
  (ms : list string) (remaining : string) :
  takes alts z = true ->
  match_fields fields rest = Some (ms, remaining) ->
  match_fields (alts :: fields) (z +:+ rest) = Some (z :: ms, remaining).
Proof.
  intros Ht Hrest. cbn [match_fields].
  induction alts as [|alt more IH]; [discriminate|].
  cbn [takes] in Ht.
  destruct (match_alt alt z) as [[m r]|] eqn:E.
  - apply andb_true_iff in Ht as [Hm Hr].
    apply String.eqb_eq in Hm, Hr. subst m r.
    rewrite (match_alt_append _ _ _ _ rest E).
    change ("" +:+ rest) with rest. rewrite Hrest. reflexivity.
  - apply andb_true_iff in Ht as [Hlen Hmore]. apply Nat.leb_le in Hlen.
    rewrite (match_alt_fails _ _ rest E Hlen). apply IH, Hmore.
Qed.

(** A component within its range is written with the digits the field of
    the format reads back. *)
Definition reads_back (alts : field) (width : nat) (v : Z) : bool :=
  takes alts (PyStr.zfill width v) && (group_to_Z (PyStr.zfill width v) =? v).

Lemma reads_back_range (alts : field) (width : nat) (lo n v : Z) :
  forallb (reads_back alts width) (seqZ lo n) = true ->
  lo <= v < lo + n ->
  takes alts (PyStr.zfill width v) = true
  /\ group_to_Z (PyStr.zfill width v) = v.
Proof.
  intros Hall Hv. rewrite forallb_forall in Hall.
  specialize (Hall v). unfold reads_back in Hall.
  assert (Hin : In v (seqZ lo n)) by (apply list_elem_of_In, elem_of_seqZ; lia).
  apply Hall, andb_true_iff in Hin as [Ht Hg]. split; [exact Ht|lia].
Qed.

(** The years, century by century. *)
Lemma years_read_back :
  forallb (fun c => forallb (fun y => reads_back re_Y 4 (100 * c + y)) (seqZ 0 100))
    (seqZ 10 90) = true.
Proof. vm_compute. reflexivity. Qed.

Lemma year_reads_back (y : Z) :
  1000 <= y <= 9999 ->
  takes re_Y (PyStr.zfill 4 y) = true /\ group_to_Z (PyStr.zfill 4 y) = y.
Proof.
  intros Hy. pose proof years_read_back as Hall.
  pose proof (Z.div_mod y 100 ltac:(lia)) as Hdiv.
  pose proof (Z.mod_pos_bound y 100 ltac:(lia)) as Hmod.
  rewrite forallb_forall in Hall.
  assert (Hc : In (y / 100) (seqZ 10 90))
    by (apply list_elem_of_In, elem_of_seqZ; lia).
  specialize (Hall _ Hc). rewrite forallb_forall in Hall.
  assert (Hr : In (y mod 100) (seqZ 0 100))
    by (apply list_elem_of_In, elem_of_seqZ; lia).
  specialize (Hall _ Hr).
  replace (100 * (y / 100) + y mod 100) with y in Hall by lia.
  unfold reads_back in Hall. apply andb_true_iff in Hall as [Ht Hg].
  split; [exact Ht|lia].
Qed.
Lemma months_read_back : forallb (reads_back re_m 2) (seqZ 1 12) = true.
Proof. vm_compute. reflexivity. Qed.
Lemma days_read_back : forallb (reads_back re_d 2) (seqZ 1 31) = true.
Proof. vm_compute. reflexivity. Qed.
Lemma hours_read_back : forallb (reads_back re_H 2) (seqZ 0 24) = true.
Proof. vm_compute. reflexivity. Qed.
Lemma minutes_read_back : forallb (reads_back re_M 2) (seqZ 0 60) = true.
Proof. vm_compute. reflexivity. Qed.
Lemma seconds_read_back : forallb (reads_back re_S 2) (seqZ 0 60) = true.
Proof. vm_compute. reflexivity. Qed.

(** The datetimes [create_backup] can see: a calendar date of the years
    1000 to 9999 and a time of day. *)
Definition valid_datetime (t : datetime) : Prop :=
  1000 <= year t <= 9999 /\ 1 <= month t <= 12
  /\ 1 <= day t <= days_in_month (year t) (month t)
  /\ 0 <= hour t <= 23 /\ 0 <= minute t <= 59 /\ 0 <= second t <= 59.

Lemma days_in_month_le (y m : Z) : days_in_month y m <= 31.
Proof.
  unfold days_in_month. destruct (m =? 2); [destruct (is_leap y); lia|].
  destruct (bool_decide _); lia.
Qed.

(** The time stamp in the name of a backup reads back as the time it was
    written from: [strptime] undoes [strftime] for the format
    "%Y%m%d_%H%M%S". *)
Theorem strptime_strftime (t : datetime) :
  valid_datetime t -> strptime (strftime t) = Some t.
Proof.
  intros (Hy & Hm & Hd & Hh & Hmi & Hs).
  pose proof (days_in_month_le (year t) (month t)) as Hd31.
  destruct (year_reads_back (year t) Hy) as [Ty Gy].
  destruct (reads_back_range _ _ _ _ (month t) months_read_back ltac:(lia)) as [Tm Gm].
  destruct (reads_back_range _ _ _ _ (day t) days_read_back ltac:(lia)) as [Td Gd].
  destruct (reads_back_range _ _ _ _ (hour t) hours_read_back ltac:(lia)) as [Th Gh].
  destruct (reads_back_range _ _ _ _ (minute t) minutes_read_back ltac:(lia)) as [Tmi Gmi].
  destruct (reads_back_range _ _ _ _ (second t) seconds_read_back ltac:(lia)) as [Ts Gs].
  unfold strptime, strftime.
  rewrite <- (append_empty_r (PyStr.zfill 2 (second t))).
  rewrite (match_fields_cons re_Y _ _ _ _ _ Ty
             (match_fields_cons re_m _ _ _ _ _ Tm
                (match_fields_cons re_d _ _ _ _ _ Td
                   (match_fields_cons re_sep _ "_" _ _ _ eq_refl
                      (match_fields_cons re_H _ _ _ _ _ Th
                         (match_fields_cons re_M _ _ _ _ _ Tmi
                            (match_fields_cons re_S [] _ "" _ _ Ts eq_refl))))))).
  rewrite Gy, Gm, Gd, Gh, Gmi, Gs. cbn [year month day second].
  destruct (Z.leb_spec 1 (year t)); [|lia].
  destruct (Z.leb_spec (day t) (days_in_month (year t) (month t))); [|lia].
  destruct (Z.leb_spec (second t) 59); [|lia].
  destruct t; reflexivity.
Qed.

End Timestamps.

Lemma strptime_070501 :
  Backup.strptime "20240309_070501" = Some (at_second 1).
Proof.
  apply (strptime_strftime (at_second 1)).
  unfold valid_datetime. vm_compute. repeat split; discriminate.
Defined.

(** ** What the registry holds *)

Section RegistryContents.
Import TemplateRegistry.
Context `{PyRuntime} `{ModuleSystem}.

(** An entry whose reference loads is registered with the function. *)
Lemma register_resolved (reg : t) (c o : string) (cfg : dict) (f : callable) :
  Py.truthy (reference cfg) = true ->
  _load_function (reference cfg) = Ok f ->
  _function_registry (register reg c o cfg) !! registry_key c o = Some f
  /\ _operation_metadata (register reg c o cfg) !! registry_key c o
     = Some {| category := c; operation := o; config := cfg;
               function_path := reference cfg; placeholder := false |}.
Proof.
  intros Et El. unfold register. fold (reference cfg). rewrite Et, El. simpl.
  rewrite !lookup_insert_eq. split; reflexivity.
Qed.

(** What [_load_function] returns is a function of a module. *)
Lemma load_function_Function (function_path : pyval) (f : callable) :
  _load_function function_path = Ok f ->
  exists module_name function_name, f = Function module_name function_name.
Proof.
  unfold _load_function. destruct function_path; try discriminate.
  destruct (PyStr.rsplit_dot s) as [[mp fn]|]; [|discriminate].
  destruct (import_with_fallbacks mp) as [[name module]|]; simpl; [|discriminate].
  destruct (module fn) as [[]|]; try discriminate.
  intros [= <-]. eauto.
Qed.

(** The positive side of the registry: for every catalog entry whose
    function reference loads (and whose key no later entry with a
    reference takes over), the registry holds the loaded function under
    [category.operation], the operation is available, and executing it is
    calling that function of that module with the arguments given. *)
Theorem loaded_function_is_executed
  (operations : list (string * list (string * dict)))
  (before after : list (string * string * dict))
  (c o : string) (cfg : dict) (f : callable) :
  catalog_entries operations = (before ++ (c, o, cfg) :: after)%list ->
  Py.truthy (reference cfg) = true ->
  _load_function (reference cfg) = Ok f ->
  (forall c' o' cfg', In (c', o', cfg') after ->
                      registry_key c' o' = registry_key c o ->
                      Py.truthy (reference cfg') = false) ->
  let reg := _build_registry operations in
  get_function reg c o = Some f
  /\ is_operation_available reg c o = true
  /\ exists module_name function_name,
       f = Function module_name function_name
       /\ forall args,
            execute_operation reg c o args = call module_name function_name args.
Proof.
  intros Hcat Ht Hl Hafter reg.
  assert (Hlook :
            _function_registry reg !! registry_key c o = Some f
            /\ _operation_metadata reg !! registry_key c o
               = Some {| category := c; operation := o; config := cfg;
                         function_path := reference cfg; placeholder := false |}).
  { subst reg. rewrite build_registry_entries, Hcat, foldl_app. simpl.
    destruct (register_entries_other after
                (register (foldl register_entry empty before) c o cfg)
                (registry_key c o) Hafter) as [E1 E2].
    rewrite E1, E2. apply (register_resolved _ _ _ _ _ Ht Hl). }
  destruct Hlook as [Hf Hm].
  split; [exact Hf|].
  split; [unfold is_operation_available; rewrite Hm; reflexivity|].
  destruct (load_function_Function _ _ Hl) as (mn & fn & ->).
  exists mn, fn. split; [reflexivity|].
  intros args. unfold execute_operation, get_function. rewrite Hf. reflexivity.
Qed.

Lemma register_keys (reg : t) (c o : string) (cfg : dict) (key : string) :
  (is_Some (_function_registry (register reg c o cfg) !! key)
   <-> is_Some (_function_registry reg !! key)
       \/ (registry_key c o = key /\ Py.truthy (reference cfg) = true))
  /\ (is_Some (_operation_metadata (register reg c o cfg) !! key)
      <-> is_Some (_operation_metadata reg !! key)
          \/ (registry_key c o = key /\ Py.truthy (reference cfg) = true)).
Proof.
  unfold register. fold (reference cfg).
  destruct (Py.truthy (reference cfg)) eqn:Et.
  - destruct (_load_function (reference cfg)); simpl;
      (destruct (decide (registry_key c o = key)) as [->|Hne];
       [rewrite !lookup_insert_eq|rewrite !lookup_insert_ne by exact Hne]);
      split; split; eauto; intros [?|[? ?]]; eauto; contradiction.
  - split; split; eauto; intros [?|[? ?]]; eauto; discriminate.
Qed.

Lemma registered_keys (entries : list (string * string * dict)) :
  forall (reg : t) (key : string),
    (is_Some (_function_registry (foldl register_entry reg entries) !! key)
     <-> is_Some (_function_registry reg !! key)
         \/ exists c o cfg, In (c, o, cfg) entries /\ registry_key c o = key
                            /\ Py.truthy (reference cfg) = true)
    /\ (is_Some (_operation_metadata (foldl register_entry reg entries) !! key)
        <-> is_Some (_operation_metadata reg !! key)
            \/ exists c o cfg, In (c, o, cfg) entries /\ registry_key c o = key
                               /\ Py.truthy (reference cfg) = true).
Proof.
  induction entries as [|[[c o] cfg] rest IH]; intros reg key.
  - simpl. split; split; eauto; intros [?|(? & ? & ? & [] & _)]; assumption.
  - cbn [foldl].
    change (register_entry reg (c, o, cfg)) with (register reg c o cfg).
    destruct (IH (register reg c o cfg) key) as [IF IM].
    destruct (register_keys reg c o cfg key) as [RF RM].
    rewrite IF, IM, RF, RM.
    split; split.
    + intros [[?|[? ?]]|(c' & o' & cfg' & Hin & Hk & Ht)]; eauto.
      * right. exists c, o, cfg. split; [left; reflexivity|eauto].
      * right. exists c', o', cfg'. split; [right; exact Hin|eauto].
    + intros [?|(c' & o' & cfg' & [[= <- <- <-]|Hin] & Hk & Ht)]; eauto.
      right. eauto 8.
    + intros [[?|[? ?]]|(c' & o' & cfg' & Hin & Hk & Ht)]; eauto.
      * right. exists c, o, cfg. split; [left; reflexivity|eauto].
      * right. exists c', o', cfg'. split; [right; exact Hin|eauto].
    + intros [?|(c' & o' & cfg' & [[= <- <- <-]|Hin] & Hk & Ht)]; eauto.
      right. eauto 8.
Qed.

(** What the registry holds: a key has a function exactly when some
    catalog entry with a function reference that is not empty has that
    key, and the functions and the metadata are kept under the same keys.
    So an operation is unknown to [execute_operation] exactly when no such
    entry exists. *)
Theorem registry_holds_referenced_entries
  (operations : list (string * list (string * dict))) :
  let reg := _build_registry operations in
  (forall key,
     is_Some (_function_registry reg !! key)
     <-> exists c o cfg, In (c, o, cfg) (catalog_entries operations)
                         /\ registry_key c o = key
                         /\ Py.truthy (reference cfg) = true)
  /\ (forall key,
        is_Some (_operation_metadata reg !! key)
        <-> is_Some (_function_registry reg !! key))
  /\ (forall c o args,
        (forall c' o' cfg, In (c', o', cfg) (catalog_entries operations) ->
                           registry_key c' o' = registry_key c o ->
                           Py.truthy (reference cfg) = false) ->
        execute_operation reg c o args
        = Raise KeyError
            ("Operation '" +:+ c +:+ "." +:+ o +:+ "' not found in registry")).
Proof.
  intros reg. subst reg. rewrite build_registry_entries.
  assert (E : forall key,
            (is_Some (_function_registry
                        (foldl register_entry empty (catalog_entries operations)) !! key)
             <-> exists c o cfg, In (c, o, cfg) (catalog_entries operations)
                                 /\ registry_key c o = key
                                 /\ Py.truthy (reference cfg) = true)
            /\ (is_Some (_operation_metadata
                           (foldl register_entry empty (catalog_entries operations)) !! key)
                <-> exists c o cfg, In (c, o, cfg) (catalog_entries operations)
                                    /\ registry_key c o = key
                                    /\ Py.truthy (reference cfg) = true)).
  { intros key.
    destruct (registered_keys (catalog_entries operations) empty key) as [F M].
    rewrite F, M. unfold empty. simpl. rewrite !lookup_empty.
    split; split; eauto; intros [[? [=]]|?]; assumption. }
  split; [intros key; apply E|].
  split; [intros key; destruct (E key) as [F M]; rewrite F, M; reflexivity|].
  intros c o args Hnone. unfold execute_operation, get_function.
  destruct (_function_registry _ !! registry_key c o) as [f|] eqn:Ef; [|reflexivity].
  exfalso. destruct (E (registry_key c o)) as [F _].
  destruct (proj1 F ltac:(rewrite Ef; eauto)) as (c' & o' & cfg & Hin & Hk & Ht).
  rewrite (Hnone _ _ _ Hin Hk) in Ht. discriminate.
Qed.

End RegistryContents.

(** The entry "insert_row" of the small catalog loads from
    [src.operations.crud_handlers], and executing it calls the function. *)
Lemma insert_row_is_executed :
  let reg := @TemplateRegistry._build_registry one_module small_catalog in
  TemplateRegistry.is_operation_available reg "data_operations" "insert_row" = true
  /\ @TemplateRegistry.execute_operation run_time one_module reg
       "data_operations" "insert_row" [VStr "Sales"]
     = Ok (VStr "done").
Proof.
  cbv zeta.
  destruct (@loaded_function_is_executed run_time one_module small_catalog
              []
              [("data_operations", "pivot", [("function", VStr "pivot_tools.pivot")]);
               ("data_operations", "merge", [("function", VStr "")])]
              "data_operations" "insert_row"
              [("function", VStr "crud_handlers.insert_row")]
              (TemplateRegistry.Function "src.operations.crud_handlers" "insert_row"))
    as (_ & Ha & mn & fn & Hf & Hx).
  - reflexivity.
  - reflexivity.
  - vm_compute. reflexivity.
  - intros c' o' cfg' [[= <- <- <-]|[[= <- <- <-]|[]]] E.
    + vm_compute in E. discriminate E.
    + reflexivity.
  - split; [exact Ha|]. rewrite Hx. injection Hf as <- <-. reflexivity.
Defined.

(** ** Confirmation parsing: opposite words *)

Section ConfirmationSafety.
Import ConfirmationHandler.

Lemma positive_phrases_hold_no_negative_word (phrase : string) :
  phrase ∈ positive_responses ->
  negative_found (PyStr.split phrase) = false.
Proof.
  unfold positive_responses. rewrite elem_of_list_to_set. intros Hin.
  repeat (apply elem_of_cons in Hin as [->|Hin]; [vm_compute; reflexivity|]).
  inversion Hin.
Qed.

Lemma negative_phrases_hold_no_positive_word (phrase : string) :
  phrase ∈ negative_responses ->
  positive_found (PyStr.split phrase) = false.
Proof.
  unfold negative_responses. rewrite elem_of_list_to_set. intros Hin.
  repeat (apply elem_of_cons in Hin as [->|Hin]; [vm_compute; reflexivity|]).
  inversion Hin.
Qed.

(** A reply is never taken for a yes when one of its words says no, and
    never for a no when one of its words says yes: with a negative word
    among the white-space separated words of the reply the answer is not
    affirmative, with a positive word it is not negative.  The response
    type is YES, NO or UNKNOWN accordingly, never CANCEL. *)
Theorem opposite_word_is_never_overruled (user_input : string) :
  (negative_found (PyStr.split (normalize user_input)) = true ->
   parse_confirmation_response user_input <> Some true
   /\ get_confirmation_response_type user_input <> YES)
  /\ (positive_found (PyStr.split (normalize user_input)) = true ->
      parse_confirmation_response user_input <> Some false
      /\ get_confirmation_response_type user_input <> NO)
  /\ get_confirmation_response_type user_input <> CANCEL.
Proof.
  assert (Hpos : negative_found (PyStr.split (normalize user_input)) = true ->
                 parse_confirmation_response user_input <> Some true).
  { intros Hneg. unfold parse_confirmation_response.
    destruct (String.eqb user_input ""); [discriminate|].
    case_bool_decide as Hp.
    - rewrite (positive_phrases_hold_no_negative_word _ Hp) in Hneg. discriminate.
    - destruct (bool_decide _); [discriminate|]. rewrite Hneg.
      destruct (positive_found _); discriminate. }
  assert (Hneg : positive_found (PyStr.split (normalize user_input)) = true ->
                 parse_confirmation_response user_input <> Some false).
  { intros Hp. unfold parse_confirmation_response.
    destruct (String.eqb user_input ""); [discriminate|].
    case_bool_decide as Hp'; [discriminate|].
    case_bool_decide as Hn.
    - rewrite (negative_phrases_hold_no_positive_word _ Hn) in Hp. discriminate.
    - rewrite Hp. destruct (negative_found _); discriminate. }
  unfold get_confirmation_response_type.
  split; [|split].
  - intros H. specialize (Hpos H). split; [exact Hpos|].
    destruct (parse_confirmation_response user_input) as [[]|];
      congruence || discriminate.
  - intros H. specialize (Hneg H). split; [exact Hneg|].
    destruct (parse_confirmation_response user_input) as [[]|];
      congruence || discriminate.
  - destruct (parse_confirmation_response user_input) as [[]|]; discriminate.
Qed.

End ConfirmationSafety.

(** ** Outlier reports *)

Section OutlierReports.
Import DataAnalysis.
Context `{PyRuntime} `{Statistics}.

(** The extraction keeps the order of the rows and reads cells that hold
    something. *)
Lemma values_with_rows_cells (sheet : Worksheet) (col_num : Z) (rows : list Z) :
  forall pairs,
    values_with_rows sheet col_num rows = Ok pairs ->
    sublist (map snd pairs) rows
    /\ forall v r, (v, r) ∈ pairs -> Openpyxl.cell_value sheet r col_num <> VNone.
Proof.
  induction rows as [|row rest IH]; intros pairs.
  - intros [= <-]. split; [constructor|]. intros v r Hin. inversion Hin.
  - cbn [values_with_rows].
    assert (Skip : values_with_rows sheet col_num rest = Ok pairs ->
                   sublist (map snd pairs) (row :: rest)
                   /\ forall v r, (v, r) ∈ pairs ->
                                  Openpyxl.cell_value sheet r col_num <> VNone).
    { intros E. destruct (IH _ E) as [S C]. split; [constructor; exact S|exact C]. }
    assert (Keep : forall f,
               Openpyxl.cell_value sheet row col_num <> VNone ->
               (tl ← values_with_rows sheet col_num rest; Ok ((f, row) :: tl)) = Ok pairs ->
               sublist (map snd pairs) (row :: rest)
               /\ forall v r, (v, r) ∈ pairs ->
                              Openpyxl.cell_value sheet r col_num <> VNone).
    { intros f Hcell. destruct (values_with_rows sheet col_num rest) as [tl|] eqn:E;
        simpl; [|discriminate].
      intros [= <-]. destruct (IH _ eq_refl) as [S C].
      split; [simpl; constructor; exact S|].
      intros v r Hin. apply elem_of_cons in Hin as [[= -> ->]|Hin];
        [exact Hcell|exact (C _ _ Hin)]. }
    destruct (Openpyxl.cell_value sheet row col_num) as [|b|z|f|s|t|l|d] eqn:Ecell;
      try exact Skip;
      try (apply Keep; discriminate);
      try (destruct (parse_float _); [apply Keep; discriminate|exact Skip]).
    destruct (float_of_int z) as [f|]; simpl; [|discriminate].
    apply Keep. discriminate.
Qed.

(** An outlier of either method is one of the pairs, low or high. *)
Definition from_pairs (pairs : list (float * Z)) (o : Outlier) : Prop :=
  (value o, row o) ∈ pairs /\ (type o = "low" \/ type o = "high").

Lemma omap_from_pairs (pairs : list (float * Z))
  (pick : float * Z -> option Outlier) :
  (forall v r o, pick (v, r) = Some o ->
                 value o = v /\ row o = r /\ (type o = "low" \/ type o = "high")) ->
  (length (omap pick pairs) <= length pairs)%nat
  /\ forall o, o ∈ omap pick pairs -> from_pairs pairs o.
Proof.
  intros Hpick. induction pairs as [|[v r] rest [IL IH]].
  - split; [reflexivity|]. intros o Hin. inversion Hin.
  - cbn [omap list_omap]. destruct (pick (v, r)) as [o'|] eqn:E.
    + split; [simpl; lia|]. intros o Hin.
      apply elem_of_cons in Hin as [->|Hin].
      * destruct (Hpick _ _ _ E) as (Hv & Hr & Ht). unfold from_pairs.
        rewrite Hv, Hr. split; [left|exact Ht].
      * destruct (IH _ Hin) as [Hp Ht]. split; [right; exact Hp|exact Ht].
    + split; [simpl; lia|]. intros o Hin.
      destruct (IH _ Hin) as [Hp Ht]. split; [right; exact Hp|exact Ht].
Qed.

Lemma iqr_from_pairs (pairs : list (float * Z)) :
  (length (iqr_outliers pairs) <= length pairs)%nat
  /\ forall o, o ∈ iqr_outliers pairs -> from_pairs pairs o.
Proof.
  unfold iqr_outliers. apply omap_from_pairs. intros v r o.
  destruct (_ || _)%bool; [|discriminate].
  intros [= <-]. simpl. repeat split. destruct (PrimFloat.ltb v _); auto.
Qed.

Lemma zscore_from_pairs (pairs : list (float * Z)) (outs : list Outlier) :
  zscore_outliers pairs = Some outs ->
  (length outs <= length pairs)%nat
  /\ forall o, o ∈ outs -> from_pairs pairs o.
Proof.
  unfold zscore_outliers. destruct (PrimFloat.eqb _ 0); [discriminate|].
  intros [= <-]. apply omap_from_pairs. intros v r o.
  destruct (PrimFloat.ltb 2.5 _); [|discriminate].
  intros [= <-]. simpl. repeat split. destruct (PrimFloat.ltb _ v); auto.
Qed.

(** What a successful report of [find_outliers] says: the column was
    found, at least four of its cells below the header gave a number, the
    count is the number of outliers listed and is not above the number of
    values, and every outlier listed sits in a row of the sheet below the
    header whose cell in that column holds something, and is marked low or
    high. *)
Theorem outliers_are_cells_of_the_column (workbook : list (string * Worksheet))
  (sheet_name column method : string) (sheet : Worksheet) (d : OutlierData) :
  Py.dict_get sheet_name workbook = Some sheet ->
  success (find_outliers workbook sheet_name column method) = true ->
  data (find_outliers workbook sheet_name column method) = Some d ->
  exists col_num,
    find_column sheet column = Some col_num
    /\ outlier_count d = Z.of_nat (length (outliers d))
    /\ outlier_count d <= total_values d
    /\ 4 <= total_values d <= Openpyxl.max_row sheet - 1
    /\ forall o, o ∈ outliers d ->
         2 <= row o <= Openpyxl.max_row sheet
         /\ Openpyxl.cell_value sheet (row o) col_num <> VNone
         /\ (type o = "low" \/ type o = "high").
Proof.
  intros Hsheet. unfold find_outliers. rewrite Hsheet.
  destruct (find_column sheet column) as [col_num|]; [|discriminate].
  destruct (values_with_rows sheet col_num _) as [pairs|] eqn:Ev; [|discriminate].
  destruct (values_with_rows_cells _ _ _ _ Ev) as [Hsub Hcells].
  destruct (Nat.ltb_spec (length pairs) 4); [discriminate|].
  assert (Hlen : Z.of_nat (length pairs) <= Openpyxl.max_row sheet - 1).
  { apply sublist_length in Hsub. rewrite length_map, length_seqZ in Hsub.
    unfold Openpyxl.max_row in *. lia. }
  assert (G : forall outs,
             (length outs <= length pairs)%nat ->
             (forall o, o ∈ outs -> from_pairs pairs o) ->
             forall o, o ∈ outs ->
               2 <= row o <= Openpyxl.max_row sheet
               /\ Openpyxl.cell_value sheet (row o) col_num <> VNone
               /\ (type o = "low" \/ type o = "high")).
  { intros outs _ Hfrom o Ho. destruct (Hfrom o Ho) as [Hp Ht].
    split; [|split; [exact (Hcells _ _ Hp)|exact Ht]].
    assert (Hr : row o ∈ seqZ 2 (Openpyxl.max_row sheet - 1)).
    { refine (elem_of_sublist _ _ _ _ Hsub).
      apply list_elem_of_fmap. exists (value o, row o). split; [reflexivity|exact Hp]. }
    apply elem_of_seqZ in Hr. lia. }
  destruct (String.eqb (PyStr.lower method) "iqr").
  - destruct (iqr_from_pairs pairs) as [L F].
    intros _ [= <-]. exists col_num. cbn.
    split; [reflexivity|]. split; [reflexivity|]. split; [lia|]. split; [lia|].
    apply (G _ L F).
  - destruct (String.eqb (PyStr.lower method) "zscore").
    + destruct (zscore_outliers pairs) as [outs|] eqn:Ez; [|discriminate].
      destruct (zscore_from_pairs _ _ Ez) as [L F].
      intros _ [= <-]. exists col_num. cbn.
      split; [reflexivity|]. split; [reflexivity|]. split; [lia|]. split; [lia|].
      apply (G _ L F).
    + intros _ [= <-]. exists col_num. cbn.
      split; [reflexivity|]. split; [reflexivity|]. split; [lia|]. split; [lia|].
      intros o Ho. inversion Ho.
Qed.


End OutlierReports.

(** A numeric library that is not called: the runs below use the IQR
    method or no method at all. *)
Definition no_statistics : Statistics :=
  {| mean := fun _ => 0%float; stdev := fun _ => 0%float;
     round2 := fun x => x; parse_float := fun _ => None |}.

(** On the sample the two outliers of the IQR method sit in rows of
    column A. *)
Lemma sample_outliers_are_cells :
  exists col_num,
    @DataAnalysis.find_column run_time
      ([VStr "Score"]
         :: map (fun z => [VInt z]) [10; 12; 12; 13; 12; 11; 14; 13; 100])
      "A" = Some col_num
    /\ forall o,
         o ∈ [{| DataAnalysis.value := 10; DataAnalysis.row := 2;
                 DataAnalysis.z_score := None; DataAnalysis.type := "low" |};
              {| DataAnalysis.value := 100; DataAnalysis.row := 10;
                 DataAnalysis.z_score := None; DataAnalysis.type := "high" |}] ->
         2 <= DataAnalysis.row o <= 10.
Proof.
  destruct (@outliers_are_cells_of_the_column run_time no_statistics
              sample_workbook "Data" "A" "iqr"
              ([VStr "Score"]
                 :: map (fun z => [VInt z]) [10; 12; 12; 13; 12; 11; 14; 13; 100])
              {| DataAnalysis.column := "A"; DataAnalysis.method := "IQR";
                 DataAnalysis.total_values := 9; DataAnalysis.outlier_count := 2;
                 DataAnalysis.outliers :=
                   [{| DataAnalysis.value := 10; DataAnalysis.row := 2;
                       DataAnalysis.z_score := None; DataAnalysis.type := "low" |};
                    {| DataAnalysis.value := 100; DataAnalysis.row := 10;
                       DataAnalysis.z_score := None; DataAnalysis.type := "high" |}] |})
    as (col_num & Hcol & _ & _ & _ & Hall); try (vm_compute; reflexivity).
  exists col_num. split; [exact Hcol|].
  intros o Ho. exact (proj1 (Hall o Ho)).
Defined.


(** ** Query execution *)

Section QueryExecutionProperties.
Import QueryExecution.
Context `{PyRuntime} `{Builtins}.

(** A request without limit never passes validation. *)
Lemma query_without_limit_fails (svc : ExcelService.t) (query : QueryData.t) :
  QueryData.limit query = None ->
  QueryResult.success (query_data svc query) = false.
Proof.
  intros Hl. unfold query_data, DataQueryHandler.query_data,
    DataQueryHandler._validate_query. rewrite Hl.
  destruct (String.eqb _ ""); [reflexivity|].
  destruct (negb (bool_decide (_ ∈ ExcelService.get_sheet_names svc))); [reflexivity|].
  destruct (negb (bool_decide (_ ∈ ["asc"; "desc"]))); reflexivity.
Qed.

(** [get_cross_sheet_data] cannot succeed on any reference: the queries it
    builds carry no limit, so the first one is turned down by the
    validation of [query_data].  It succeeds exactly on the empty list of
    references; for a sheet of the workbook the failure carries the
    message that asks for a limit. *)
Theorem cross_sheet_data_never_succeeds (svc : ExcelService.t)
  (sheet_references : list (string * string)) :
  (QueryResult.success (get_cross_sheet_data svc sheet_references) = true
   <-> sheet_references = [])
  /\ forall sheet_name column_name rest,
       sheet_references = (sheet_name, column_name) :: rest ->
       sheet_name <> "" ->
       sheet_name ∈ ExcelService.get_sheet_names svc ->
       QueryResult.message (get_cross_sheet_data svc sheet_references)
       = "Failed to get data from sheet '" +:+ sheet_name
         +:+ "': Query result limited to 10000 rows for safety. Please add a limit parameter.".
Proof.
  unfold get_cross_sheet_data. split.
  - destruct sheet_references as [|[sheet_name column_name] rest].
    + split; reflexivity.
    + cbn [cross_sheet_loop]. rewrite query_without_limit_fails by reflexivity.
      cbn. split; discriminate.
  - intros sheet_name column_name rest -> Hname Hin.
    cbn [cross_sheet_loop]. rewrite query_without_limit_fails by reflexivity.
    cbn [negb QueryResult.message QueryResult.make].
    unfold query_data, DataQueryHandler.query_data, DataQueryHandler._validate_query.
    cbn [QueryData.target_sheet QueryData.sort_order QueryData.limit].
    destruct (String.eqb_spec sheet_name ""); [contradiction|].
    rewrite bool_decide_true by exact Hin.
    reflexivity.
Qed.

(** Validation lets through limits from 1 to 10000 only. *)
Lemma validated_limit (svc : ExcelService.t) (query : QueryData.t) :
  OperationResult.success (DataQueryHandler._validate_query svc query) = true ->
  exists l, QueryData.limit query = Some l /\ 1 <= l <= 10000.
Proof.
  unfold DataQueryHandler._validate_query.
  destruct (String.eqb _ ""); [discriminate|].
  destruct (negb (bool_decide (_ ∈ ExcelService.get_sheet_names svc))); [discriminate|].
  destruct (negb (bool_decide (_ ∈ ["asc"; "desc"]))); [discriminate|].
  destruct (QueryData.limit query) as [l|]; [|discriminate].
  destruct (Z.ltb_spec l 1); [discriminate|].
  destruct (Z.ltb_spec 10000 l); [discriminate|].
  intros _. exists l. split; [reflexivity|lia].
Qed.

(** Whatever the filters, the selection and the sort do, a query that
    succeeds carries a limit between 1 and 10000 and returns no more rows
    than its limit; the row count is the number of records returned and
    the message states it. *)
Theorem query_returns_at_most_limit_rows (svc : ExcelService.t)
  (query : QueryData.t) :
  QueryResult.success (query_data svc query) = true ->
  exists l,
    QueryData.limit query = Some l /\ 1 <= l <= 10000
    /\ QueryResult.row_count (query_data svc query)
       = Z.of_nat (length (QueryResult.data (query_data svc query)))
    /\ QueryResult.row_count (query_data svc query) <= l
    /\ QueryResult.message (query_data svc query)
       = "Query executed successfully. Retrieved "
         +:+ PyStr.of_Z (QueryResult.row_count (query_data svc query)) +:+ " rows.".
Proof.
  unfold query_data, DataQueryHandler.query_data.
  destruct (OperationResult.success (DataQueryHandler._validate_query svc query)) eqn:Ev;
    cbn [negb]; [|discriminate].
  destruct (validated_limit _ _ Ev) as (l & Hl & Hrange).
  unfold execute. rewrite Hl.
  destruct (ExcelService.get_sheet svc _) as [sheet|]; [|discriminate].
  destruct (ExcelService.get_structure svc) as [structure|]; [|discriminate].
  destruct (ExcelService.info_headers _) as [|h hs]; [discriminate|].
  destruct (_apply_filters _ _) as [filtered|]; [|discriminate].
  intros _. exists l. cbn [QueryResult.row_count QueryResult.data QueryResult.message].
  split; [reflexivity|]. split; [exact Hrange|]. split; [reflexivity|].
  split; [|reflexivity].
  unfold _apply_limit, slice_to. destruct (Z.leb_spec 0 l); [|lia].
  rewrite length_take. lia.
Qed.

Lemma filter_records_filter (data : list dict) (conds : dict) :
  filter_records data conds = Ok (List.filter (satisfies conds) data).
Proof.
  induction data as [|record rest IH]; [reflexivity|].
  simpl. rewrite record_matches_satisfies, IH. simpl.
  destruct (satisfies conds record); reflexivity.
Qed.

Lemma apply_filters_filter (data : list dict) (conditions : option dict) :
  _apply_filters data conditions
  = Ok (List.filter (satisfies (default [] conditions)) data).
Proof.
  assert (All : List.filter (satisfies []) data = data).
  { induction data as [|r rest IH]; [reflexivity|]. simpl. rewrite IH. reflexivity. }
  destruct conditions as [[|c cs]|]; simpl; rewrite ?All; try reflexivity.
  apply filter_records_filter.
Qed.


Lemma dict_get_set_other {A} (k k' : string) (v : A) (d : list (string * A)) :
  k <> k' -> Py.dict_get k (Py.dict_set k' v d) = Py.dict_get k d.
Proof.
  intros Hne. induction d as [|[k0 v0] rest IH]; simpl.
  - destruct (String.eqb_spec k k'); [contradiction|reflexivity].
  - destruct (String.eqb_spec k' k0) as [->|Hk0]; simpl.
    + destruct (String.eqb_spec k k0); [contradiction|reflexivity].
    + destruct (String.eqb_spec k k0); [reflexivity|exact IH].
Qed.

(** The selection keeps of a record exactly the requested columns it has,
    with their values: a requested column that the record lacks is left
    out without an error, and no other column comes through. *)
Theorem selected_record_lookup (record : dict) (columns : list string) (k : string) :
  Py.dict_get k (selected_record record columns)
  = if bool_decide (k ∈ columns) then Py.dict_get k record else None.
Proof.
  unfold selected_record.
  assert (G : forall (cols : list string) (acc : dict),
             Py.dict_get k
               (foldl (fun selected column =>
                         match Py.dict_get column record with
                         | Some v => Py.dict_set column v selected
                         | None => selected
                         end) acc cols)
             = if bool_decide (k ∈ cols) then
                 match Py.dict_get k record with
                 | Some v => Some v
                 | None => Py.dict_get k acc
                 end
               else Py.dict_get k acc).
  { induction cols as [|c cols IH]; intros acc.
    - rewrite bool_decide_false by (intros Hin; inversion Hin). reflexivity.
    - cbn [foldl]. rewrite IH.
      destruct (decide (k = c)) as [->|Hne].
      + rewrite (bool_decide_true (c ∈ c :: cols)) by left.
        destruct (Py.dict_get c record) as [v|] eqn:Ec.
        * destruct (bool_decide (c ∈ cols)); [reflexivity|apply dict_get_set_eq].
        * destruct (bool_decide (c ∈ cols)); reflexivity.
      + rewrite (bool_decide_ext (k ∈ c :: cols) (k ∈ cols))
          by (rewrite elem_of_cons; split; [intros [?|?]; [contradiction|assumption]|auto]).
        destruct (Py.dict_get c record) as [v|];
          [rewrite dict_get_set_other by exact Hne|]; reflexivity. }
  rewrite G. destruct (bool_decide (k ∈ columns)); [|reflexivity].
  destruct (Py.dict_get k record); reflexivity.
Qed.

Lemma record_contains_iff (search_term : string) (record : dict)
  (search_columns : list string) :
  record_contains search_term record search_columns = true
  <-> exists col v,
        col ∈ search_columns /\ Py.dict_get col record = Some v
        /\ PyStr.contains (PyStr.lower search_term) (PyStr.lower (Py.str v)) = true.
Proof.
  induction search_columns as [|c rest IH]; simpl.
  - split; [discriminate|]. intros (col & v & Hin & _). inversion Hin.
  - destruct (Py.dict_get c record) as [v|] eqn:Ec.
    + destruct (PyStr.contains _ (PyStr.lower (Py.str v))) eqn:Em.
      * split; [|reflexivity]. intros _. exists c, v. split; [left|auto].
      * rewrite IH. split.
        -- intros (col & v' & Hin & Hg & Hm). exists col, v'. split; [right|]; auto.
        -- intros (col & v' & Hin & Hg & Hm). exists col, v'.
           apply elem_of_cons in Hin as [->|Hin]; [|auto].
           rewrite Ec in Hg. injection Hg as <-. congruence.
    + rewrite IH. split.
      * intros (col & v' & Hin & Hg & Hm). exists col, v'. split; [right|]; auto.
      * intros (col & v' & Hin & Hg & Hm). exists col, v'.
        apply elem_of_cons in Hin as [->|Hin]; [congruence|auto].
Qed.


End QueryExecutionProperties.

(** Built-ins that refuse every call, for the runs that do not sort and
    do not aggregate. *)
Definition refusing_builtins : Builtins :=
  {| sorted_by_key := fun _ _ _ => Raise TypeError "not orderable";
     py_sum := fun _ => Raise TypeError "unsupported operand";
     py_truediv := fun _ _ => Raise TypeError "unsupported operand";
     py_min := fun _ => Raise TypeError "not orderable";
     py_max := fun _ => Raise TypeError "not orderable" |}.

(** The stock of a small shop, and the request for the name and the colour
    of the first two articles of which more than one is left. *)
Definition stock_service : ExcelService.t :=
  data_service [VStr "Name"; VStr "Qty"]
    [[VStr "pen"; VInt 3]; [VStr "ink"; VInt 1]; [VStr "cap"; VNone];
     [VStr "pad"; VInt 7]; [VStr "nib"; VInt 9]].

Definition stock_query : QueryData.t :=
  {| QueryData.target_sheet := "Data";
     QueryData.columns := Some ["Name"; "Colour"];
     QueryData.conditions :=
       Some [("Qty", VDict [("operator", VStr ">"); ("value", VInt 1)])];
     QueryData.sort_by := None; QueryData.sort_order := "asc";
     QueryData.limit := Some 2; QueryData.aggregations := None |}.

Lemma stock_query_within_limit :
  QueryResult.row_count
    (@QueryExecution.query_data run_time refusing_builtins stock_service stock_query)
  <= 2.
Proof.
  destruct (@query_returns_at_most_limit_rows run_time refusing_builtins
              stock_service stock_query)
    as (l & Hl & _ & _ & Hle & _); [vm_compute; reflexivity|].
  injection Hl as <-. exact Hle.
Defined.



(** ** Row insertion *)

Section InsertionProperties.
Import DataInsertionHandler OpenpyxlWrite.
Context `{PyRuntime} `{Parsing}.

(** The values [insert_row] stores for the values of a request, from the
    column [col_idx] on. *)
Fixpoint converted (svc : ExcelService.t) (sheet_name : string) (col_idx : Z)
  (values : list pyval) : list pyval :=
  match values with
  | [] => []
  | value :: rest =>
      _validate_and_convert_value svc value sheet_name col_idx
      :: converted svc sheet_name (col_idx + 1) rest
  end.

(** The length of the longest row. *)
Definition widest (ws : Worksheet) : nat :=
  foldr (fun r m => Nat.max (length r) m) O ws.

(** The sheet whose row [i] (from 0) is [row]. *)
Definition with_row (ws : Worksheet) (i : nat) (row : list pyval) : Worksheet :=
  <[i := row]> (fill (S i) [] ws).

(** Row [i] has no cell yet. *)
Definition blank_at (ws : Worksheet) (i : nat) : Prop :=
  ws !! i = None \/ ws !! i = Some [].

Lemma blank_at_tail (r : list pyval) (ws : Worksheet) (i : nat) :
  blank_at (r :: ws) (S i) -> blank_at ws i.
Proof. intros E. exact E. Qed.

Lemma fill_cons {A} (n : nat) (x a : A) (l : list A) :
  fill (S n) x (a :: l) = a :: fill n x l.
Proof. reflexivity. Qed.

Lemma fill_nil {A} (n : nat) (x : A) : fill (S n) x [] = x :: fill n x [].
Proof. unfold fill. simpl. rewrite Nat.sub_0_r. reflexivity. Qed.

Lemma fill_0 {A} (x : A) (l : list A) : fill 0 x l = l.
Proof. unfold fill. simpl. apply app_nil_r. Qed.

Lemma fill_snoc {A} (x v : A) (l : list A) :
  <[length l := v]> (fill (S (length l)) x l) = (l ++ [v])%list.
Proof.
  induction l as [|a l IH]; [reflexivity|].
  simpl length. rewrite fill_cons. simpl. f_equal. exact IH.
Qed.

Lemma with_row_nil (i : nat) (row : list pyval) :
  with_row [] (S i) row = [] :: with_row [] i row.
Proof. unfold with_row. rewrite fill_nil. reflexivity. Qed.

Lemma with_row_cons (r : list pyval) (ws : Worksheet) (i : nat) (row : list pyval) :
  with_row (r :: ws) (S i) row = r :: with_row ws i row.
Proof. reflexivity. Qed.

Lemma widest_with_row (row : list pyval) :
  forall (i : nat) (ws : Worksheet),
    blank_at ws i ->
    widest (with_row ws i row) = Nat.max (length row) (widest ws).
Proof.
  induction i as [|i IH]; intros [|r ws] Hb.
  - simpl. lia.
  - destruct Hb as [Hb|Hb]; [discriminate|]. injection Hb as ->.
    unfold with_row. rewrite fill_cons, fill_0. simpl. lia.
  - rewrite with_row_nil. specialize (IH [] (or_introl eq_refl)).
    simpl in IH |- *. exact IH.
  - rewrite with_row_cons. specialize (IH ws (blank_at_tail _ _ _ Hb)).
    simpl. rewrite IH. lia.
Qed.

Lemma max_column_with_row (ws : Worksheet) (i : nat) (row : list pyval) :
  blank_at ws i ->
  len row <= Openpyxl.max_column ws ->
  Openpyxl.max_column (with_row ws i row) = Openpyxl.max_column ws.
Proof.
  intros Hb Hlen. unfold Openpyxl.max_column in *. fold (widest ws) in *.
  fold (widest (with_row ws i row)). rewrite widest_with_row by exact Hb.
  unfold len in Hlen. lia.
Qed.

(** Writing cell [j] of row [i] (both from 0). *)
Definition write (ws : Worksheet) (i j : nat) (v : pyval) : Worksheet :=
  alter (fun r => <[j := v]> (fill (S j) VNone r)) i (fill (S i) [] ws).

Lemma assign_write (ws : Worksheet) (i j : nat) (v : pyval) :
  assign ws (Z.of_nat i + 1) (Z.of_nat j + 1) v = write ws i j v.
Proof.
  unfold assign, write.
  replace (Z.to_nat (Z.of_nat i + 1 - 1)) with i by lia.
  replace (Z.to_nat (Z.of_nat j + 1 - 1)) with j by lia.
  reflexivity.
Qed.

Lemma write_nil (i j : nat) (v : pyval) :
  write [] (S i) j v = [] :: write [] i j v.
Proof. unfold write. rewrite fill_nil. reflexivity. Qed.

Lemma write_cons (r : list pyval) (ws : Worksheet) (i j : nat) (v : pyval) :
  write (r :: ws) (S i) j v = r :: write ws i j v.
Proof. reflexivity. Qed.

Lemma write_blank (v : pyval) :
  forall (i : nat) (ws : Worksheet),
    blank_at ws i -> write ws i 0 v = with_row ws i [v].
Proof.
  induction i as [|i IH]; intros [|r ws] Hb.
  - reflexivity.
  - destruct Hb as [Hb|Hb]; [discriminate|]. injection Hb as ->. reflexivity.
  - rewrite write_nil, with_row_nil. f_equal. apply IH. left. reflexivity.
  - rewrite write_cons, with_row_cons. f_equal.
    apply IH, (blank_at_tail _ _ _ Hb).
Qed.

Lemma write_with_row (v : pyval) (pre : list pyval) :
  forall (i : nat) (ws : Worksheet),
    write (with_row ws i pre) i (length pre) v = with_row ws i (pre ++ [v]).
Proof.
  induction i as [|i IH]; intros [|r ws].
  - unfold write, with_row. simpl. rewrite fill_snoc. reflexivity.
  - unfold write, with_row. rewrite !fill_cons, !fill_0.
    change (<[0%nat := pre]> (r :: ws)) with (pre :: ws).
    rewrite fill_cons, fill_0.
    change (<[0%nat := (pre ++ [v])%list]> (r :: ws)) with ((pre ++ [v])%list :: ws).
    rewrite <- (fill_snoc VNone v pre). reflexivity.
  - rewrite !with_row_nil, write_cons. f_equal. apply IH.
  - rewrite !with_row_cons, write_cons. f_equal. apply IH.
Qed.

Lemma max_column_pos (ws : Worksheet) : 1 <= Openpyxl.max_column ws.
Proof. unfold Openpyxl.max_column. lia. Qed.

Lemma converted_length (svc : ExcelService.t) (name : string) (values : list pyval) :
  forall c, length (converted svc name c values) = length values.
Proof. induction values as [|v rest IH]; intros c; simpl; [|rewrite IH]; reflexivity. Qed.

Section Loop.
Variables (svc : ExcelService.t) (name : string) (ws : Worksheet) (i : nat).
Hypothesis Hblank : blank_at ws i.

Lemma write_values_with_row (values : list pyval) :
  forall (pre : list pyval) (n : Z),
    len pre <= Openpyxl.max_column ws ->
    write_values svc name (Z.of_nat i + 1) (with_row ws i pre) (len pre + 1) values n
    = (with_row ws i
         (pre ++ converted svc name (len pre + 1)
                   (take (Z.to_nat (Openpyxl.max_column ws - len pre)) values)),
       n + len (take (Z.to_nat (Openpyxl.max_column ws - len pre)) values)).
Proof.
  induction values as [|v rest IH]; intros pre n Hpre.
  - rewrite take_nil. simpl. rewrite app_nil_r, Z.add_0_r. reflexivity.
  - cbn [write_values]. rewrite max_column_with_row by assumption.
    pose proof (max_column_pos ws) as Hpos.
    destruct (Z.ltb_spec (Openpyxl.max_column ws) (len pre + 1)) as [Hfull|Hroom].
    + destruct (Z.ltb_spec 0 (Openpyxl.max_column ws)); [|lia]. cbn [andb].
      replace (Z.to_nat (Openpyxl.max_column ws - len pre)) with O by lia.
      simpl. rewrite app_nil_r, Z.add_0_r. reflexivity.
    + cbn [andb]. rewrite (assign_write _ i (length pre)), write_with_row.
      specialize (IH (pre ++ [_validate_and_convert_value svc v name (len pre + 1)])%list
                    (n + 1)).
      assert (E : len (pre ++ [_validate_and_convert_value svc v name (len pre + 1)])
                  = len pre + 1).
      { unfold len. rewrite length_app. simpl. lia. }
      rewrite E in IH. rewrite IH by lia.
      replace (Z.to_nat (Openpyxl.max_column ws - len pre))
        with (S (Z.to_nat (Openpyxl.max_column ws - (len pre + 1)))) by lia.
      cbn [take converted]. rewrite <- app_assoc. cbn [app].
      f_equal. unfold len. cbn [length]. lia.
Qed.

(** The loop of [insert_row] on a row that has no cell yet: the row gets
    the converted values, as many as the sheet has columns. *)
Lemma write_values_blank (v : pyval) (rest : list pyval) :
  write_values svc name (Z.of_nat i + 1) ws 1 (v :: rest) 0
  = (with_row ws i
       (converted svc name 1
          (take (Z.to_nat (Openpyxl.max_column ws)) (v :: rest))),
     Z.min (len (v :: rest)) (Openpyxl.max_column ws)).
Proof.
  pose proof (max_column_pos ws) as Hpos.
  cbn [write_values].
  destruct (Z.ltb_spec (Openpyxl.max_column ws) 1); [lia|]. cbn [andb].
  rewrite (assign_write _ i 0), write_blank by exact Hblank.
  pose proof (write_values_with_row rest
                [_validate_and_convert_value svc v name 1] 1) as W.
  change (len [_validate_and_convert_value svc v name 1]) with 1 in W.
  change (Z.of_nat 0 + 1) with 1. change (0 + 1) with 1.
  rewrite W by lia.
  replace (Z.to_nat (Openpyxl.max_column ws))
    with (S (Z.to_nat (Openpyxl.max_column ws - 1))) by lia.
  cbn [take converted app]. f_equal.
  unfold len. cbn [length]. rewrite length_take. lia.
Qed.

End Loop.

Lemma with_row_end (ws : Worksheet) (row : list pyval) :
  forall k : nat,
    with_row ws (length ws + k) row = (ws ++ replicate k [] ++ [row])%list.
Proof.
  induction ws as [|r ws IH]; intros k.
  - simpl. induction k as [|k IHk]; [reflexivity|].
    rewrite with_row_nil, IHk. reflexivity.
  - simpl. rewrite with_row_cons, IH. reflexivity.
Qed.

Lemma with_row_middle (x row : list pyval) (l2 : Worksheet) :
  forall l1 : Worksheet,
    with_row (l1 ++ x :: l2) (length l1) row = (l1 ++ row :: l2)%list.
Proof.
  induction l1 as [|r l1 IH].
  - unfold with_row. cbn [length app]. rewrite fill_cons, fill_0. reflexivity.
  - cbn [length app]. rewrite with_row_cons, IH. reflexivity.
Qed.

Lemma widest_app (l1 l2 : Worksheet) :
  widest (l1 ++ l2) = Nat.max (widest l1) (widest l2).
Proof. induction l1 as [|r l1 IH]; simpl; [reflexivity|rewrite IH; lia]. Qed.

Lemma max_column_insert_rows (ws : Worksheet) (idx : Z) :
  Openpyxl.max_column (insert_rows ws idx) = Openpyxl.max_column ws.
Proof.
  unfold insert_rows. destruct (idx <=? _); [|reflexivity].
  unfold Openpyxl.max_column. fold (widest ws).
  match goal with |- context [foldr _ O ?l] => fold (widest l) end.
  rewrite <- (take_drop (Z.to_nat (idx - 1)) ws) at 3.
  rewrite !widest_app. simpl. reflexivity.
Qed.

Lemma dict_get_names {A} (k : string) (v : A) (d : list (string * A)) :
  Py.dict_get k d = Some v -> k ∈ map fst d.
Proof.
  induction d as [|[k' v'] rest IH]; simpl; [discriminate|].
  destruct (String.eqb_spec k k') as [->|Hne]; intros E.
  - left.
  - right. apply IH, E.
Qed.

(** The end of [insert_row], after the loop: save, analyse again, report. *)
Definition conclude (svc : ExcelService.t) (disk : Disk) (row inserted_count : Z)
  : OperationResult.t * ExcelService.t :=
  match DataDeletionHandler.save_workbook svc disk with
  | Raise _ e =>
      (OperationResult.make false ("Failed to insert row: " +:+ e), svc)
  | Ok false =>
      (OperationResult.make false
         "Failed to save workbook after row insertion", svc)
  | Ok true =>
      ({| OperationResult.success := true;
          OperationResult.message :=
            "Successfully inserted row at position " +:+ PyStr.of_Z row
            +:+ " with " +:+ PyStr.of_Z inserted_count +:+ " values";
          OperationResult.affected_rows := 1;
          OperationResult.affected_columns := 0;
          OperationResult.data :=
            Some (VDict [("row", VInt row);
                         ("values_inserted", VInt inserted_count)]);
          OperationResult.warnings := [] |},
       {| ExcelService.workbook := ExcelService.workbook svc;
          ExcelService.file_path := ExcelService.file_path svc;
          ExcelService.structure :=
            option_map ExcelService._analyze_structure
              (ExcelService.workbook svc) |})
  end.

Section Call.
Variables (svc : ExcelService.t) (disk : Disk) (data : InsertionData.t)
  (ws : Worksheet).
Hypothesis Hvalues : InsertionData.values data <> [].
Hypothesis Hmany : len (InsertionData.values data) <= 100.
Hypothesis Hname : InsertionData.target_sheet data <> "".
Hypothesis Hsheet :
  ExcelService.get_sheet svc (InsertionData.target_sheet data) = Some ws.

(** The row a call writes. *)
Definition new_row : list pyval :=
  converted svc (InsertionData.target_sheet data) 1
    (take (Z.to_nat (Openpyxl.max_column ws)) (InsertionData.values data)).

Lemma validation_passes :
  (forall r, InsertionData.target_row data = Some r -> 1 <= r) ->
  OperationResult.success (_validate_row_insertion svc data) = true.
Proof.
  intros Hrow. unfold _validate_row_insertion.
  destruct (InsertionData.values data) as [|v rest] eqn:Ev; [contradiction|].
  destruct (String.eqb_spec (InsertionData.target_sheet data) ""); [contradiction|].
  rewrite bool_decide_eq_true_2.
  2:{ unfold ExcelService.get_sheet_names. unfold ExcelService.get_sheet in Hsheet.
      destruct (ExcelService.workbook svc) as [wb|]; [|discriminate].
      apply (dict_get_names _ _ _ Hsheet). }
  cbn [negb].
  destruct (InsertionData.target_row data) as [r|] eqn:Er.
  - specialize (Hrow r eq_refl). destruct (Z.ltb_spec r 1); [lia|].
    destruct (Z.ltb_spec 100 (len (v :: rest))); [lia|]. reflexivity.
  - destruct (Z.ltb_spec 100 (len (v :: rest))); [lia|]. reflexivity.
Qed.

Lemma save_after_insertion (sheet' : Worksheet) :
  DataDeletionHandler.save_workbook
    (ExcelService.put_sheet svc (InsertionData.target_sheet data) sheet') disk
  = DataDeletionHandler.save_workbook svc disk.
Proof.
  unfold DataDeletionHandler.save_workbook, ExcelService.put_sheet.
  cbn [ExcelService.workbook ExcelService.file_path].
  unfold ExcelService.get_sheet in Hsheet.
  destruct (ExcelService.workbook svc); [reflexivity|discriminate].
Qed.

Lemma sheet_after_insertion (sheet' : Worksheet) :
  ExcelService.get_sheet
    (ExcelService.put_sheet svc (InsertionData.target_sheet data) sheet')
    (InsertionData.target_sheet data) = Some sheet'.
Proof.
  unfold ExcelService.get_sheet, ExcelService.put_sheet.
  cbn [ExcelService.workbook].
  unfold ExcelService.get_sheet in Hsheet.
  destruct (ExcelService.workbook svc) as [wb|]; [|discriminate].
  simpl. apply dict_get_set_eq.
Qed.

(** A call that passes the validation, when the target row [row] (prepared
    as [sheet0]) has no cell yet: the row is written, then the workbook is
    saved. *)
Lemma insert_row_blank (row : Z) (sheet0 : Worksheet) :
  (forall r, InsertionData.target_row data = Some r -> 1 <= r) ->
  match InsertionData.target_row data with
  | None => (Openpyxl.max_row ws + 1, ws)
  | Some r =>
      (r, if r <=? Openpyxl.max_row ws then insert_rows ws r else ws)
  end = (row, sheet0) ->
  1 <= row ->
  blank_at sheet0 (Z.to_nat (row - 1)) ->
  Openpyxl.max_column sheet0 = Openpyxl.max_column ws ->
  insert_row svc disk data
  = conclude
      (ExcelService.put_sheet svc (InsertionData.target_sheet data)
         (with_row sheet0 (Z.to_nat (row - 1)) new_row))
      disk row
      (Z.min (len (InsertionData.values data)) (Openpyxl.max_column ws)).
Proof.
  intros Hrow Htarget Hpos Hb Hcol. unfold insert_row.
  rewrite (validation_passes Hrow). cbn [negb]. rewrite Hsheet, Htarget.
  unfold new_row.
  destruct (InsertionData.values data) as [|v rest] eqn:Ev; [contradiction|].
  pose proof (write_values_blank svc (InsertionData.target_sheet data) sheet0
                (Z.to_nat (row - 1)) Hb v rest) as W.
  replace (Z.of_nat (Z.to_nat (row - 1)) + 1) with row in W by lia.
  rewrite W, Hcol. reflexivity.
Qed.

Lemma conclude_saved (sheet' : Worksheet) (row inserted_count : Z) :
  DataDeletionHandler.save_workbook svc disk = Ok true ->
  let r := conclude
             (ExcelService.put_sheet svc (InsertionData.target_sheet data) sheet')
             disk row inserted_count in
  OperationResult.success r.1 = true
  /\ OperationResult.data r.1
     = Some (VDict [("row", VInt row); ("values_inserted", VInt inserted_count)])
  /\ ExcelService.get_sheet r.2 (InsertionData.target_sheet data) = Some sheet'.
Proof.
  intros Hsave. cbv zeta. unfold conclude. rewrite save_after_insertion, Hsave.
  split; [reflexivity|]. split; [reflexivity|].
  apply sheet_after_insertion.
Qed.

Lemma conclude_unsaved (sheet' : Worksheet) (row inserted_count : Z) :
  DataDeletionHandler.save_workbook svc disk <> Ok true ->
  let r := conclude
             (ExcelService.put_sheet svc (InsertionData.target_sheet data) sheet')
             disk row inserted_count in
  OperationResult.success r.1 = false
  /\ ExcelService.get_sheet r.2 (InsertionData.target_sheet data) = Some sheet'
  /\ ExcelService.get_structure r.2 = ExcelService.get_structure svc.
Proof.
  intros Hsave. cbv zeta. unfold conclude. rewrite save_after_insertion.
  destruct (DataDeletionHandler.save_workbook svc disk) as [[|]|k e];
    [contradiction| |]; (split; [reflexivity|]; split;
                         [apply sheet_after_insertion|reflexivity]).
Qed.

Lemma insert_row_at_the_end :
  InsertionData.target_row data = None ->
  insert_row svc disk data
  = conclude
      (ExcelService.put_sheet svc (InsertionData.target_sheet data)
         (fill 1 [] ws ++ [new_row])%list)
      disk (Openpyxl.max_row ws + 1)
      (Z.min (len (InsertionData.values data)) (Openpyxl.max_column ws)).
Proof.
  intros Hrow.
  assert (Hlast : Z.to_nat (Openpyxl.max_row ws + 1 - 1)
                  = (length ws + (1 - length ws))%nat)
    by (unfold Openpyxl.max_row; lia).
  rewrite (insert_row_blank (Openpyxl.max_row ws + 1) ws).
  - rewrite Hlast, with_row_end. unfold fill. rewrite app_assoc. reflexivity.
  - intros r Hr. rewrite Hrow in Hr. discriminate.
  - rewrite Hrow. reflexivity.
  - unfold Openpyxl.max_row. lia.
  - left. apply lookup_ge_None_2. lia.
  - reflexivity.
Qed.

(** Appending a row: without a target row, the values go to the row after
    the last one, each converted for its column, and only as many as the
    sheet has columns; the other rows stay as they are.  On a sheet without
    any row, row 1 is left blank and the (single) value goes to row 2. *)
Theorem insert_row_appends :
  DataDeletionHandler.save_workbook svc disk = Ok true ->
  InsertionData.target_row data = None ->
  let r := insert_row svc disk data in
  OperationResult.success r.1 = true
  /\ OperationResult.data r.1
     = Some (VDict [("row", VInt (Openpyxl.max_row ws + 1));
                    ("values_inserted",
                     VInt (Z.min (len (InsertionData.values data))
                                 (Openpyxl.max_column ws)))])
  /\ ExcelService.get_sheet r.2 (InsertionData.target_sheet data)
     = Some (fill 1 [] ws ++ [new_row])%list.
Proof.
  intros Hsave Hrow. cbv zeta. rewrite (insert_row_at_the_end Hrow).
  apply conclude_saved, Hsave.
Qed.

(** When the workbook cannot be saved, the call fails, but the row is
    already in the sheet of the open workbook, and the structure is the one
    analysed before: what the service holds in memory no longer agrees with
    the file, and a second attempt appends the row once more. *)
Theorem insert_row_unsaved_row_stays :
  DataDeletionHandler.save_workbook svc disk <> Ok true ->
  InsertionData.target_row data = None ->
  let r := insert_row svc disk data in
  OperationResult.success r.1 = false
  /\ ExcelService.get_sheet r.2 (InsertionData.target_sheet data)
     = Some (fill 1 [] ws ++ [new_row])%list
  /\ ExcelService.get_structure r.2 = ExcelService.get_structure svc.
Proof.
  intros Hsave Hrow. cbv zeta. rewrite (insert_row_at_the_end Hrow).
  apply conclude_unsaved, Hsave.
Qed.

(** Inserting in the middle: with a target row among the rows of the sheet,
    that row and the rows below it move down by one, and the new row takes
    its place.  Row 1 is no exception: a value row can be put above the
    header. *)
Theorem insert_row_shifts_rows_down (row : Z) :
  DataDeletionHandler.save_workbook svc disk = Ok true ->
  InsertionData.target_row data = Some row ->
  1 <= row <= len ws ->
  let r := insert_row svc disk data in
  OperationResult.success r.1 = true
  /\ ExcelService.get_sheet r.2 (InsertionData.target_sheet data)
     = Some (take (Z.to_nat (row - 1)) ws ++ new_row :: drop (Z.to_nat (row - 1)) ws)%list.
Proof.
  intros Hsave Hrow Hin. unfold len in Hin.
  assert (Hshift : insert_rows ws row
                   = (take (Z.to_nat (row - 1)) ws ++ [] :: drop (Z.to_nat (row - 1)) ws)%list).
  { unfold insert_rows. destruct (Z.leb_spec row (Z.of_nat (length ws))); [reflexivity|lia]. }
  assert (Hlen : length (take (Z.to_nat (row - 1)) ws) = Z.to_nat (row - 1))
    by (rewrite length_take; lia).
  cbv zeta. rewrite (insert_row_blank row (insert_rows ws row)).
  - pose proof (with_row_middle [] new_row (drop (Z.to_nat (row - 1)) ws)
                  (take (Z.to_nat (row - 1)) ws)) as M.
    rewrite Hlen in M. rewrite Hshift, M.
    destruct (conclude_saved
                (take (Z.to_nat (row - 1)) ws ++ new_row :: drop (Z.to_nat (row - 1)) ws)%list
                row (Z.min (len (InsertionData.values data)) (Openpyxl.max_column ws))
                Hsave) as (Hs & _ & Hw).
    split; [exact Hs|exact Hw].
  - intros r Hr. rewrite Hrow in Hr. injection Hr as <-. lia.
  - rewrite Hrow. unfold Openpyxl.max_row.
    destruct (Z.leb_spec row (Z.max 1 (Z.of_nat (length ws)))); [reflexivity|lia].
  - lia.
  - right. rewrite Hshift. apply list_lookup_middle. symmetry. exact Hlen.
  - apply max_column_insert_rows.
Qed.

(** Inserting below the sheet: with a target row beyond the last row, no
    row moves, the rows in between stay without cells, and the new row is
    the last one. *)
Theorem insert_row_below_the_sheet (row : Z) :
  DataDeletionHandler.save_workbook svc disk = Ok true ->
  InsertionData.target_row data = Some row ->
  Openpyxl.max_row ws < row ->
  let r := insert_row svc disk data in
  OperationResult.success r.1 = true
  /\ ExcelService.get_sheet r.2 (InsertionData.target_sheet data)
     = Some (fill (Z.to_nat (row - 1)) [] ws ++ [new_row])%list.
Proof.
  intros Hsave Hrow Hout.
  assert (Hmax : Z.of_nat (length ws) < row /\ 1 < row)
    by (unfold Openpyxl.max_row in Hout; lia).
  assert (Hlast : Z.to_nat (row - 1)
                  = (length ws + (Z.to_nat (row - 1) - length ws))%nat) by lia.
  assert (E : with_row ws (Z.to_nat (row - 1)) new_row
              = (fill (Z.to_nat (row - 1)) [] ws ++ [new_row])%list).
  { rewrite Hlast at 1. rewrite with_row_end. unfold fill.
    rewrite app_assoc. reflexivity. }
  cbv zeta. rewrite (insert_row_blank row ws).
  - rewrite E.
    destruct (conclude_saved (fill (Z.to_nat (row - 1)) [] ws ++ [new_row])%list
                row (Z.min (len (InsertionData.values data)) (Openpyxl.max_column ws))
                Hsave) as (Hs & _ & Hw).
    split; [exact Hs|exact Hw].
  - intros r Hr. rewrite Hrow in Hr. injection Hr as <-. lia.
  - rewrite Hrow. destruct (Z.leb_spec row (Openpyxl.max_row ws)); [lia|reflexivity].
  - lia.
  - left. apply lookup_ge_None_2. lia.
  - reflexivity.
Qed.

End Call.

(** The loop of [add_multiple_rows] counts every row once. *)
Lemma add_rows_count (disk_at : Z -> Disk) (rows : list (Z * InsertionData.t)) :
  forall (svc : ExcelService.t) (s f : Z) (e : list string),
    0 <= s -> 0 <= f -> len e = f ->
    let '(svc', s', f', e') := foldl (add_row disk_at) (svc, s, f, e) rows in
    s' + f' = s + f + len rows /\ 0 <= s' /\ 0 <= f' /\ len e' = f'.
Proof.
  induction rows as [|[i row_data] rest IH]; intros svc s f e Hs Hf He.
  - unfold len in *. simpl. lia.
  - cbn [foldl]. unfold add_row at 2.
    destruct (insert_row svc (disk_at i) row_data) as [result svc1].
    destruct (OperationResult.success result).
    + specialize (IH svc1 (s + 1) f e ltac:(lia) Hf He).
      destruct (foldl _ _ rest) as [[[svc' s'] f'] e'].
      unfold len in *. cbn [length]. lia.
    + specialize (IH svc1 s (f + 1)
                    (e ++ ["Row " +:+ PyStr.of_Z (i + 1) +:+ ": "
                           +:+ OperationResult.message result])%list
                    Hs ltac:(lia)).
      destruct (foldl _ _ rest) as [[[svc' s'] f'] e'].
      unfold len in *. rewrite length_app in IH. cbn [length] in *. lia.
Qed.

(** A batch of 1 to 50 rows is accounted for row by row: the rows reported
    as inserted and the warnings, one for each row that failed, add up to
    the batch; and the batch is reported as a success as soon as one row
    was inserted, also when others failed. *)
Theorem add_multiple_rows_accounts_for_every_row (svc : ExcelService.t)
  (disk_at : Z -> Disk) (rows_data : list InsertionData.t) :
  rows_data <> [] ->
  len rows_data <= 50 ->
  let r := (add_multiple_rows svc disk_at rows_data).1 in
  OperationResult.affected_rows r + len (OperationResult.warnings r) = len rows_data
  /\ (OperationResult.success r = true <-> 0 < OperationResult.affected_rows r).
Proof.
  intros Hne Hmany. cbv zeta. unfold add_multiple_rows.
  destruct rows_data as [|row_data rest] eqn:E; [contradiction|]. rewrite <- E in *.
  destruct (Z.ltb_spec 50 (len rows_data)); [lia|].
  pose proof (add_rows_count disk_at (zip (seqZ 0 (len rows_data)) rows_data)
                svc 0 0 [] ltac:(lia) ltac:(lia) eq_refl) as C.
  destruct (foldl _ _ _) as [[[svc' s'] f'] e'].
  assert (L : len (zip (seqZ 0 (len rows_data)) rows_data) = len rows_data).
  { unfold len. rewrite length_zip, length_seqZ. lia. }
  rewrite L in C.
  assert (Hpos : 0 < len rows_data) by (rewrite E; unfold len; cbn [length]; lia).
  destruct (Z.eqb_spec f' 0) as [->|Hf].
  - cbn [fst OperationResult.affected_rows OperationResult.warnings
         OperationResult.success]. unfold len at 1. cbn [length].
    split; [lia|]. split; [lia|reflexivity].
  - destruct (Z.ltb_spec 0 s') as [Hs|Hs].
    + cbn [fst OperationResult.affected_rows OperationResult.warnings
           OperationResult.success].
      split; [lia|]. split; [lia|reflexivity].
    + cbn [fst OperationResult.affected_rows OperationResult.warnings
           OperationResult.success].
      split; [lia|]. split; [discriminate|lia].
Qed.

(** *** The first data row *)

Lemma analysis_of_other_sheets (name : string) (wb : list (string * Worksheet)) :
  name ∉ map fst wb ->
  forall s : ExcelService.ExcelStructure,
    let s' := foldl (fun s '(sheet_name, sheet) =>
                       let '(h, ty, rows, cols) := ExcelService._analyze_sheet sheet in
                       {| ExcelService.sheets := (ExcelService.sheets s ++ [sheet_name])%list;
                          ExcelService.headers := Py.dict_set sheet_name h (ExcelService.headers s);
                          ExcelService.data_types :=
                            Py.dict_set sheet_name ty (ExcelService.data_types s);
                          ExcelService.row_count :=
                            Py.dict_set sheet_name rows (ExcelService.row_count s);
                          ExcelService.column_count :=
                            Py.dict_set sheet_name cols (ExcelService.column_count s) |})
                    s wb in
    Py.dict_get name (ExcelService.headers s') = Py.dict_get name (ExcelService.headers s)
    /\ Py.dict_get name (ExcelService.data_types s')
       = Py.dict_get name (ExcelService.data_types s).
Proof.
  induction wb as [|[n sh] rest IH]; intros Hnotin s; [split; reflexivity|].
  cbn [foldl]. cbv zeta in IH |- *.
  assert (Hn : name <> n) by (intros ->; apply Hnotin; left).
  assert (Hrest : name ∉ map fst rest) by (intros Hin; apply Hnotin; right; exact Hin).
  destruct (ExcelService._analyze_sheet sh) as [[[h ty] rows] cols].
  destruct (IH Hrest
              {| ExcelService.sheets := (ExcelService.sheets s ++ [n])%list;
                 ExcelService.headers := Py.dict_set n h (ExcelService.headers s);
                 ExcelService.data_types := Py.dict_set n ty (ExcelService.data_types s);
                 ExcelService.row_count := Py.dict_set n rows (ExcelService.row_count s);
                 ExcelService.column_count :=
                   Py.dict_set n cols (ExcelService.column_count s) |})
    as [Eh Et].
  rewrite Eh, Et. cbn [ExcelService.headers ExcelService.data_types].
  split; apply dict_get_set_other, Hn.
Qed.

(** The analysis of a workbook records for each sheet the analysis of that
    sheet. *)
Lemma analysis_of_sheet (name : string) (ws : Worksheet) :
  forall (wb : list (string * Worksheet)) (s : ExcelService.ExcelStructure),
    NoDup (map fst wb) ->
    Py.dict_get name wb = Some ws ->
    let s' := foldl (fun s '(sheet_name, sheet) =>
                       let '(h, ty, rows, cols) := ExcelService._analyze_sheet sheet in
                       {| ExcelService.sheets := (ExcelService.sheets s ++ [sheet_name])%list;
                          ExcelService.headers := Py.dict_set sheet_name h (ExcelService.headers s);
                          ExcelService.data_types :=
                            Py.dict_set sheet_name ty (ExcelService.data_types s);
                          ExcelService.row_count :=
                            Py.dict_set sheet_name rows (ExcelService.row_count s);
                          ExcelService.column_count :=
                            Py.dict_set sheet_name cols (ExcelService.column_count s) |})
                    s wb in
    Py.dict_get name (ExcelService.headers s')
    = Some (ExcelService._analyze_sheet ws).1.1.1
    /\ Py.dict_get name (ExcelService.data_types s')
       = Some (ExcelService._analyze_sheet ws).1.1.2.
Proof.
  induction wb as [|[n sh] rest IH]; intros s Hnd Hget; [discriminate|].
  cbn [foldl]. cbv zeta in IH |- *.
  apply NoDup_cons in Hnd as [Hn Hnd]. simpl in Hget.
  destruct (String.eqb_spec name n) as [<-|Hne].
  - injection Hget as ->.
    destruct (analysis_of_other_sheets name rest Hn
                (let '(h, ty, rows, cols) := ExcelService._analyze_sheet ws in
                 {| ExcelService.sheets := (ExcelService.sheets s ++ [name])%list;
                    ExcelService.headers := Py.dict_set name h (ExcelService.headers s);
                    ExcelService.data_types :=
                      Py.dict_set name ty (ExcelService.data_types s);
                    ExcelService.row_count :=
                      Py.dict_set name rows (ExcelService.row_count s);
                    ExcelService.column_count :=
                      Py.dict_set name cols (ExcelService.column_count s) |}))
      as [Eh Et].
    cbv zeta in Eh, Et. rewrite Eh, Et.
    destruct (ExcelService._analyze_sheet ws) as [[[h ty] rows] cols].
    cbn [ExcelService.headers ExcelService.data_types fst snd].
    split; apply dict_get_set_eq.
  - apply IH; assumption.
Qed.

(** A sheet without a data row has nothing to sample: every type the
    analysis records is "empty". *)
Lemma types_without_data_rows (ws : Worksheet) (header : string) :
  (length ws <= 1)%nat ->
  Py.dict_get header (ExcelService._analyze_sheet ws).1.1.2 = None
  \/ Py.dict_get header (ExcelService._analyze_sheet ws).1.1.2 = Some "empty".
Proof.
  intros Hshort. unfold ExcelService._analyze_sheet.
  destruct (negb _); [left; reflexivity|]. cbn [fst snd].
  assert (Hmax : Openpyxl.max_row ws = 1) by (unfold Openpyxl.max_row; lia).
  rewrite Hmax.
  assert (Hty : forall col, ExcelService._detect_column_type ws col 2 (Z.min 10 (1 - 1) + 1)
                            = "empty").
  { intros col. unfold ExcelService._detect_column_type. rewrite Hmax. reflexivity. }
  match goal with
  | |- context [foldl ?f [] ?l] =>
      assert (F : forall l' acc,
                 (Py.dict_get header acc = None \/ Py.dict_get header acc = Some "empty") ->
                 Py.dict_get header (foldl f acc l') = None
                 \/ Py.dict_get header (foldl f acc l') = Some "empty")
  end.
  { induction l' as [|[c h] l' IH]; intros acc Hacc; [exact Hacc|].
    cbn [foldl]. apply IH. rewrite Hty.
    destruct (String.eqb_spec header h) as [->|Hne].
    - right. apply dict_get_set_eq.
    - rewrite dict_get_set_other by exact Hne. exact Hacc. }
  apply F. left. reflexivity.
Qed.

(** While a sheet has no data row (its header row only, or no row at all),
    every value other than [None] and the empty string is stored as its
    text, whatever the column: the first row of numbers put under a header
    arrives as strings. *)
Theorem first_data_row_is_stored_as_text (svc : ExcelService.t)
  (wb : list (string * Worksheet)) (sheet_name : string) (ws : Worksheet)
  (value : pyval) (column_index : Z) :
  ExcelService.workbook svc = Some wb ->
  NoDup (map fst wb) ->
  ExcelService.get_structure svc = Some (ExcelService._analyze_structure wb) ->
  ExcelService.get_sheet svc sheet_name = Some ws ->
  (length ws <= 1)%nat ->
  value <> VNone ->
  value <> VStr "" ->
  _validate_and_convert_value svc value sheet_name column_index
  = VStr (Py.str value).
Proof.
  intros Hwb Hnd Hstr Hsheet Hshort Hnone Hempty.
  unfold ExcelService.get_sheet in Hsheet. rewrite Hwb in Hsheet.
  destruct (analysis_of_sheet sheet_name ws wb
              {| ExcelService.sheets := []; ExcelService.headers := [];
                 ExcelService.data_types := []; ExcelService.row_count := [];
                 ExcelService.column_count := [] |} Hnd Hsheet) as [Eh Et].
  cbv zeta in Eh, Et. fold (ExcelService._analyze_structure wb) in Eh, Et.
  assert (Hexp : expected_type (ExcelService._analyze_structure wb) sheet_name column_index
                 = "text"
                 \/ expected_type (ExcelService._analyze_structure wb) sheet_name
                      column_index = "empty").
  { unfold expected_type, ExcelService.get_sheet_info.
    cbn [ExcelService.info_headers ExcelService.info_data_types].
    rewrite Eh, Et. cbn [default from_option id].
    destruct (column_index <=? _); [|left; reflexivity].
    destruct (_ !! _) as [header|]; [|left; reflexivity].
    destruct (types_without_data_rows ws header Hshort) as [-> | ->];
      [left|right]; reflexivity. }
  unfold _validate_and_convert_value. rewrite Hstr.
  assert (Hv : ((if value is VNone then true else false)
                || Py.py_eq value (VStr ""))%bool = false).
  { destruct value as [|b|z|f|s|t|l|d]; try reflexivity; [contradiction|].
    simpl. destruct (String.eqb_spec s ""); [subst; contradiction|reflexivity]. }
  rewrite Hv. destruct Hexp as [-> | ->]; reflexivity.
Qed.

End InsertionProperties.

(** A run time for the runs below, which convert no text. *)
Definition no_parsing : Parsing :=
  {| int_of_str := fun _ => None; float_of_str := fun _ => None;
     datetime_strptime := fun _ _ => None |}.

(** The request to put a row of three values into "Data". *)
Definition pencil_row (target : option Z) : InsertionData.t :=
  {| InsertionData.values := [VStr "pencil"; VInt 4; VStr "spare"];
     InsertionData.target_sheet := "Data";
     InsertionData.target_row := target;
     InsertionData.target_column := None;
     InsertionData.column_names := None;
     InsertionData.insert_type := "row" |}.

Definition stock_sheet : Worksheet :=
  [[VStr "Name"; VStr "Qty"];
   [VStr "pen"; VInt 3]; [VStr "ink"; VInt 1]; [VStr "cap"; VNone];
   [VStr "pad"; VInt 7]; [VStr "nib"; VInt 9]].

(** Appended to the stock, the row has two cells: the sheet has two
    columns, and the third value is dropped. *)
Lemma append_pencil_row :
  let r := @DataInsertionHandler.insert_row run_time no_parsing stock_service
             healthy_disk (pencil_row None) in
  OperationResult.success r.1 = true
  /\ OperationResult.data r.1
     = Some (VDict [("row", VInt 7); ("values_inserted", VInt 2)])
  /\ ExcelService.get_sheet r.2 "Data"
     = Some (stock_sheet ++ [[VStr "pencil"; VInt 4]])%list.
Proof.
  refine (@insert_row_appends run_time no_parsing stock_service healthy_disk
            (pencil_row None) stock_sheet _ _ _ _ _ _).
  - discriminate.
  - vm_compute. discriminate.
  - discriminate.
  - reflexivity.
  - reflexivity.
  - reflexivity.
Defined.

(** A disk without space left. *)
Definition full_disk : Disk :=
  {| backup_path := None;
     save_outcome := Raise OSError "Insufficient disk space to save file: data.xlsx" |}.

(** On the full disk the call fails; the row is in the sheet all the same. *)
Lemma pencil_row_on_a_full_disk :
  let r := @DataInsertionHandler.insert_row run_time no_parsing stock_service
             full_disk (pencil_row None) in
  OperationResult.success r.1 = false
  /\ ExcelService.get_sheet r.2 "Data"
     = Some (stock_sheet ++ [[VStr "pencil"; VInt 4]])%list
  /\ ExcelService.get_structure r.2 = ExcelService.get_structure stock_service.
Proof.
  refine (@insert_row_unsaved_row_stays run_time no_parsing stock_service full_disk
            (pencil_row None) stock_sheet _ _ _ _ _ _).
  - discriminate.
  - vm_compute. discriminate.
  - discriminate.
  - reflexivity.
  - discriminate.
  - reflexivity.
Defined.

(** Inserted at row 1, the row comes to stand above the header. *)
Lemma pencil_row_above_the_header :
  let r := @DataInsertionHandler.insert_row run_time no_parsing stock_service
             healthy_disk (pencil_row (Some 1)) in
  OperationResult.success r.1 = true
  /\ ExcelService.get_sheet r.2 "Data"
     = Some ([VStr "pencil"; VInt 4] :: stock_sheet).
Proof.
  refine (@insert_row_shifts_rows_down run_time no_parsing stock_service
            healthy_disk (pencil_row (Some 1)) stock_sheet _ _ _ _ 1 _ _ _).
  - discriminate.
  - vm_compute. discriminate.
  - discriminate.
  - reflexivity.
  - reflexivity.
  - reflexivity.
  - vm_compute. split; discriminate.
Defined.

(** Inserted at row 9 of the six rows, the row leaves rows 7 and 8 blank. *)
Lemma pencil_row_below_the_stock :
  let r := @DataInsertionHandler.insert_row run_time no_parsing stock_service
             healthy_disk (pencil_row (Some 9)) in
  OperationResult.success r.1 = true
  /\ ExcelService.get_sheet r.2 "Data"
     = Some (stock_sheet ++ [[]; []; [VStr "pencil"; VInt 4]])%list.
Proof.
  refine (@insert_row_below_the_sheet run_time no_parsing stock_service
            healthy_disk (pencil_row (Some 9)) stock_sheet _ _ _ _ 9 _ _ _).
  - discriminate.
  - vm_compute. discriminate.
  - discriminate.
  - reflexivity.
  - reflexivity.
  - reflexivity.
  - reflexivity.
Defined.

(** A batch of two rows of which the second names row 0: one row is
    inserted, one warning is given, and the batch counts as a success. *)
Lemma batch_of_two_rows :
  let r := (@DataInsertionHandler.add_multiple_rows run_time no_parsing
              stock_service (fun _ => healthy_disk)
              [pencil_row None; pencil_row (Some 0)]).1 in
  OperationResult.affected_rows r + DataInsertionHandler.len (OperationResult.warnings r) = 2
  /\ (OperationResult.success r = true <-> 0 < OperationResult.affected_rows r).
Proof.
  refine (@add_multiple_rows_accounts_for_every_row run_time no_parsing
            stock_service (fun _ => healthy_disk)
            [pencil_row None; pencil_row (Some 0)] _ _).
  - discriminate.
  - vm_compute. discriminate.
Defined.

(** Under the header of a sheet without data, the number 5 is stored as
    the string "5". *)
Lemma five_under_a_header :
  @DataInsertionHandler._validate_and_convert_value run_time no_parsing
    (data_service [VStr "Name"; VStr "Qty"] []) (VInt 5) "Data" 2
  = VStr "5".
Proof.
  refine (@first_data_row_is_stored_as_text run_time no_parsing
            (data_service [VStr "Name"; VStr "Qty"] [])
            [("Data", [[VStr "Name"; VStr "Qty"]])] "Data"
            [[VStr "Name"; VStr "Qty"]] (VInt 5) 2 _ _ _ _ _ _ _).
  - reflexivity.
  - apply NoDup_singleton.
  - reflexivity.
  - reflexivity.
  - vm_compute. repeat constructor.
  - discriminate.
  - discriminate.
Defined.

(** ** Updating a row *)

Section UpdateProperties.
Import DataUpdateHandler OpenpyxlWrite.
Context `{PyRuntime} `{Parsing}.

(** Reading cell [j] of row [i] (both from 0). *)
Definition read (ws : Worksheet) (i j : nat) : pyval :=
  match ws !! i with
  | Some r => default VNone (r !! j)
  | None => VNone
  end.

Lemma fill_lookup_default {A} (n : nat) (x : A) (l : list A) (k : nat) :
  default x (fill n x l !! k) = default x (l !! k).
Proof.
  unfold fill. destruct (Nat.lt_ge_cases k (length l)) as [Hlt|Hge].
  - rewrite lookup_app_l by exact Hlt. reflexivity.
  - rewrite lookup_app_r by exact Hge.
    rewrite (lookup_ge_None_2 l k) by exact Hge. simpl.
    destruct (replicate _ _ !! _) as [y|] eqn:E; [|reflexivity].
    apply lookup_replicate in E as [-> _]. reflexivity.
Qed.

Lemma read_written_row (r : list pyval) (j j' : nat) (v : pyval) :
  default VNone (<[j := v]> (fill (S j) VNone r) !! j')
  = if decide (j' = j) then v else default VNone (r !! j').
Proof.
  destruct (decide (j' = j)) as [->|Hne].
  - rewrite list_lookup_insert_eq; [reflexivity|].
    unfold fill. rewrite length_app, length_replicate. lia.
  - rewrite list_lookup_insert_ne by (intros E; apply Hne; symmetry; exact E).
    apply fill_lookup_default.
Qed.

Lemma read_write (v : pyval) (j : nat) :
  forall (i : nat) (ws : Worksheet) (i' j' : nat),
    read (write ws i j v) i' j'
    = if decide (i' = i /\ j' = j) then v else read ws i' j'.
Proof.
  induction i as [|i IH]; intros [|r ws] [|i'] j'.
  - unfold write, read. simpl. rewrite read_written_row.
    destruct (decide (j' = j)) as [->|Hne].
    + rewrite decide_True by (split; reflexivity). reflexivity.
    + rewrite decide_False by (intros [_ E]; contradiction).
      destruct j'; reflexivity.
  - rewrite decide_False by (intros [E _]; discriminate). reflexivity.
  - unfold write. rewrite fill_cons, fill_0. unfold read. simpl.
    rewrite read_written_row.
    destruct (decide (j' = j)) as [->|Hne].
    + rewrite decide_True by (split; reflexivity). reflexivity.
    + rewrite decide_False by (intros [_ E]; contradiction). reflexivity.
  - rewrite decide_False by (intros [E _]; discriminate).
    unfold write. rewrite fill_cons, fill_0. reflexivity.
  - rewrite write_nil. rewrite decide_False by (intros [E _]; discriminate).
    unfold read. simpl. destruct j'; reflexivity.
  - rewrite write_nil. change (read ([] :: write [] i j v) (S i') j')
      with (read (write [] i j v) i' j').
    rewrite IH. destruct (decide (i' = i /\ j' = j)) as [[-> ->]|Hne].
    + rewrite decide_True by (split; reflexivity). reflexivity.
    + rewrite decide_False by (intros [E1 E2]; apply Hne; split; [lia|exact E2]).
      unfold read. simpl. destruct i'; reflexivity.
  - rewrite write_cons. rewrite decide_False by (intros [E _]; discriminate).
    reflexivity.
  - rewrite write_cons. change (read (r :: write ws i j v) (S i') j')
      with (read (write ws i j v) i' j').
    rewrite IH. destruct (decide (i' = i /\ j' = j)) as [[-> ->]|Hne].
    + rewrite decide_True by (split; reflexivity). reflexivity.
    + rewrite decide_False by (intros [E1 E2]; apply Hne; split; [lia|exact E2]).
      reflexivity.
Qed.

(** Reading after writing: the cell written holds the value, every other
    cell is as before. *)
Lemma cell_value_assign (ws : Worksheet) (row col row' col' : Z) (v : pyval) :
  1 <= row -> 1 <= col -> 1 <= row' -> 1 <= col' ->
  Openpyxl.cell_value (assign ws row col v) row' col'
  = if decide (row' = row /\ col' = col) then v
    else Openpyxl.cell_value ws row' col'.
Proof.
  intros Hr Hc Hr' Hc'.
  replace row with (Z.of_nat (Z.to_nat (row - 1)) + 1) at 1 by lia.
  replace col with (Z.of_nat (Z.to_nat (col - 1)) + 1) at 1 by lia.
  rewrite assign_write.
  change (Openpyxl.cell_value ?w row' col')
    with (read w (Z.to_nat (row' - 1)) (Z.to_nat (col' - 1))).
  rewrite read_write.
  destruct (decide (row' = row /\ col' = col)) as [[-> ->]|Hne].
  - rewrite decide_True by (split; reflexivity). reflexivity.
  - rewrite decide_False by (intros [E1 E2]; apply Hne; split; lia). reflexivity.
Qed.

Lemma index_nonneg (column_name : string) (headers : list string) :
  0 <= index column_name headers.
Proof.
  induction headers as [|h rest IH]; simpl; [lia|].
  destruct (String.eqb h column_name); lia.
Qed.

Lemma index_inj (headers : list string) (k k' : string) :
  k ∈ headers -> k' ∈ headers ->
  index k headers = index k' headers -> k = k'.
Proof.
  induction headers as [|h rest IH]; intros Hk Hk'; [inversion Hk|].
  simpl. pose proof (index_nonneg k rest). pose proof (index_nonneg k' rest).
  destruct (String.eqb_spec h k) as [<-|Hne], (String.eqb_spec h k') as [<-|Hne'];
    intros E; try reflexivity; try lia.
  apply IH; [| |lia].
  - apply elem_of_cons in Hk as [->|Hk]; [contradiction|exact Hk].
  - apply elem_of_cons in Hk' as [->|Hk']; [contradiction|exact Hk'].
Qed.

Section Row.
Variables (sheet_name : string) (headers : list string) (row : Z).
Hypothesis Hrow : 1 <= row.

(** The loop leaves alone every cell of another row, and every cell of a
    column that no update names. *)
Lemma update_cells_frame (updates : dict) :
  forall (st : Worksheet * Z * list dict) (r c : Z),
    1 <= r -> 1 <= c ->
    (r <> row
     \/ forall k, k ∈ map fst updates -> k ∈ headers -> index k headers + 1 <> c) ->
    Openpyxl.cell_value
      (foldl (update_cell_of sheet_name headers row) st updates).1.1 r c
    = Openpyxl.cell_value st.1.1 r c.
Proof.
  induction updates as [|[k v] rest IH]; intros [[sheet n] ch] r c Hr Hc Hout;
    [reflexivity|].
  cbn [foldl]. rewrite IH; [|exact Hr|exact Hc|].
  - unfold update_cell_of. destruct (decide (k ∈ headers)) as [Hin|Hnot].
    + rewrite bool_decide_eq_true_2 by exact Hin. cbn [negb fst].
      pose proof (index_nonneg k headers).
      rewrite cell_value_assign by lia.
      rewrite decide_False; [reflexivity|].
      intros [Er Ec]. destruct Hout as [Hout|Hout]; [contradiction|].
      apply (Hout k); [left|exact Hin|symmetry; exact Ec].
    + rewrite bool_decide_eq_false_2 by exact Hnot. reflexivity.
  - destruct Hout as [Hout|Hout]; [left; exact Hout|right].
    intros k' Hk'. apply Hout. right. exact Hk'.
Qed.

(** The loop writes the converted value of every update that names a
    header, into the first column of that name. *)
Lemma update_cells_written (updates : dict) :
  NoDup (map fst updates) ->
  forall (st : Worksheet * Z * list dict) (k : string) (v : pyval),
    (k, v) ∈ updates -> k ∈ headers ->
    Openpyxl.cell_value
      (foldl (update_cell_of sheet_name headers row) st updates).1.1
      row (index k headers + 1)
    = _validate_and_convert_cell_value v sheet_name
        (Openpyxl.coordinate row (index k headers + 1)).
Proof.
  induction updates as [|[k0 v0] rest IH]; intros Hnd [[sheet n] ch] k v Hin Hk;
    [inversion Hin|].
  cbn [map fst] in Hnd. apply NoDup_cons in Hnd as [Hfresh Hnd].
  pose proof (index_nonneg k headers) as Hidx.
  cbn [foldl]. apply elem_of_cons in Hin as [E|Hin].
  - injection E as <- <-.
    rewrite update_cells_frame; [|lia|lia|].
    + unfold update_cell_of. rewrite bool_decide_eq_true_2 by exact Hk.
      cbn [negb fst]. rewrite cell_value_assign by lia.
      rewrite decide_True by (split; reflexivity). reflexivity.
    + right. intros k' Hk' Hh E. apply Hfresh.
      replace k with k'; [exact Hk'|].
      apply (index_inj headers); [exact Hh|exact Hk|lia].
  - apply IH; assumption.
Qed.

End Row.


End UpdateProperties.

(** The request to set the quantity and the colour in row 3 of "Data". *)
Definition restock_row_3 : UpdateData.t :=
  {| UpdateData.target_sheet := "Data";
     UpdateData.updates := [("Qty", VInt 12); ("Colour", VStr "blue")];
     UpdateData.conditions := None;
     UpdateData.target_row := Some 3;
     UpdateData.target_range := None;
     UpdateData.unique_identifier := None |}.

